(** * allergy-monitor: the structural extractor of [daily_alert/scraper.py]
      and the subject line of [daily_alert/email_builder.py]

    The development embeds the scraper's pure core in Rocq:

    - Python [str] values are [string]s (the UTF-8 bytes of the text).
      [str.strip], [str.lower] and the regex class [\d] are defined on
      code points: they read the bytes one character at a time and follow
      the interpreter's Unicode tables (white space, decimal digits,
      lowercase mappings and the final-sigma rule), which are part of the
      development.
    - A BeautifulSoup document is a rose tree of [Tag]s and
      [NavigableString]s; an element handed out by [find_all] is a node
      together with its chain of ancestors, so that [.parent] is a
      projection.
    - [seen_categories] is a [gset string]; the [readings] list is a [list].
    - [datetime.now()] is the only effect of the core; it is a constructor
      of a small free monad [clockM], run against an oracle that answers
      the successive clock reads.
    - Raised exceptions are values of type [exn] in a sum.
    - [main.py] and [email_sender.py] talk to the console, the environment
      variables, two HTTP sources, the mail server and one file; their
      functions are programs of a second free monad [ioM], run against a
      [world] that holds the answers, and observed through the events they
      leave behind.
    - The page of [build_email_html] is the f-string of the source, piece
      by piece; the values of the weather dictionary are held as the text
      the f-string prints for them. *)

From Stdlib Require Import ZArith Ascii.
From stdpp Require Import base option list strings gmap pretty.

Local Open Scope Z_scope.
Local Open Scope nat_scope.

(** stdpp blocks [simpl] on string concatenation; literals are wanted
    concatenated here. *)
#[local] Arguments String.append !s1 s2 : simpl nomatch.

(** ** Python string primitives *)

Module PyStr.

(** *** Characters

    A [str] is a sequence of code points; it is held as its UTF-8 bytes.
    The functions that Python defines character by character ([str.strip],
    [str.lower], the regex class [\d]) read the bytes one character at a
    time. *)

Definition byte (a : ascii) : N := N_of_ascii a.

Definition between (lo hi : N) (a : ascii) : bool :=
  ((lo <=? byte a) && (byte a <=? hi))%N.

(** A continuation byte, and the six bits it carries. *)
Definition cont (a : ascii) : bool := between 0x80 0xBF a.
Definition low6 (a : ascii) : N := (byte a - 0x80)%N.

(** The first two bytes of a well-formed sequence of three bytes, and of
    one of four (no overlong forms, no surrogates, nothing above
    U+10FFFF). *)
Definition lead3 (a b : ascii) : bool :=
  between 0xE0 0xE0 a && between 0xA0 0xBF b ||
  between 0xE1 0xEC a && cont b ||
  between 0xED 0xED a && between 0x80 0x9F b ||
  between 0xEE 0xEF a && cont b.

Definition lead4 (a b : ascii) : bool :=
  between 0xF0 0xF0 a && between 0x90 0xBF b ||
  between 0xF1 0xF3 a && cont b ||
  between 0xF4 0xF4 a && between 0x80 0x8F b.

(** The character at the front of a text: its code point, its bytes and
    the text after it.  A byte that starts no well-formed sequence is
    passed over as a character without a code point; no text has one. *)
Definition front (s : string) : option (option N * string * string) :=
  match s with
  | EmptyString => None
  | String a s1 =>
      let stray := Some (None, String a EmptyString, s1) in
      if (byte a <? 0x80)%N then Some (Some (byte a), String a EmptyString, s1)
      else
        match s1 with
        | EmptyString => stray
        | String b s2 =>
            if between 0xC2 0xDF a && cont b
            then Some (Some ((byte a - 0xC0) * 64 + low6 b)%N,
                       String a (String b EmptyString), s2)
            else
              match s2 with
              | EmptyString => stray
              | String c s3 =>
                  if lead3 a b && cont c
                  then Some (Some ((byte a - 0xE0) * 4096 + low6 b * 64 + low6 c)%N,
                             String a (String b (String c EmptyString)), s3)
                  else
                    match s3 with
                    | EmptyString => stray
                    | String d s4 =>
                        if lead4 a b && cont c && cont d
                        then Some (Some ((byte a - 0xF0) * 262144 + low6 b * 4096 +
                                         low6 c * 64 + low6 d)%N,
                                   String a (String b (String c (String d EmptyString))), s4)
                        else stray
                    end
              end
        end
  end.

(** A character: its code point and its bytes. *)
Definition char : Type := option N * string.

(** The characters of a text, after the first [skip] bytes. *)
Fixpoint chars_from (skip : nat) (s : string) : list char :=
  match s with
  | EmptyString => []
  | String _ s' =>
      match skip with
      | S k => chars_from k s'
      | O =>
          match front s with
          | Some (c, ch, _) => (c, ch) :: chars_from (String.length ch - 1) s'
          | None => []
          end
      end
  end.

Definition chars (s : string) : list char := chars_from 0 s.

(** [len(s)] *)
Definition len (s : string) : nat := length (chars s).

(** The UTF-8 bytes of a code point. *)
Definition encode (c : N) : string :=
  let b (n : N) := String (ascii_of_N n) in
  (if c <? 0x80 then b c EmptyString
   else if c <? 0x800 then b (0xC0 + c / 64) (b (0x80 + c mod 64) EmptyString)
   else if c <? 0x10000
   then b (0xE0 + c / 4096) (b (0x80 + c / 64 mod 64) (b (0x80 + c mod 64) EmptyString))
   else b (0xF0 + c / 262144)
          (b (0x80 + c / 4096 mod 64)
             (b (0x80 + c / 64 mod 64) (b (0x80 + c mod 64) EmptyString))))%N.

Fixpoint concat (parts : list string) : string :=
  match parts with
  | [] => EmptyString
  | p :: rest => p +:+ concat rest
  end.

(** The text that a list of characters spells. *)
Definition text_of (cs : list char) : string := concat (snd <$> cs).

(** *** The Unicode tables of the interpreter (Unicode 14.0, CPython 3.11) *)

Definition in_ranges (table : list (N * N)) (c : N) : bool :=
  existsb (fun '(lo, hi) => (lo <=? c) && (c <=? hi))%N table.

(** The code points on which [str.isspace] holds, as ranges. *)
Definition WHITESPACE : list (N * N) :=
  [(0x9, 0xD); (0x1C, 0x20); (0x85, 0x85); (0xA0, 0xA0); (0x1680, 0x1680); (0x2000, 0x200A);
   (0x2028, 0x2029); (0x202F, 0x202F); (0x205F, 0x205F); (0x3000, 0x3000)]%N.

(** The decimal digits (general category Nd), which are those the regex
    class [\d] matches in a [str] pattern. *)
Definition DECIMAL : list (N * N) :=
  [(0x30, 0x39); (0x660, 0x669); (0x6F0, 0x6F9); (0x7C0, 0x7C9); (0x966, 0x96F);
   (0x9E6, 0x9EF); (0xA66, 0xA6F); (0xAE6, 0xAEF); (0xB66, 0xB6F); (0xBE6, 0xBEF);
   (0xC66, 0xC6F); (0xCE6, 0xCEF); (0xD66, 0xD6F); (0xDE6, 0xDEF); (0xE50, 0xE59);
   (0xED0, 0xED9); (0xF20, 0xF29); (0x1040, 0x1049); (0x1090, 0x1099); (0x17E0, 0x17E9);
   (0x1810, 0x1819); (0x1946, 0x194F); (0x19D0, 0x19D9); (0x1A80, 0x1A89); (0x1A90, 0x1A99);
   (0x1B50, 0x1B59); (0x1BB0, 0x1BB9); (0x1C40, 0x1C49); (0x1C50, 0x1C59); (0xA620, 0xA629);
   (0xA8D0, 0xA8D9); (0xA900, 0xA909); (0xA9D0, 0xA9D9); (0xA9F0, 0xA9F9); (0xAA50, 0xAA59);
   (0xABF0, 0xABF9); (0xFF10, 0xFF19); (0x104A0, 0x104A9); (0x10D30, 0x10D39);
   (0x11066, 0x1106F); (0x110F0, 0x110F9); (0x11136, 0x1113F); (0x111D0, 0x111D9);
   (0x112F0, 0x112F9); (0x11450, 0x11459); (0x114D0, 0x114D9); (0x11650, 0x11659);
   (0x116C0, 0x116C9); (0x11730, 0x11739); (0x118E0, 0x118E9); (0x11950, 0x11959);
   (0x11C50, 0x11C59); (0x11D50, 0x11D59); (0x11DA0, 0x11DA9); (0x16A60, 0x16A69);
   (0x16AC0, 0x16AC9); (0x16B50, 0x16B59); (0x1D7CE, 0x1D7FF); (0x1E140, 0x1E149);
   (0x1E2F0, 0x1E2F9); (0x1E950, 0x1E959); (0x1FBF0, 0x1FBF9)]%N.

(** The lowercase mappings: [(first, last, step, image of first)] sends
    [first], [first + step], ..., [last] to consecutive images [step]
    apart.  U+0130, the one letter with two code points as its lowercase,
    is not listed. *)
Definition LOWERCASE : list (N * N * N * N) :=
  [(0x41, 0x5A, 1, 0x61); (0xC0, 0xD6, 1, 0xE0); (0xD8, 0xDE, 1, 0xF8);
   (0x100, 0x12E, 2, 0x101); (0x132, 0x136, 2, 0x133); (0x139, 0x147, 2, 0x13A);
   (0x14A, 0x176, 2, 0x14B); (0x178, 0x178, 1, 0xFF); (0x179, 0x17D, 2, 0x17A);
   (0x181, 0x181, 1, 0x253); (0x182, 0x184, 2, 0x183); (0x186, 0x186, 1, 0x254);
   (0x187, 0x187, 1, 0x188); (0x189, 0x18A, 1, 0x256); (0x18B, 0x18B, 1, 0x18C);
   (0x18E, 0x18E, 1, 0x1DD); (0x18F, 0x18F, 1, 0x259); (0x190, 0x190, 1, 0x25B);
   (0x191, 0x191, 1, 0x192); (0x193, 0x193, 1, 0x260); (0x194, 0x194, 1, 0x263);
   (0x196, 0x196, 1, 0x269); (0x197, 0x197, 1, 0x268); (0x198, 0x198, 1, 0x199);
   (0x19C, 0x19C, 1, 0x26F); (0x19D, 0x19D, 1, 0x272); (0x19F, 0x19F, 1, 0x275);
   (0x1A0, 0x1A4, 2, 0x1A1); (0x1A6, 0x1A6, 1, 0x280); (0x1A7, 0x1A7, 1, 0x1A8);
   (0x1A9, 0x1A9, 1, 0x283); (0x1AC, 0x1AC, 1, 0x1AD); (0x1AE, 0x1AE, 1, 0x288);
   (0x1AF, 0x1AF, 1, 0x1B0); (0x1B1, 0x1B2, 1, 0x28A); (0x1B3, 0x1B5, 2, 0x1B4);
   (0x1B7, 0x1B7, 1, 0x292); (0x1B8, 0x1B8, 1, 0x1B9); (0x1BC, 0x1BC, 1, 0x1BD);
   (0x1C4, 0x1C4, 1, 0x1C6); (0x1C5, 0x1C5, 1, 0x1C6); (0x1C7, 0x1C7, 1, 0x1C9);
   (0x1C8, 0x1C8, 1, 0x1C9); (0x1CA, 0x1CA, 1, 0x1CC); (0x1CB, 0x1DB, 2, 0x1CC);
   (0x1DE, 0x1EE, 2, 0x1DF); (0x1F1, 0x1F1, 1, 0x1F3); (0x1F2, 0x1F4, 2, 0x1F3);
   (0x1F6, 0x1F6, 1, 0x195); (0x1F7, 0x1F7, 1, 0x1BF); (0x1F8, 0x21E, 2, 0x1F9);
   (0x220, 0x220, 1, 0x19E); (0x222, 0x232, 2, 0x223); (0x23A, 0x23A, 1, 0x2C65);
   (0x23B, 0x23B, 1, 0x23C); (0x23D, 0x23D, 1, 0x19A); (0x23E, 0x23E, 1, 0x2C66);
   (0x241, 0x241, 1, 0x242); (0x243, 0x243, 1, 0x180); (0x244, 0x244, 1, 0x289);
   (0x245, 0x245, 1, 0x28C); (0x246, 0x24E, 2, 0x247); (0x370, 0x372, 2, 0x371);
   (0x376, 0x376, 1, 0x377); (0x37F, 0x37F, 1, 0x3F3); (0x386, 0x386, 1, 0x3AC);
   (0x388, 0x38A, 1, 0x3AD); (0x38C, 0x38C, 1, 0x3CC); (0x38E, 0x38F, 1, 0x3CD);
   (0x391, 0x3A1, 1, 0x3B1); (0x3A3, 0x3AB, 1, 0x3C3); (0x3CF, 0x3CF, 1, 0x3D7);
   (0x3D8, 0x3EE, 2, 0x3D9); (0x3F4, 0x3F4, 1, 0x3B8); (0x3F7, 0x3F7, 1, 0x3F8);
   (0x3F9, 0x3F9, 1, 0x3F2); (0x3FA, 0x3FA, 1, 0x3FB); (0x3FD, 0x3FF, 1, 0x37B);
   (0x400, 0x40F, 1, 0x450); (0x410, 0x42F, 1, 0x430); (0x460, 0x480, 2, 0x461);
   (0x48A, 0x4BE, 2, 0x48B); (0x4C0, 0x4C0, 1, 0x4CF); (0x4C1, 0x4CD, 2, 0x4C2);
   (0x4D0, 0x52E, 2, 0x4D1); (0x531, 0x556, 1, 0x561); (0x10A0, 0x10C5, 1, 0x2D00);
   (0x10C7, 0x10C7, 1, 0x2D27); (0x10CD, 0x10CD, 1, 0x2D2D); (0x13A0, 0x13EF, 1, 0xAB70);
   (0x13F0, 0x13F5, 1, 0x13F8); (0x1C90, 0x1CBA, 1, 0x10D0); (0x1CBD, 0x1CBF, 1, 0x10FD);
   (0x1E00, 0x1E94, 2, 0x1E01); (0x1E9E, 0x1E9E, 1, 0xDF); (0x1EA0, 0x1EFE, 2, 0x1EA1);
   (0x1F08, 0x1F0F, 1, 0x1F00); (0x1F18, 0x1F1D, 1, 0x1F10); (0x1F28, 0x1F2F, 1, 0x1F20);
   (0x1F38, 0x1F3F, 1, 0x1F30); (0x1F48, 0x1F4D, 1, 0x1F40); (0x1F59, 0x1F5F, 2, 0x1F51);
   (0x1F68, 0x1F6F, 1, 0x1F60); (0x1F88, 0x1F8F, 1, 0x1F80); (0x1F98, 0x1F9F, 1, 0x1F90);
   (0x1FA8, 0x1FAF, 1, 0x1FA0); (0x1FB8, 0x1FB9, 1, 0x1FB0); (0x1FBA, 0x1FBB, 1, 0x1F70);
   (0x1FBC, 0x1FBC, 1, 0x1FB3); (0x1FC8, 0x1FCB, 1, 0x1F72); (0x1FCC, 0x1FCC, 1, 0x1FC3);
   (0x1FD8, 0x1FD9, 1, 0x1FD0); (0x1FDA, 0x1FDB, 1, 0x1F76); (0x1FE8, 0x1FE9, 1, 0x1FE0);
   (0x1FEA, 0x1FEB, 1, 0x1F7A); (0x1FEC, 0x1FEC, 1, 0x1FE5); (0x1FF8, 0x1FF9, 1, 0x1F78);
   (0x1FFA, 0x1FFB, 1, 0x1F7C); (0x1FFC, 0x1FFC, 1, 0x1FF3); (0x2126, 0x2126, 1, 0x3C9);
   (0x212A, 0x212A, 1, 0x6B); (0x212B, 0x212B, 1, 0xE5); (0x2132, 0x2132, 1, 0x214E);
   (0x2160, 0x216F, 1, 0x2170); (0x2183, 0x2183, 1, 0x2184); (0x24B6, 0x24CF, 1, 0x24D0);
   (0x2C00, 0x2C2F, 1, 0x2C30); (0x2C60, 0x2C60, 1, 0x2C61); (0x2C62, 0x2C62, 1, 0x26B);
   (0x2C63, 0x2C63, 1, 0x1D7D); (0x2C64, 0x2C64, 1, 0x27D); (0x2C67, 0x2C6B, 2, 0x2C68);
   (0x2C6D, 0x2C6D, 1, 0x251); (0x2C6E, 0x2C6E, 1, 0x271); (0x2C6F, 0x2C6F, 1, 0x250);
   (0x2C70, 0x2C70, 1, 0x252); (0x2C72, 0x2C72, 1, 0x2C73); (0x2C75, 0x2C75, 1, 0x2C76);
   (0x2C7E, 0x2C7F, 1, 0x23F); (0x2C80, 0x2CE2, 2, 0x2C81); (0x2CEB, 0x2CED, 2, 0x2CEC);
   (0x2CF2, 0x2CF2, 1, 0x2CF3); (0xA640, 0xA66C, 2, 0xA641); (0xA680, 0xA69A, 2, 0xA681);
   (0xA722, 0xA72E, 2, 0xA723); (0xA732, 0xA76E, 2, 0xA733); (0xA779, 0xA77B, 2, 0xA77A);
   (0xA77D, 0xA77D, 1, 0x1D79); (0xA77E, 0xA786, 2, 0xA77F); (0xA78B, 0xA78B, 1, 0xA78C);
   (0xA78D, 0xA78D, 1, 0x265); (0xA790, 0xA792, 2, 0xA791); (0xA796, 0xA7A8, 2, 0xA797);
   (0xA7AA, 0xA7AA, 1, 0x266); (0xA7AB, 0xA7AB, 1, 0x25C); (0xA7AC, 0xA7AC, 1, 0x261);
   (0xA7AD, 0xA7AD, 1, 0x26C); (0xA7AE, 0xA7AE, 1, 0x26A); (0xA7B0, 0xA7B0, 1, 0x29E);
   (0xA7B1, 0xA7B1, 1, 0x287); (0xA7B2, 0xA7B2, 1, 0x29D); (0xA7B3, 0xA7B3, 1, 0xAB53);
   (0xA7B4, 0xA7C2, 2, 0xA7B5); (0xA7C4, 0xA7C4, 1, 0xA794); (0xA7C5, 0xA7C5, 1, 0x282);
   (0xA7C6, 0xA7C6, 1, 0x1D8E); (0xA7C7, 0xA7C9, 2, 0xA7C8); (0xA7D0, 0xA7D0, 1, 0xA7D1);
   (0xA7D6, 0xA7D8, 2, 0xA7D7); (0xA7F5, 0xA7F5, 1, 0xA7F6); (0xFF21, 0xFF3A, 1, 0xFF41);
   (0x10400, 0x10427, 1, 0x10428); (0x104B0, 0x104D3, 1, 0x104D8);
   (0x10570, 0x1057A, 1, 0x10597); (0x1057C, 0x1058A, 1, 0x105A3);
   (0x1058C, 0x10592, 1, 0x105B3); (0x10594, 0x10595, 1, 0x105BB);
   (0x10C80, 0x10CB2, 1, 0x10CC0); (0x118A0, 0x118BF, 1, 0x118C0);
   (0x16E40, 0x16E5F, 1, 0x16E60); (0x1E900, 0x1E921, 1, 0x1E922)]%N.

(** The cased letters (property Cased). *)
Definition CASED : list (N * N) :=
  [(0x41, 0x5A); (0x61, 0x7A); (0xAA, 0xAA); (0xB5, 0xB5); (0xBA, 0xBA); (0xC0, 0xD6);
   (0xD8, 0xF6); (0xF8, 0x1BA); (0x1BC, 0x1BF); (0x1C4, 0x293); (0x295, 0x2B8); (0x2C0, 0x2C1);
   (0x2E0, 0x2E4); (0x345, 0x345); (0x370, 0x373); (0x376, 0x377); (0x37A, 0x37D);
   (0x37F, 0x37F); (0x386, 0x386); (0x388, 0x38A); (0x38C, 0x38C); (0x38E, 0x3A1);
   (0x3A3, 0x3F5); (0x3F7, 0x481); (0x48A, 0x52F); (0x531, 0x556); (0x560, 0x588);
   (0x10A0, 0x10C5); (0x10C7, 0x10C7); (0x10CD, 0x10CD); (0x10D0, 0x10FA); (0x10FD, 0x10FF);
   (0x13A0, 0x13F5); (0x13F8, 0x13FD); (0x1C80, 0x1C88); (0x1C90, 0x1CBA); (0x1CBD, 0x1CBF);
   (0x1D00, 0x1DBF); (0x1E00, 0x1F15); (0x1F18, 0x1F1D); (0x1F20, 0x1F45); (0x1F48, 0x1F4D);
   (0x1F50, 0x1F57); (0x1F59, 0x1F59); (0x1F5B, 0x1F5B); (0x1F5D, 0x1F5D); (0x1F5F, 0x1F7D);
   (0x1F80, 0x1FB4); (0x1FB6, 0x1FBC); (0x1FBE, 0x1FBE); (0x1FC2, 0x1FC4); (0x1FC6, 0x1FCC);
   (0x1FD0, 0x1FD3); (0x1FD6, 0x1FDB); (0x1FE0, 0x1FEC); (0x1FF2, 0x1FF4); (0x1FF6, 0x1FFC);
   (0x2071, 0x2071); (0x207F, 0x207F); (0x2090, 0x209C); (0x2102, 0x2102); (0x2107, 0x2107);
   (0x210A, 0x2113); (0x2115, 0x2115); (0x2119, 0x211D); (0x2124, 0x2124); (0x2126, 0x2126);
   (0x2128, 0x2128); (0x212A, 0x212D); (0x212F, 0x2134); (0x2139, 0x2139); (0x213C, 0x213F);
   (0x2145, 0x2149); (0x214E, 0x214E); (0x2160, 0x217F); (0x2183, 0x2184); (0x24B6, 0x24E9);
   (0x2C00, 0x2CE4); (0x2CEB, 0x2CEE); (0x2CF2, 0x2CF3); (0x2D00, 0x2D25); (0x2D27, 0x2D27);
   (0x2D2D, 0x2D2D); (0xA640, 0xA66D); (0xA680, 0xA69D); (0xA722, 0xA787); (0xA78B, 0xA78E);
   (0xA790, 0xA7CA); (0xA7D0, 0xA7D1); (0xA7D3, 0xA7D3); (0xA7D5, 0xA7D9); (0xA7F5, 0xA7F6);
   (0xA7F8, 0xA7FA); (0xAB30, 0xAB5A); (0xAB5C, 0xAB68); (0xAB70, 0xABBF); (0xFB00, 0xFB06);
   (0xFB13, 0xFB17); (0xFF21, 0xFF3A); (0xFF41, 0xFF5A); (0x10400, 0x1044F);
   (0x104B0, 0x104D3); (0x104D8, 0x104FB); (0x10570, 0x1057A); (0x1057C, 0x1058A);
   (0x1058C, 0x10592); (0x10594, 0x10595); (0x10597, 0x105A1); (0x105A3, 0x105B1);
   (0x105B3, 0x105B9); (0x105BB, 0x105BC); (0x10780, 0x10780); (0x10783, 0x10785);
   (0x10787, 0x107B0); (0x107B2, 0x107BA); (0x10C80, 0x10CB2); (0x10CC0, 0x10CF2);
   (0x118A0, 0x118DF); (0x16E40, 0x16E7F); (0x1D400, 0x1D454); (0x1D456, 0x1D49C);
   (0x1D49E, 0x1D49F); (0x1D4A2, 0x1D4A2); (0x1D4A5, 0x1D4A6); (0x1D4A9, 0x1D4AC);
   (0x1D4AE, 0x1D4B9); (0x1D4BB, 0x1D4BB); (0x1D4BD, 0x1D4C3); (0x1D4C5, 0x1D505);
   (0x1D507, 0x1D50A); (0x1D50D, 0x1D514); (0x1D516, 0x1D51C); (0x1D51E, 0x1D539);
   (0x1D53B, 0x1D53E); (0x1D540, 0x1D544); (0x1D546, 0x1D546); (0x1D54A, 0x1D550);
   (0x1D552, 0x1D6A5); (0x1D6A8, 0x1D6C0); (0x1D6C2, 0x1D6DA); (0x1D6DC, 0x1D6FA);
   (0x1D6FC, 0x1D714); (0x1D716, 0x1D734); (0x1D736, 0x1D74E); (0x1D750, 0x1D76E);
   (0x1D770, 0x1D788); (0x1D78A, 0x1D7A8); (0x1D7AA, 0x1D7C2); (0x1D7C4, 0x1D7CB);
   (0x1DF00, 0x1DF09); (0x1DF0B, 0x1DF1E); (0x1E900, 0x1E943); (0x1F130, 0x1F149);
   (0x1F150, 0x1F169); (0x1F170, 0x1F189)]%N.

(** The characters that case mapping looks through (property
    Case_Ignorable). *)
Definition CASE_IGNORABLE : list (N * N) :=
  [(0x27, 0x27); (0x2E, 0x2E); (0x3A, 0x3A); (0x5E, 0x5E); (0x60, 0x60); (0xA8, 0xA8);
   (0xAD, 0xAD); (0xAF, 0xAF); (0xB4, 0xB4); (0xB7, 0xB8); (0x2B0, 0x36F); (0x374, 0x375);
   (0x37A, 0x37A); (0x384, 0x385); (0x387, 0x387); (0x483, 0x489); (0x559, 0x559);
   (0x55F, 0x55F); (0x591, 0x5BD); (0x5BF, 0x5BF); (0x5C1, 0x5C2); (0x5C4, 0x5C5);
   (0x5C7, 0x5C7); (0x5F4, 0x5F4); (0x600, 0x605); (0x610, 0x61A); (0x61C, 0x61C);
   (0x640, 0x640); (0x64B, 0x65F); (0x670, 0x670); (0x6D6, 0x6DD); (0x6DF, 0x6E8);
   (0x6EA, 0x6ED); (0x70F, 0x70F); (0x711, 0x711); (0x730, 0x74A); (0x7A6, 0x7B0);
   (0x7EB, 0x7F5); (0x7FA, 0x7FA); (0x7FD, 0x7FD); (0x816, 0x82D); (0x859, 0x85B);
   (0x888, 0x888); (0x890, 0x891); (0x898, 0x89F); (0x8C9, 0x902); (0x93A, 0x93A);
   (0x93C, 0x93C); (0x941, 0x948); (0x94D, 0x94D); (0x951, 0x957); (0x962, 0x963);
   (0x971, 0x971); (0x981, 0x981); (0x9BC, 0x9BC); (0x9C1, 0x9C4); (0x9CD, 0x9CD);
   (0x9E2, 0x9E3); (0x9FE, 0x9FE); (0xA01, 0xA02); (0xA3C, 0xA3C); (0xA41, 0xA42);
   (0xA47, 0xA48); (0xA4B, 0xA4D); (0xA51, 0xA51); (0xA70, 0xA71); (0xA75, 0xA75);
   (0xA81, 0xA82); (0xABC, 0xABC); (0xAC1, 0xAC5); (0xAC7, 0xAC8); (0xACD, 0xACD);
   (0xAE2, 0xAE3); (0xAFA, 0xAFF); (0xB01, 0xB01); (0xB3C, 0xB3C); (0xB3F, 0xB3F);
   (0xB41, 0xB44); (0xB4D, 0xB4D); (0xB55, 0xB56); (0xB62, 0xB63); (0xB82, 0xB82);
   (0xBC0, 0xBC0); (0xBCD, 0xBCD); (0xC00, 0xC00); (0xC04, 0xC04); (0xC3C, 0xC3C);
   (0xC3E, 0xC40); (0xC46, 0xC48); (0xC4A, 0xC4D); (0xC55, 0xC56); (0xC62, 0xC63);
   (0xC81, 0xC81); (0xCBC, 0xCBC); (0xCBF, 0xCBF); (0xCC6, 0xCC6); (0xCCC, 0xCCD);
   (0xCE2, 0xCE3); (0xD00, 0xD01); (0xD3B, 0xD3C); (0xD41, 0xD44); (0xD4D, 0xD4D);
   (0xD62, 0xD63); (0xD81, 0xD81); (0xDCA, 0xDCA); (0xDD2, 0xDD4); (0xDD6, 0xDD6);
   (0xE31, 0xE31); (0xE34, 0xE3A); (0xE46, 0xE4E); (0xEB1, 0xEB1); (0xEB4, 0xEBC);
   (0xEC6, 0xEC6); (0xEC8, 0xECD); (0xF18, 0xF19); (0xF35, 0xF35); (0xF37, 0xF37);
   (0xF39, 0xF39); (0xF71, 0xF7E); (0xF80, 0xF84); (0xF86, 0xF87); (0xF8D, 0xF97);
   (0xF99, 0xFBC); (0xFC6, 0xFC6); (0x102D, 0x1030); (0x1032, 0x1037); (0x1039, 0x103A);
   (0x103D, 0x103E); (0x1058, 0x1059); (0x105E, 0x1060); (0x1071, 0x1074); (0x1082, 0x1082);
   (0x1085, 0x1086); (0x108D, 0x108D); (0x109D, 0x109D); (0x10FC, 0x10FC); (0x135D, 0x135F);
   (0x1712, 0x1714); (0x1732, 0x1733); (0x1752, 0x1753); (0x1772, 0x1773); (0x17B4, 0x17B5);
   (0x17B7, 0x17BD); (0x17C6, 0x17C6); (0x17C9, 0x17D3); (0x17D7, 0x17D7); (0x17DD, 0x17DD);
   (0x180B, 0x180F); (0x1843, 0x1843); (0x1885, 0x1886); (0x18A9, 0x18A9); (0x1920, 0x1922);
   (0x1927, 0x1928); (0x1932, 0x1932); (0x1939, 0x193B); (0x1A17, 0x1A18); (0x1A1B, 0x1A1B);
   (0x1A56, 0x1A56); (0x1A58, 0x1A5E); (0x1A60, 0x1A60); (0x1A62, 0x1A62); (0x1A65, 0x1A6C);
   (0x1A73, 0x1A7C); (0x1A7F, 0x1A7F); (0x1AA7, 0x1AA7); (0x1AB0, 0x1ACE); (0x1B00, 0x1B03);
   (0x1B34, 0x1B34); (0x1B36, 0x1B3A); (0x1B3C, 0x1B3C); (0x1B42, 0x1B42); (0x1B6B, 0x1B73);
   (0x1B80, 0x1B81); (0x1BA2, 0x1BA5); (0x1BA8, 0x1BA9); (0x1BAB, 0x1BAD); (0x1BE6, 0x1BE6);
   (0x1BE8, 0x1BE9); (0x1BED, 0x1BED); (0x1BEF, 0x1BF1); (0x1C2C, 0x1C33); (0x1C36, 0x1C37);
   (0x1C78, 0x1C7D); (0x1CD0, 0x1CD2); (0x1CD4, 0x1CE0); (0x1CE2, 0x1CE8); (0x1CED, 0x1CED);
   (0x1CF4, 0x1CF4); (0x1CF8, 0x1CF9); (0x1D2C, 0x1D6A); (0x1D78, 0x1D78); (0x1D9B, 0x1DFF);
   (0x1FBD, 0x1FBD); (0x1FBF, 0x1FC1); (0x1FCD, 0x1FCF); (0x1FDD, 0x1FDF); (0x1FED, 0x1FEF);
   (0x1FFD, 0x1FFE); (0x200B, 0x200F); (0x2018, 0x2019); (0x2024, 0x2024); (0x2027, 0x2027);
   (0x202A, 0x202E); (0x2060, 0x2064); (0x2066, 0x206F); (0x2071, 0x2071); (0x207F, 0x207F);
   (0x2090, 0x209C); (0x20D0, 0x20F0); (0x2C7C, 0x2C7D); (0x2CEF, 0x2CF1); (0x2D6F, 0x2D6F);
   (0x2D7F, 0x2D7F); (0x2DE0, 0x2DFF); (0x2E2F, 0x2E2F); (0x3005, 0x3005); (0x302A, 0x302D);
   (0x3031, 0x3035); (0x303B, 0x303B); (0x3099, 0x309E); (0x30FC, 0x30FE); (0xA015, 0xA015);
   (0xA4F8, 0xA4FD); (0xA60C, 0xA60C); (0xA66F, 0xA672); (0xA674, 0xA67D); (0xA67F, 0xA67F);
   (0xA69C, 0xA69F); (0xA6F0, 0xA6F1); (0xA700, 0xA721); (0xA770, 0xA770); (0xA788, 0xA78A);
   (0xA7F2, 0xA7F4); (0xA7F8, 0xA7F9); (0xA802, 0xA802); (0xA806, 0xA806); (0xA80B, 0xA80B);
   (0xA825, 0xA826); (0xA82C, 0xA82C); (0xA8C4, 0xA8C5); (0xA8E0, 0xA8F1); (0xA8FF, 0xA8FF);
   (0xA926, 0xA92D); (0xA947, 0xA951); (0xA980, 0xA982); (0xA9B3, 0xA9B3); (0xA9B6, 0xA9B9);
   (0xA9BC, 0xA9BD); (0xA9CF, 0xA9CF); (0xA9E5, 0xA9E6); (0xAA29, 0xAA2E); (0xAA31, 0xAA32);
   (0xAA35, 0xAA36); (0xAA43, 0xAA43); (0xAA4C, 0xAA4C); (0xAA70, 0xAA70); (0xAA7C, 0xAA7C);
   (0xAAB0, 0xAAB0); (0xAAB2, 0xAAB4); (0xAAB7, 0xAAB8); (0xAABE, 0xAABF); (0xAAC1, 0xAAC1);
   (0xAADD, 0xAADD); (0xAAEC, 0xAAED); (0xAAF3, 0xAAF4); (0xAAF6, 0xAAF6); (0xAB5B, 0xAB5F);
   (0xAB69, 0xAB6B); (0xABE5, 0xABE5); (0xABE8, 0xABE8); (0xABED, 0xABED); (0xFB1E, 0xFB1E);
   (0xFBB2, 0xFBC2); (0xFE00, 0xFE0F); (0xFE13, 0xFE13); (0xFE20, 0xFE2F); (0xFE52, 0xFE52);
   (0xFE55, 0xFE55); (0xFEFF, 0xFEFF); (0xFF07, 0xFF07); (0xFF0E, 0xFF0E); (0xFF1A, 0xFF1A);
   (0xFF3E, 0xFF3E); (0xFF40, 0xFF40); (0xFF70, 0xFF70); (0xFF9E, 0xFF9F); (0xFFE3, 0xFFE3);
   (0xFFF9, 0xFFFB); (0x101FD, 0x101FD); (0x102E0, 0x102E0); (0x10376, 0x1037A);
   (0x10780, 0x10785); (0x10787, 0x107B0); (0x107B2, 0x107BA); (0x10A01, 0x10A03);
   (0x10A05, 0x10A06); (0x10A0C, 0x10A0F); (0x10A38, 0x10A3A); (0x10A3F, 0x10A3F);
   (0x10AE5, 0x10AE6); (0x10D24, 0x10D27); (0x10EAB, 0x10EAC); (0x10F46, 0x10F50);
   (0x10F82, 0x10F85); (0x11001, 0x11001); (0x11038, 0x11046); (0x11070, 0x11070);
   (0x11073, 0x11074); (0x1107F, 0x11081); (0x110B3, 0x110B6); (0x110B9, 0x110BA);
   (0x110BD, 0x110BD); (0x110C2, 0x110C2); (0x110CD, 0x110CD); (0x11100, 0x11102);
   (0x11127, 0x1112B); (0x1112D, 0x11134); (0x11173, 0x11173); (0x11180, 0x11181);
   (0x111B6, 0x111BE); (0x111C9, 0x111CC); (0x111CF, 0x111CF); (0x1122F, 0x11231);
   (0x11234, 0x11234); (0x11236, 0x11237); (0x1123E, 0x1123E); (0x112DF, 0x112DF);
   (0x112E3, 0x112EA); (0x11300, 0x11301); (0x1133B, 0x1133C); (0x11340, 0x11340);
   (0x11366, 0x1136C); (0x11370, 0x11374); (0x11438, 0x1143F); (0x11442, 0x11444);
   (0x11446, 0x11446); (0x1145E, 0x1145E); (0x114B3, 0x114B8); (0x114BA, 0x114BA);
   (0x114BF, 0x114C0); (0x114C2, 0x114C3); (0x115B2, 0x115B5); (0x115BC, 0x115BD);
   (0x115BF, 0x115C0); (0x115DC, 0x115DD); (0x11633, 0x1163A); (0x1163D, 0x1163D);
   (0x1163F, 0x11640); (0x116AB, 0x116AB); (0x116AD, 0x116AD); (0x116B0, 0x116B5);
   (0x116B7, 0x116B7); (0x1171D, 0x1171F); (0x11722, 0x11725); (0x11727, 0x1172B);
   (0x1182F, 0x11837); (0x11839, 0x1183A); (0x1193B, 0x1193C); (0x1193E, 0x1193E);
   (0x11943, 0x11943); (0x119D4, 0x119D7); (0x119DA, 0x119DB); (0x119E0, 0x119E0);
   (0x11A01, 0x11A0A); (0x11A33, 0x11A38); (0x11A3B, 0x11A3E); (0x11A47, 0x11A47);
   (0x11A51, 0x11A56); (0x11A59, 0x11A5B); (0x11A8A, 0x11A96); (0x11A98, 0x11A99);
   (0x11C30, 0x11C36); (0x11C38, 0x11C3D); (0x11C3F, 0x11C3F); (0x11C92, 0x11CA7);
   (0x11CAA, 0x11CB0); (0x11CB2, 0x11CB3); (0x11CB5, 0x11CB6); (0x11D31, 0x11D36);
   (0x11D3A, 0x11D3A); (0x11D3C, 0x11D3D); (0x11D3F, 0x11D45); (0x11D47, 0x11D47);
   (0x11D90, 0x11D91); (0x11D95, 0x11D95); (0x11D97, 0x11D97); (0x11EF3, 0x11EF4);
   (0x13430, 0x13438); (0x16AF0, 0x16AF4); (0x16B30, 0x16B36); (0x16B40, 0x16B43);
   (0x16F4F, 0x16F4F); (0x16F8F, 0x16F9F); (0x16FE0, 0x16FE1); (0x16FE3, 0x16FE4);
   (0x1AFF0, 0x1AFF3); (0x1AFF5, 0x1AFFB); (0x1AFFD, 0x1AFFE); (0x1BC9D, 0x1BC9E);
   (0x1BCA0, 0x1BCA3); (0x1CF00, 0x1CF2D); (0x1CF30, 0x1CF46); (0x1D167, 0x1D169);
   (0x1D173, 0x1D182); (0x1D185, 0x1D18B); (0x1D1AA, 0x1D1AD); (0x1D242, 0x1D244);
   (0x1DA00, 0x1DA36); (0x1DA3B, 0x1DA6C); (0x1DA75, 0x1DA75); (0x1DA84, 0x1DA84);
   (0x1DA9B, 0x1DA9F); (0x1DAA1, 0x1DAAF); (0x1E000, 0x1E006); (0x1E008, 0x1E018);
   (0x1E01B, 0x1E021); (0x1E023, 0x1E024); (0x1E026, 0x1E02A); (0x1E130, 0x1E13D);
   (0x1E2AE, 0x1E2AE); (0x1E2EC, 0x1E2EF); (0x1E8D0, 0x1E8D6); (0x1E944, 0x1E94B);
   (0x1F3FB, 0x1F3FF); (0xE0001, 0xE0001); (0xE0020, 0xE007F); (0xE0100, 0xE01EF)]%N.

(** *** The string methods *)

(** [str.isspace] on one character. *)
Definition is_space (c : N) : bool := in_ranges WHITESPACE c.

(** [str.isdecimal] on one character, which is the regex class [\d]. *)
Definition is_decimal (c : N) : bool := in_ranges DECIMAL c.

Definition cased (c : N) : bool := in_ranges CASED c.
Definition case_ignorable (c : N) : bool := in_ranges CASE_IGNORABLE c.

(** The lowercase of one code point, out of context. *)
Definition to_lower (c : N) : list N :=
  if (c =? 0x130)%N then [0x69; 0x307]%N
  else
    match find (fun '(lo, hi, step, _) =>
                  (lo <=? c) && (c <=? hi) && ((c - lo) mod step =? 0))%N LOWERCASE with
    | Some (lo, _, _, image) => [image + (c - lo)]%N
    | None => [c]
    end.

(** What follows is case-ignorable characters and then a cased letter. *)
Fixpoint before_cased (cs : list char) : bool :=
  match cs with
  | (Some c, _) :: cs' => if case_ignorable c then before_cased cs' else cased c
  | _ => false
  end.

(** [s.lower()], character by character.  A capital sigma (U+03A3) becomes
    the final sigma (U+03C2) when it ends a word, which is when a cased
    letter precedes it and none follows, case-ignorable characters apart;
    [after_cased] says whether a cased letter precedes. *)
Fixpoint lower_from (after_cased : bool) (cs : list char) : list string :=
  match cs with
  | [] => []
  | (None, ch) :: cs' => ch :: lower_from false cs'
  | (Some c, _) :: cs' =>
      (if (c =? 0x3A3)%N
       then encode (if after_cased && negb (before_cased cs') then 0x3C2 else 0x3C3)%N
       else concat (encode <$> to_lower c))
      :: lower_from (if case_ignorable c then after_cased else cased c) cs'
  end.

Definition lower (s : string) : string := concat (lower_from false (chars s)).

(** The characters left when the white space at the front is dropped. *)
Fixpoint drop_space (cs : list char) : list char :=
  match cs with
  | (Some c, ch) :: cs' => if is_space c then drop_space cs' else cs
  | _ => cs
  end.

(** [s.lstrip()] *)
Definition lstrip (s : string) : string := text_of (drop_space (chars s)).

(** [s.rstrip()] *)
Definition rstrip (s : string) : string :=
  text_of (reverse (drop_space (reverse (chars s)))).

(** [s.strip()] *)
Definition strip (s : string) : string :=
  text_of (reverse (drop_space (reverse (drop_space (chars s))))).

(** [hay.startswith(needle)] *)
Fixpoint startswith (needle hay : string) : bool :=
  match needle, hay with
  | EmptyString, _ => true
  | String _ _, EmptyString => false
  | String a n', String b h' => if decide (a = b) then startswith n' h' else false
  end.

(** [needle in hay] *)
Fixpoint contains (needle hay : string) : bool :=
  startswith needle hay ||
  match hay with
  | EmptyString => false
  | String _ h' => contains needle h'
  end.

(** [sep.join(parts)] *)
Fixpoint join (sep : string) (parts : list string) : string :=
  match parts with
  | [] => EmptyString
  | [p] => p
  | p :: rest => p +:+ sep +:+ join sep rest
  end.

(** [needle] occurs in [hay] as a contiguous run of characters. *)
Definition substring_of (needle hay : string) : Prop :=
  ∃ pre post, hay = pre +:+ needle +:+ post.


End PyStr.

(** ** The BeautifulSoup tree *)

#[warnings="-register-all"]
Inductive node : Type :=
  | NavigableString (s : string)
  | Tag (name : string) (contents : list node).

(** An element as the scraper holds it: the node and its ancestors, the
    nearest first.  The last ancestor of every element of a document is
    the [BeautifulSoup] object itself, whose own [.parent] is [None]. *)
Record element : Type := Element {
  el_node : node;
  el_ancestors : list node;
}.

(** [element.parent] *)
Definition parent (e : element) : option element :=
  match el_ancestors e with
  | [] => None
  | p :: up => Some (Element p up)
  end.

(** [Tag.descendants]: every node below [n], in document order. *)
Fixpoint descendants (up : list node) (n : node) : list element :=
  match n with
  | NavigableString _ => []
  | Tag _ contents =>
      flat_map (fun c => Element c (n :: up) :: descendants (n :: up) c) contents
  end.

Definition has_name (name : string) (e : element) : bool :=
  match el_node e with
  | Tag nm _ => bool_decide (nm = name)
  | NavigableString _ => false
  end.

(** [soup.find_all(name)] *)
Definition find_all (name : string) (soup : node) : list element :=
  filter (fun e => has_name name e = true) (descendants [] soup).

(** [Tag._all_strings(strip)]: the text nodes below [n] in document order;
    with [strip] each one is stripped and dropped when nothing is left. *)
Fixpoint strings_of (n : node) : list string :=
  match n with
  | NavigableString s => [s]
  | Tag _ contents => flat_map strings_of contents
  end.

Definition _all_strings (strip : bool) (n : node) : list string :=
  if strip
  then filter (fun s => s ≠ EmptyString) (map PyStr.strip (strings_of n))
  else strings_of n.

(** [tag.get_text(separator, strip)] *)
Definition get_text (separator : string) (strip : bool) (n : node) : string :=
  PyStr.join separator (_all_strings strip n).

(** ** The wall clock *)

(** A [datetime] value; only the fields the two [strftime] formats print. *)
Record datetime : Type := Datetime {
  year : Z; month : Z; day : Z;
  hour : Z; minute : Z; second : Z;
}.

(** The invariant of Python's [datetime] type ([MINYEAR]..[MAXYEAR] and a
    day number that fits two digits). *)
Definition valid_datetime (t : datetime) : Prop :=
  (1 ≤ year t ≤ 9999 ∧ 1 ≤ month t ≤ 12 ∧ 1 ≤ day t ≤ 31 ∧
   0 ≤ hour t < 24 ∧ 0 ≤ minute t < 60 ∧ 0 ≤ second t < 60)%Z.

Definition digit (d : Z) : ascii := ascii_of_N (Z.to_N (48 + d mod 10)).

(** [%m], [%d], [%H], [%M], [%S]: two digits, zero padded. *)
Definition fmt2 (n : Z) : string :=
  String (digit (n / 10)) (String (digit n) EmptyString).

(** [%Y]: four digits, zero padded. *)
Definition fmt4 (n : Z) : string :=
  String (digit (n / 1000)) (String (digit (n / 100))
    (String (digit (n / 10)) (String (digit n) EmptyString))).

(** [t.strftime("%m/%d/%Y")] *)
Definition strftime_mdY (t : datetime) : string :=
  fmt2 (month t) +:+ "/" +:+ fmt2 (day t) +:+ "/" +:+ fmt4 (year t).

(** [t.strftime("%Y-%m-%d %H:%M:%S")] *)
Definition strftime_iso (t : datetime) : string :=
  fmt4 (year t) +:+ "-" +:+ fmt2 (month t) +:+ "-" +:+ fmt2 (day t) +:+ " " +:+
  fmt2 (hour t) +:+ ":" +:+ fmt2 (minute t) +:+ ":" +:+ fmt2 (second t).

(** Computations whose only effect is to read the clock. *)
Inductive clockM (A : Type) : Type :=
  | Ret (a : A)
  | Now (k : datetime → clockM A).
Arguments Ret {A} a.
Arguments Now {A} k.

Fixpoint bind {A B : Type} (f : A → clockM B) (m : clockM A) : clockM B :=
  match m with
  | Ret a => f a
  | Now k => Now (fun t => bind f (k t))
  end.

#[global] Instance clockM_ret : MRet clockM := @Ret.
#[global] Instance clockM_bind : MBind clockM := @bind.

(** [datetime.now()] *)
Definition datetime_now : clockM datetime := Now Ret.

(** Running a computation: the [i]-th clock read of the process is answered
    by [clock i]; the result comes with the number of reads made so far. *)
Fixpoint run {A : Type} (clock : nat → datetime) (i : nat) (m : clockM A) : A * nat :=
  match m with
  | Ret a => (a, i)
  | Now k => run clock (S i) (k (clock i))
  end.

Definition result_of {A : Type} (clock : nat → datetime) (m : clockM A) : A :=
  fst (run clock 0 m).

Definition clock_reads {A : Type} (clock : nat → datetime) (m : clockM A) : nat :=
  snd (run clock 0 m).

(** ** The date pattern *)

(** One position of a regular expression without repetition. *)
Inductive char_class : Type :=
  | Digit
  | Lit (c : ascii).

(** Whether the character with code point [c] is in the class. *)
Definition class_matches (k : char_class) (c : N) : bool :=
  match k with
  | Digit => PyStr.is_decimal c
  | Lit a => (c =? N_of_ascii a)%N
  end.

(** [\d{2}/\d{2}/\d{4}] *)
Definition DATE_PATTERN : list char_class :=
  [Digit; Digit; Lit "/"; Digit; Digit; Lit "/"; Digit; Digit; Digit; Digit]%char.

(** [re.match]: the pattern read off the front of [s], one character for
    each position of the pattern. *)
Fixpoint match_here (pat : list char_class) (s : string) : option string :=
  match pat with
  | [] => Some EmptyString
  | k :: pat' =>
      match PyStr.front s with
      | Some (Some c, ch, rest) =>
          if class_matches k c
          then match match_here pat' rest with
               | Some m => Some (ch +:+ m)
               | None => None
               end
          else None
      | _ => None
      end
  end.

(** [re.search]: the match at the leftmost position that has one.  The
    positions are tried byte by byte; one that lies inside a character
    starts with a continuation byte, where nothing matches. *)
Fixpoint re_search (pat : list char_class) (s : string) : option string :=
  match match_here pat s with
  | Some m => Some m
  | None =>
      match s with
      | EmptyString => None
      | String _ s' => re_search pat s'
      end
  end.

(** ** [scraper.py] *)

Record PollenReading : Type := mkPollenReading {
  category : string;
  level : string;
  date : string;
  source : string;
}.

Definition DEFAULT_SOURCE : string :=
  "ASAP Illinois — asapillinois.com/pollen-count/".

Record DailyPollenReport : Type := mkDailyPollenReport {
  report_date : string;
  readings : list PollenReading;
  scrape_time : string;
}.

Inductive exn : Type :=
  | ConnectionError (msg : string)
  | ValueError (msg : string).

(** The dictionary [severity_rank] of [worst_level]. *)
Definition severity_rank : gmap string Z :=
  list_to_map
    [("Absent", 0%Z); ("Low", 1%Z); ("Moderate", 2%Z); ("High", 3%Z); ("Very High", 4%Z)].

(** [severity_rank.get(lvl, -1)] *)
Definition level_rank (lvl : string) : Z := default (-1)%Z (severity_rank !! lvl).

(** Python's [max(xs, key=key)] after the first element [best] has been
    taken: a later element replaces the best one only when its key is
    strictly greater. *)
Fixpoint max_by {A : Type} (key : A → Z) (best : A) (xs : list A) : A :=
  match xs with
  | [] => best
  | x :: xs' => max_by key (if (key best <? key x)%Z then x else best) xs'
  end.

(** [DailyPollenReport.worst_level]; [max] of an empty sequence raises. *)
Definition worst_level (rs : list PollenReading) : exn + string :=
  match rs with
  | [] => inl (ValueError "max() iterable argument is empty")
  | r :: rs' => inr (level (max_by (fun r => level_rank (level r)) r rs'))
  end.

Definition URL : string := "https://asapillinois.com/pollen-count/".

Definition EXPECTED_CATEGORIES : list string :=
  ["Tree Pollen"; "Grass Pollen"; "Ragweed Pollen"; "Total Weed Pollen"; "Mold"].

Definition valid_levels : list string :=
  ["Very High"; "High"; "Moderate"; "Low"; "Absent"].

(** A [for x in xs: if test(x): result = x; break] loop. *)
Fixpoint first_hit {A : Type} (test : A → bool) (xs : list A) : option A :=
  match xs with
  | [] => None
  | x :: xs' => if test x then Some x else first_hit test xs'
  end.

(** [_extract_date] *)
Definition _extract_date (soup : node) : clockM string :=
  let text := get_text "" false soup in
  match re_search DATE_PATTERN text with
  | Some d => mret d
  | None => t ← datetime_now; mret (strftime_mdY t)
  end.

(** [parent.parent if parent else None]; a [Tag] is truthy whatever it
    contains, so the test is a test for [None]. *)
Definition grandparent (e : element) : option element :=
  match parent e with
  | Some p => parent p
  | None => None
  end.

(** [_find_level_near_element] *)
Definition _find_level_near_element (e : element) : option string :=
  match grandparent e with
  | Some g =>
      let text := get_text " " true (el_node g) in
      first_hit (fun lvl => PyStr.contains lvl text) valid_levels
  | None => None
  end.

(** The two matching loops at the head of the body of [_extract_readings]. *)
Definition match_category (category_text : string) : option string :=
  match first_hit
          (fun expected => bool_decide (PyStr.lower expected = PyStr.lower category_text))
          EXPECTED_CATEGORIES with
  | Some c => Some c
  | None =>
      first_hit
        (fun expected => PyStr.contains (PyStr.lower expected) (PyStr.lower category_text))
        EXPECTED_CATEGORIES
  end.

(** One iteration of the loop over the [h4] tags, on the two variables it
    updates.  The labels and the tokens are non-empty strings, so
    [if not matched_category] and [if level] are tests for [None]. *)
Definition h4_step (report_date : string)
    (st : list PollenReading * gset string) (h4 : element)
    : list PollenReading * gset string :=
  let '(readings, seen_categories) := st in
  let category_text := get_text "" true (el_node h4) in
  match match_category category_text with
  | None => st
  | Some matched_category =>
      if decide (matched_category ∈ seen_categories) then st
      else
        let seen_categories := {[matched_category]} ∪ seen_categories in
        match _find_level_near_element h4 with
        | Some lvl =>
            (readings ++ [mkPollenReading matched_category lvl report_date DEFAULT_SOURCE],
             seen_categories)
        | None => (readings, seen_categories)
        end
  end.

Definition h4_loop (report_date : string) (h4_tags : list element)
    (st : list PollenReading * gset string) : list PollenReading * gset string :=
  foldl (h4_step report_date) st h4_tags.

(** [_extract_readings] *)
Definition _extract_readings (soup : node) (report_date : string) : list PollenReading :=
  fst (h4_loop report_date (find_all "h4" soup) ([], ∅)).

Definition NO_READINGS : string :=
  "No pollen readings found on the page. The site structure may have changed.".

(** The part of [scrape_pollen_data] that follows the fetch. *)
Definition assemble_report (soup : node) : clockM (exn + DailyPollenReport) :=
  report_date ← _extract_date soup;
  let readings := _extract_readings soup report_date in
  match readings with
  | [] => mret (inl (ValueError NO_READINGS))
  | _ :: _ =>
      t ← datetime_now;
      mret (inr (mkDailyPollenReport report_date readings (strftime_iso t)))
  end.

(** [scrape_pollen_data]; the argument is the outcome of [requests.get]
    followed by [raise_for_status] and the parse: the text of the
    [RequestException], or the parsed page. *)
Definition scrape_pollen_data (fetched : string + node) : clockM (exn + DailyPollenReport) :=
  match fetched with
  | inl e => mret (inl (ConnectionError
               ("Failed to reach " +:+ URL +:+ ": " +:+ e)))
  | inr soup => assemble_report soup
  end.

(** ** [email_builder.py] *)

(** One entry of [SEVERITY_COLORS]. *)
Definition style (bg text icon : string) : gmap string string :=
  list_to_map [("bg", bg); ("text", text); ("icon", icon)].

Definition SEVERITY_COLORS : gmap string (gmap string string) :=
  list_to_map
    [("Absent", style "#e8f5e9" "#388e3c" "✅");
     ("Low", style "#e8f5e9" "#388e3c" "🟢");
     ("Moderate", style "#fff8e1" "#f9a825" "🟡");
     ("High", style "#fff3e0" "#e65100" "🟠");
     ("Very High", style "#ffebee" "#c62828" "🔴")].

(** [SEVERITY_COLORS.get(lvl, {}).get("icon", "")] *)
Definition severity_icon (lvl : string) : string :=
  default "" (default ∅ (SEVERITY_COLORS !! lvl) !! "icon").

(** [build_email_subject] *)
Definition build_email_subject (report : DailyPollenReport) : exn + string :=
  match worst_level (readings report) with
  | inl e => inl e
  | inr worst =>
      let icon := severity_icon worst in
      inr (icon +:+ " Chicago Allergy Alert (" +:+ report_date report +:+ "): " +:+ worst)
  end.

(** ** Vocabulary of the statements *)

(** Case-insensitive equality of an expected label with the node text. *)
Definition exact_match (text expected : string) : Prop :=
  PyStr.lower expected = PyStr.lower text.

(** The expected label occurs, case-insensitively, inside the node text. *)
Definition inside_match (text expected : string) : Prop :=
  PyStr.substring_of (PyStr.lower expected) (PyStr.lower text).

(** The text an [h4] is matched on, and the category it matches. *)
Definition category_text (h4 : element) : string := get_text "" true (el_node h4).
Definition category_of (h4 : element) : option string := match_category (category_text h4).

(** The rank of a reading, as the [key] of [worst_level] computes it. *)
Definition rank_of (r : PollenReading) : Z := level_rank (level r).

(** [m] is matched by [pat], character by character. *)
Fixpoint shaped (pat : list char_class) (m : string) : Prop :=
  match pat with
  | [] => m = EmptyString
  | k :: pat' =>
      ∃ c ch m', PyStr.front m = Some (Some c, ch, m') ∧
                 class_matches k c = true ∧ shaped pat' m'
  end.

(** [ch] is one character, a decimal digit of some script. *)
Definition decimal_digit (ch : string) : Prop :=
  ∃ c, PyStr.front ch = Some (Some c, ch, EmptyString) ∧ PyStr.is_decimal c = true.

(** Two digits, a slash, two digits, a slash, four digits. *)
Definition mm_dd_yyyy (d : string) : Prop :=
  ∃ m1 m2 d1 d2 y1 y2 y3 y4 : string,
    d = m1 +:+ m2 +:+ "/" +:+ d1 +:+ d2 +:+ "/" +:+ y1 +:+ y2 +:+ y3 +:+ y4 ∧
    Forall decimal_digit [m1; m2; d1; d2; y1; y2; y3; y4].

(** The node [h] at position [i] of the headings [hs] matches category [c]
    and no heading before it does. *)
Definition first_match_at (hs : list element) (i : nat) (h : element) (c : string) : Prop :=
  hs !! i = Some h ∧ category_of h = Some c ∧
  ∀ j h', j < i → hs !! j = Some h' → category_of h' ≠ Some c.

(** The reading [r] was built for the first heading of its category. *)
Definition from_first_match (rd : string) (hs : list element) (r : PollenReading) : Prop :=
  ∃ i h, first_match_at hs i h (category r) ∧
         _find_level_near_element h = Some (level r) ∧
         date r = rd ∧ source r = DEFAULT_SOURCE.

(** The readings are listed in the order of the headings they come from. *)
Definition in_discovery_order (hs : list element) (rs : list PollenReading) : Prop :=
  ∀ a b ra rb, a < b → rs !! a = Some ra → rs !! b = Some rb →
    ∃ i j ha hb, i < j ∧ first_match_at hs i ha (category ra) ∧
                 first_match_at hs j hb (category rb).

Record loop_invariant (rd : string) (hs : list element)
    (rs : list PollenReading) (seen : gset string) : Prop := {
  inv_seen : ∀ c, c ∈ seen ↔ ∃ h, h ∈ hs ∧ category_of h = Some c;
  inv_nodup : NoDup (category <$> rs);
  inv_readings : ∀ r, r ∈ rs ↔ from_first_match rd hs r;
  inv_order : in_discovery_order hs rs;
}.

(** What one iteration appends to the readings and what it leaves in
    [seen_categories], given the categories seen so far. *)
Definition step_new (rd : string) (seen : gset string) (h4 : element) : list PollenReading :=
  fst (h4_step rd ([], seen) h4).

Definition step_seen (seen : gset string) (h4 : element) : gset string :=
  match category_of h4 with
  | Some c => {[c]} ∪ seen
  | None => seen
  end.

(** [_extract_readings] on a given list of headings. *)
Definition readings_from (rd : string) (hs : list element) (seen : gset string)
    : list PollenReading :=
  fst (h4_loop rd hs ([], seen)).

(** ** A sample page *)

Definition ws : node := NavigableString (String "010" "    ").

Definition block (label severity : string) : node :=
  Tag "div" [ws;
    Tag "div" [Tag "h4" [NavigableString label]]; ws;
    Tag "div" [Tag "span" [NavigableString severity]]; ws].

Definition SAMPLE_HTML : node :=
  Tag "[document]" [ws;
    Tag "html" [ws;
      Tag "body" [ws;
        Tag "div" [NavigableString "02/15/2026"]; ws;
        Tag "div" [ws;
          block "Tree Pollen" "High"; ws;
          block "Grass Pollen" "Low"; ws;
          block "Ragweed Pollen" "Absent"; ws;
          block "Total Weed Pollen" "Moderate"; ws;
          block "Mold" "High"; ws]; ws]; ws]; ws].

Definition noon : datetime := Datetime 2026 2 15 12 0 0.

(** The [i]-th [h4] of a page (the page itself when there is none). *)
Definition heading (soup : node) (i : nat) : element :=
  default (Element soup []) (find_all "h4" soup !! i).

Definition tree_h4 : node := Tag "h4" [NavigableString "Tree Pollen"].

(** One category, at the top of the scale. *)
Definition VERY_HIGH_PAGE : node :=
  Tag "[document]" [ws; block "Tree Pollen" "Very High"; ws].

(** A heading directly below the document, followed by a regular block. *)
Definition SHALLOW_PAGE : node :=
  Tag "[document]" [tree_h4; ws; block "Mold" "Low"; ws].

(** The first "Tree Pollen" heading sits next to a value that is no
    severity token; a regular "Tree Pollen" block follows. *)
Definition BLOCKED_PAGE : node :=
  Tag "[document]" [ws;
    Tag "div" [Tag "div" [tree_h4]; Tag "div" [Tag "span" [NavigableString "n/a"]]]; ws;
    block "Tree Pollen" "High"; ws;
    block "Mold" "Low"; ws].

(** A regular "Tree Pollen" block followed by a second "Tree Pollen"
    heading directly below the document. *)
Definition DUPLICATE_PAGE : node :=
  Tag "[document]" [ws; block "Tree Pollen" "High"; ws; tree_h4; ws].

(** The no-break space U+00A0, which is what [&nbsp;] stands for. *)
Definition NBSP : string := String "194" (String "160" EmptyString).

(** The level is spread over two spans with a no-break space between
    them. *)
Definition SPLIT_LEVEL_PAGE : node :=
  Tag "[document]" [ws;
    Tag "div" [ws;
      Tag "div" [tree_h4]; ws;
      Tag "div" [Tag "span" [NavigableString "Very"]; NavigableString NBSP;
                 Tag "span" [NavigableString "High"]]; ws]; ws].

(** The heading is cut in two by markup, after a no-break space. *)
Definition SPLIT_HEADING_PAGE : node :=
  Tag "[document]" [ws;
    Tag "div" [ws;
      Tag "div" [Tag "h4" [NavigableString ("Mo" +:+ NBSP); Tag "b" [NavigableString "ld"]]];
      ws; Tag "div" [Tag "span" [NavigableString "Low"]]; ws]; ws].

(** A page dated in Arabic-Indic digits, before a date in ASCII digits. *)
Definition ARABIC_DATE_PAGE : node :=
  Tag "[document]" [ws;
    Tag "p" [NavigableString "٠٢/١٥/٢٠٢٦"]; ws;
    Tag "p" [NavigableString "02/16/2026"]; ws;
    block "Mold" "Low"; ws].

(** A report with a category outside ASCII. *)
Definition SUMMER_REPORT : DailyPollenReport :=
  mkDailyPollenReport "02/15/2026"
    [mkPollenReading "Mold (été)" "Low" "02/15/2026" DEFAULT_SOURCE]
    "2026-02-15 12:00:00".

Definition SAMPLE_REPORT : DailyPollenReport :=
  mkDailyPollenReport "02/15/2026"
    (_extract_readings SAMPLE_HTML "02/15/2026") "2026-02-15 12:00:00".

(** ** More of [scraper.py] *)

(** [DailyPollenReport.get_reading] *)
Definition get_reading (report : DailyPollenReport) (category_ : string)
    : option PollenReading :=
  first_hit
    (fun reading => bool_decide (PyStr.lower (category reading) = PyStr.lower category_))
    (readings report).

(** ** More of [email_builder.py] *)

(** The double quote, which the templates are full of. *)
Definition dq : string := String "034" EmptyString.

(** The constant pieces of the three f-strings of [build_email_html], in
    the order in which they occur: those of a category row, those of the
    weather block and those of the page. *)
Definition ROW_0 : string :=
  "
        <tr>
            <td style=" +:+ dq +:+ "padding: 12px 16px; font-size: 15px; border-bottom: 1px solid #eee;" +:+ dq +:+ ">
                ".

Definition ROW_1 : string :=
  "
            </td>
            <td style=" +:+ dq +:+ "padding: 12px 16px; font-size: 15px; font-weight: bold;
                        color: ".

Definition ROW_2 : string :=
  "; border-bottom: 1px solid #eee; text-align: center;" +:+ dq +:+ ">
                ".

Definition ROW_3 : string :=
  " ".

Definition ROW_4 : string :=
  "
            </td>
        </tr>
        ".

Definition WEATHER_0 : string :=
  "
        <div style=" +:+ dq +:+ "background: #e3f2fd; border-radius: 8px; padding: 16px; margin: 20px 0;" +:+ dq +:+ ">
            <h3 style=" +:+ dq +:+ "margin: 0 0 8px 0; color: #1565c0; font-size: 16px;" +:+ dq +:+ ">
                🌤️ Chicago Weather
            </h3>
            <table style=" +:+ dq +:+ "width: 100%;" +:+ dq +:+ ">
                <tr>
                    <td style=" +:+ dq +:+ "padding: 4px 0;" +:+ dq +:+ ">🌡️ Temperature: <strong>".

Definition WEATHER_1 : string :=
  "°F</strong></td>
                    <td style=" +:+ dq +:+ "padding: 4px 0;" +:+ dq +:+ ">💧 Humidity: <strong>".

Definition WEATHER_2 : string :=
  "%</strong></td>
                </tr>
                <tr>
                    <td style=" +:+ dq +:+ "padding: 4px 0;" +:+ dq +:+ ">💨 Wind: <strong>".

Definition WEATHER_3 : string :=
  " mph</strong></td>
                    <td style=" +:+ dq +:+ "padding: 4px 0;" +:+ dq +:+ ">🌧️ Precip: <strong>".

Definition WEATHER_4 : string :=
  " mm</strong></td>
                </tr>
            </table>
        </div>
        ".

Definition HTML_0 : string :=
  "
    <!DOCTYPE html>
    <html>
    <head>
        <meta charset=" +:+ dq +:+ "utf-8" +:+ dq +:+ ">
        <meta name=" +:+ dq +:+ "viewport" +:+ dq +:+ " content=" +:+ dq +:+ "width=device-width, initial-scale=1.0" +:+ dq +:+ ">
    </head>
    <body style=" +:+ dq +:+ "margin: 0; padding: 0; font-family: -apple-system, BlinkMacSystemFont,
                 'Segoe UI', Roboto, 'Helvetica Neue', Arial, sans-serif;
                 background-color: #f5f5f5;" +:+ dq +:+ ">

        <!-- Container -->
        <div style=" +:+ dq +:+ "max-width: 600px; margin: 0 auto; background: white;
                    border-radius: 12px; overflow: hidden; margin-top: 20px;
                    box-shadow: 0 2px 8px rgba(0,0,0,0.1);" +:+ dq +:+ ">

            <!-- Header -->
            <div style=" +:+ dq +:+ "background: linear-gradient(135deg, #1b5e20, #43a047);
                        padding: 24px; text-align: center;" +:+ dq +:+ ">
                <h1 style=" +:+ dq +:+ "color: white; margin: 0; font-size: 22px;" +:+ dq +:+ ">
                    🌿 Chicago Daily Allergy Report
                </h1>
                <p style=" +:+ dq +:+ "color: rgba(255,255,255,0.85); margin: 8px 0 0 0; font-size: 14px;" +:+ dq +:+ ">
                    ".

Definition HTML_1 : string :=
  " | Chicagoland Area
                </p>
            </div>

            <!-- Overall Severity -->
            <div style=" +:+ dq +:+ "text-align: center; padding: 24px;
                        background: ".

Definition HTML_2 : string :=
  ";" +:+ dq +:+ ">
                <p style=" +:+ dq +:+ "margin: 0 0 8px 0; font-size: 14px; color: #666;
                          text-transform: uppercase; letter-spacing: 1px;" +:+ dq +:+ ">
                    Overall Allergy Level
                </p>
                <h2 style=" +:+ dq +:+ "margin: 0; font-size: 36px; color: ".

Definition HTML_3 : string :=
  ";" +:+ dq +:+ ">
                    ".

Definition HTML_4 : string :=
  " ".

Definition HTML_5 : string :=
  "
                </h2>
            </div>

            <!-- Category Breakdown -->
            <div style=" +:+ dq +:+ "padding: 0 20px;" +:+ dq +:+ ">
                <h3 style=" +:+ dq +:+ "color: #333; font-size: 16px; margin: 20px 0 12px 0;
                           border-bottom: 2px solid #eee; padding-bottom: 8px;" +:+ dq +:+ ">
                    📊 Breakdown by Category
                </h3>
                <table style=" +:+ dq +:+ "width: 100%; border-collapse: collapse;" +:+ dq +:+ ">
                    <tr style=" +:+ dq +:+ "background: #fafafa;" +:+ dq +:+ ">
                        <th style=" +:+ dq +:+ "padding: 10px 16px; text-align: left; font-size: 13px;
                                   color: #888; text-transform: uppercase; letter-spacing: 0.5px;" +:+ dq +:+ ">
                            Allergen
                        </th>
                        <th style=" +:+ dq +:+ "padding: 10px 16px; text-align: center; font-size: 13px;
                                   color: #888; text-transform: uppercase; letter-spacing: 0.5px;" +:+ dq +:+ ">
                            Level
                        </th>
                    </tr>
                    ".

Definition HTML_6 : string :=
  "
                </table>
            </div>

            ".

Definition HTML_7 : string :=
  "

            <!-- Recommendation -->
            <div style=" +:+ dq +:+ "margin: 20px; padding: 16px; background: #f5f5f5;
                        border-left: 4px solid ".

Definition HTML_8 : string :=
  ";
                        border-radius: 0 8px 8px 0;" +:+ dq +:+ ">
                <p style=" +:+ dq +:+ "margin: 0; font-size: 14px; color: #444; line-height: 1.5;" +:+ dq +:+ ">
                    <strong>💊 Recommendation:</strong> ".

Definition HTML_9 : string :=
  "
                </p>
            </div>

            <!-- AAAAI Reference Scale -->
            <div style=" +:+ dq +:+ "padding: 0 20px 20px 20px;" +:+ dq +:+ ">
                <details style=" +:+ dq +:+ "cursor: pointer;" +:+ dq +:+ ">
                    <summary style=" +:+ dq +:+ "font-size: 13px; color: #888; padding: 8px 0;" +:+ dq +:+ ">
                        📏 AAAAI Severity Scale Reference
                    </summary>
                    <table style=" +:+ dq +:+ "width: 100%; border-collapse: collapse; margin-top: 8px;
                                  font-size: 12px;" +:+ dq +:+ ">
                        <tr style=" +:+ dq +:+ "background: #fafafa;" +:+ dq +:+ ">
                            <th style=" +:+ dq +:+ "padding: 6px 8px; text-align: left;" +:+ dq +:+ ">Level</th>
                            <th style=" +:+ dq +:+ "padding: 6px 8px; text-align: center;" +:+ dq +:+ ">Tree (gr/m³)</th>
                            <th style=" +:+ dq +:+ "padding: 6px 8px; text-align: center;" +:+ dq +:+ ">Grass (gr/m³)</th>
                            <th style=" +:+ dq +:+ "padding: 6px 8px; text-align: center;" +:+ dq +:+ ">Weed (gr/m³)</th>
                        </tr>
                        <tr><td style=" +:+ dq +:+ "padding: 6px 8px;" +:+ dq +:+ ">🟢 Low</td>
                            <td style=" +:+ dq +:+ "padding: 6px 8px; text-align: center;" +:+ dq +:+ ">1–14</td>
                            <td style=" +:+ dq +:+ "padding: 6px 8px; text-align: center;" +:+ dq +:+ ">1–4</td>
                            <td style=" +:+ dq +:+ "padding: 6px 8px; text-align: center;" +:+ dq +:+ ">1–9</td></tr>
                        <tr style=" +:+ dq +:+ "background: #fafafa;" +:+ dq +:+ ">
                            <td style=" +:+ dq +:+ "padding: 6px 8px;" +:+ dq +:+ ">🟡 Moderate</td>
                            <td style=" +:+ dq +:+ "padding: 6px 8px; text-align: center;" +:+ dq +:+ ">15–89</td>
                            <td style=" +:+ dq +:+ "padding: 6px 8px; text-align: center;" +:+ dq +:+ ">5–19</td>
                            <td style=" +:+ dq +:+ "padding: 6px 8px; text-align: center;" +:+ dq +:+ ">10–49</td></tr>
                        <tr><td style=" +:+ dq +:+ "padding: 6px 8px;" +:+ dq +:+ ">🟠 High</td>
                            <td style=" +:+ dq +:+ "padding: 6px 8px; text-align: center;" +:+ dq +:+ ">90–1,499</td>
                            <td style=" +:+ dq +:+ "padding: 6px 8px; text-align: center;" +:+ dq +:+ ">20–199</td>
                            <td style=" +:+ dq +:+ "padding: 6px 8px; text-align: center;" +:+ dq +:+ ">50–499</td></tr>
                        <tr style=" +:+ dq +:+ "background: #fafafa;" +:+ dq +:+ ">
                            <td style=" +:+ dq +:+ "padding: 6px 8px;" +:+ dq +:+ ">🔴 Very High</td>
                            <td style=" +:+ dq +:+ "padding: 6px 8px; text-align: center;" +:+ dq +:+ ">≥1,500</td>
                            <td style=" +:+ dq +:+ "padding: 6px 8px; text-align: center;" +:+ dq +:+ ">≥200</td>
                            <td style=" +:+ dq +:+ "padding: 6px 8px; text-align: center;" +:+ dq +:+ ">≥500</td></tr>
                    </table>
                    <p style=" +:+ dq +:+ "font-size: 11px; color: #aaa; margin: 6px 0 0 0;" +:+ dq +:+ ">
                        Source: American Academy of Allergy, Asthma & Immunology (AAAAI)
                    </p>
                </details>
            </div>

            <!-- Footer -->
            <div style=" +:+ dq +:+ "background: #fafafa; padding: 16px; text-align: center;
                        border-top: 1px solid #eee;" +:+ dq +:+ ">
                <p style=" +:+ dq +:+ "margin: 0; font-size: 11px; color: #aaa; line-height: 1.6;" +:+ dq +:+ ">
                    Pollen data: ASAP Illinois — asapillinois.com/pollen-count/<br>
                    Collected Mon–Fri, April–October by certified allergists<br>
                    Weather data: Open-Meteo API (open-meteo.com)
                </p>
            </div>
        </div>
    </body>
    </html>
    ".

Definition RECOMMENDATIONS : gmap string string :=
  list_to_map
    [("Absent",
      "Air quality is great for allergy sufferers. Enjoy the outdoors!");
     ("Low",
      "Pollen levels are low today. A good day to be outside, but sensitive individuals may want to keep antihistamines handy.");
     ("Moderate",
      "Moderate pollen levels — consider taking an antihistamine (Claritin, Zyrtec, etc.) if you're sensitive. Keep windows closed.");
     ("High",
      "High pollen today! Take your allergy medication before heading out. Avoid prolonged outdoor activity, especially in the morning. Shower after being outside.");
     ("Very High",
      "⚠️ Very high pollen! Stay indoors if possible. Take allergy medication. Keep all windows closed. Use air purifiers. Shower and change clothes after any outdoor exposure.")].

(** The body of the loop that builds [category_rows]: one table row.
    [style['text']] and [style['icon']] cannot fail, every entry of
    [SEVERITY_COLORS] has both keys. *)
Definition category_row (reading : PollenReading) : string :=
  let style := default (SEVERITY_COLORS !!! "Absent") (SEVERITY_COLORS !! level reading) in
  ROW_0 +:+ category reading +:+ ROW_1 +:+ (style !!! "text") +:+ ROW_2 +:+
  (style !!! "icon") +:+ ROW_3 +:+ level reading +:+ ROW_4.

(** [category_rows] after the loop. *)
Definition category_rows (rs : list PollenReading) : string :=
  foldl (fun rows reading => rows +:+ category_row reading) "" rs.

(** [weather_section]; a dictionary is falsy when it is empty.  The values
    of the dictionary are held as the text the f-string prints for them. *)
Definition weather_section (weather : option (gmap string string)) : string :=
  match weather with
  | Some w =>
      if decide (w = ∅) then ""
      else
        WEATHER_0 +:+ default "N/A" (w !! "temperature") +:+
        WEATHER_1 +:+ default "N/A" (w !! "humidity") +:+
        WEATHER_2 +:+ default "N/A" (w !! "wind_speed") +:+
        WEATHER_3 +:+ default "N/A" (w !! "precipitation") +:+ WEATHER_4
  | None => ""
  end.

(** [build_email_html] *)
Definition build_email_html (report : DailyPollenReport)
    (weather : option (gmap string string)) : exn + string :=
  match worst_level (readings report) with
  | inl e => inl e
  | inr worst =>
      let worst_style :=
        default (SEVERITY_COLORS !!! "Absent") (SEVERITY_COLORS !! worst) in
      let recommendation := default "" (RECOMMENDATIONS !! worst) in
      inr (HTML_0 +:+ report_date report +:+
           HTML_1 +:+ (worst_style !!! "bg") +:+
           HTML_2 +:+ (worst_style !!! "text") +:+
           HTML_3 +:+ (worst_style !!! "icon") +:+
           HTML_4 +:+ worst +:+
           HTML_5 +:+ category_rows (readings report) +:+
           HTML_6 +:+ weather_section weather +:+
           HTML_7 +:+ (worst_style !!! "text") +:+
           HTML_8 +:+ recommendation +:+ HTML_9)
  end.

(** ** Programs that talk to the world *)

(** A MIME message as [send_alert_email] assembles it: the subtype of the
    multipart container, three headers and the attached parts, each with
    its text subtype. *)
Record email_message : Type := EmailMessage {
  mime_subtype : string;
  header_subject : string;
  header_from : string;
  header_to : string;
  attached : list (string * string);
}.

(** How the [with smtplib.SMTP(...)] block ends: normally, or with one of
    the three exception classes the function tells apart. *)
Inductive smtp_outcome : Type :=
  | SmtpSent
  | SMTPAuthenticationError
  | SMTPException (e : string)
  | OtherException (e : string).

(** One SMTP session: [ehlo], [starttls], [ehlo], [login], [sendmail]. *)
Record smtp_session : Type := SmtpSession {
  smtp_server : string;
  smtp_port : Z;
  login_user : string;
  login_password : string;
  envelope_from : string;
  envelope_to : string;
  message : email_message;
}.

(** Computations over the clock, the console, the environment variables,
    the two HTTP sources, the mail server and the preview file.  [Raise]
    is an exception nobody catches and [Exit] is [sys.exit]. *)
Inductive ioM (A : Type) : Type :=
  | Done (a : A)
  | Raise (e : exn)
  | Exit (code : Z)
  | Clock (k : datetime → ioM A)
  | Print (line : string) (k : ioM A)
  | Getenv (name : string) (k : option string → ioM A)
  | HttpGetPage (k : string + node → ioM A)
  | HttpGetWeather (k : string + gmap string string → ioM A)
  | Smtp (session : smtp_session) (k : smtp_outcome → ioM A)
  | WriteFile (name content : string) (k : ioM A).
Arguments Done {A} a.
Arguments Raise {A} e.
Arguments Exit {A} code.
Arguments Clock {A} k.
Arguments Print {A} line k.
Arguments Getenv {A} name k.
Arguments HttpGetPage {A} k.
Arguments HttpGetWeather {A} k.
Arguments Smtp {A} session k.
Arguments WriteFile {A} name content k.

Fixpoint io_bind {A B : Type} (f : A → ioM B) (m : ioM A) : ioM B :=
  match m with
  | Done a => f a
  | Raise e => Raise e
  | Exit code => Exit code
  | Clock k => Clock (fun t => io_bind f (k t))
  | Print line k => Print line (io_bind f k)
  | Getenv name k => Getenv name (fun v => io_bind f (k v))
  | HttpGetPage k => HttpGetPage (fun r => io_bind f (k r))
  | HttpGetWeather k => HttpGetWeather (fun r => io_bind f (k r))
  | Smtp session k => Smtp session (fun o => io_bind f (k o))
  | WriteFile name content k => WriteFile name content (io_bind f k)
  end.

#[global] Instance ioM_ret : MRet ioM := @Done.
#[global] Instance ioM_bind : MBind ioM := @io_bind.

(** [print(line)] *)
Definition print (line : string) : ioM unit := Print line (Done tt).

(** [os.getenv(name)] *)
Definition getenv (name : string) : ioM (option string) := Getenv name Done.

(** A clock-only computation run inside a larger program. *)
Fixpoint lift {A : Type} (m : clockM A) : ioM A :=
  match m with
  | Ret a => Done a
  | Now k => Clock (fun t => lift (k t))
  end.

(** What a run leaves behind, in order. *)
Inductive event : Type :=
  | EvPrint (line : string)
  | EvHttpGetPage
  | EvHttpGetWeather
  | EvSmtp (session : smtp_session)
  | EvWriteFile (name content : string).

Inductive outcome (A : Type) : Type :=
  | Returned (a : A)
  | Raised (e : exn)
  | Exited (code : Z).
Arguments Returned {A} a.
Arguments Raised {A} e.
Arguments Exited {A} code.

(** The answers of the world: the clock at each read, the environment
    variables, the outcome of each of the two HTTP requests and of the
    SMTP session. *)
Record world : Type := World {
  w_clock : nat → datetime;
  w_env : gmap string string;
  w_page : string + node;
  w_weather : string + gmap string string;
  w_smtp : smtp_outcome;
}.

(** One more event in front of what a run leaves behind. *)
Definition emit {A : Type} (ev : event) (r : list event * outcome A * nat)
    : list event * outcome A * nat :=
  (ev :: fst (fst r), snd (fst r), snd r).

(** Running a program from the [i]-th clock read on: the events, how it
    ended and the number of clock reads made so far. *)
Fixpoint exec {A : Type} (w : world) (i : nat) (m : ioM A)
    : list event * outcome A * nat :=
  match m with
  | Done a => ([], Returned a, i)
  | Raise e => ([], Raised e, i)
  | Exit code => ([], Exited code, i)
  | Clock k => exec w (S i) (k (w_clock w i))
  | Print line k => emit (EvPrint line) (exec w i k)
  | Getenv name k => exec w i (k (w_env w !! name))
  | HttpGetPage k => emit EvHttpGetPage (exec w i (k (w_page w)))
  | HttpGetWeather k => emit EvHttpGetWeather (exec w i (k (w_weather w)))
  | Smtp session k => emit (EvSmtp session) (exec w i (k (w_smtp w)))
  | WriteFile name content k => emit (EvWriteFile name content) (exec w i k)
  end.

Definition trace_of {A : Type} (w : world) (i : nat) (m : ioM A) : list event :=
  fst (fst (exec w i m)).

Definition outcome_of {A : Type} (w : world) (i : nat) (m : ioM A) : outcome A :=
  snd (fst (exec w i m)).

Definition is_print (ev : event) : bool :=
  match ev with EvPrint _ => true | _ => false end.

(** The events other than console output. *)
Definition effects (tr : list event) : list event :=
  List.filter (fun ev => negb (is_print ev)) tr.

(** ** [email_sender.py] *)

Definition SMTP_SERVER : string := "smtp.gmail.com".
Definition SMTP_PORT : Z := 587.

Definition MISSING_EMAIL_CONFIGURATION : string :=
  "Missing email configuration. Please set SMTP_EMAIL, SMTP_PASSWORD, " +:+
  "and ALERT_RECIPIENT in your .env file. See .env.example for details.".

(** The truth value of what [os.getenv] returns: [None] and the empty
    string are falsy. *)
Definition env_truthy (v : option string) : bool :=
  match v with
  | Some s => negb (bool_decide (s = ""))
  | None => false
  end.

(** The plain-text alternative. *)
Definition plain_text (subject : string) : string :=
  "Chicago Daily Allergy Report
" +:+ "Subject: " +:+ subject +:+ "

" +:+ "View this email in an HTML-capable email client for the full report.".

(** [send_alert_email] *)
Definition send_alert_email (subject html_body : string) : ioM bool :=
  sender_email ← getenv "SMTP_EMAIL";
  sender_password ← getenv "SMTP_PASSWORD";
  recipient_email ← getenv "ALERT_RECIPIENT";
  if negb (forallb env_truthy [sender_email; sender_password; recipient_email])
  then Raise (ValueError MISSING_EMAIL_CONFIGURATION)
  else
    let sender_email := default "" sender_email in
    let sender_password := default "" sender_password in
    let recipient_email := default "" recipient_email in
    let msg :=
      EmailMessage "alternative" subject
        ("Allergy Monitor 🌿 <" +:+ sender_email +:+ ">") recipient_email
        [(plain_text subject, "plain"); (html_body, "html")] in
    sent ← Smtp (SmtpSession SMTP_SERVER SMTP_PORT sender_email sender_password
                   sender_email recipient_email msg) Done;
    match sent with
    | SmtpSent =>
        _ ← print ("  ✅ Email sent to " +:+ recipient_email);
        mret true
    | SMTPAuthenticationError =>
        _ ← print "  ❌ SMTP authentication failed. Check your App Password.";
        _ ← print "     Generate one at: https://myaccount.google.com/apppasswords";
        mret false
    | SMTPException e =>
        _ ← print ("  ❌ SMTP error: " +:+ e);
        mret false
    | OtherException e =>
        _ ← print ("  ❌ Unexpected error sending email: " +:+ e);
        mret false
    end.

(** ** [main.py] *)

Module Main.

Definition SEASON_START_MONTH : Z := 4.
Definition SEASON_END_MONTH : Z := 10.

(** [date.weekday]: Monday is 0; computed as Python does, from the
    proleptic Gregorian ordinal of the date. *)
Definition is_leap (y : Z) : bool :=
  ((y mod 4 =? 0) && (negb (y mod 100 =? 0) || (y mod 400 =? 0)))%Z.

Definition days_before_year (y : Z) : Z :=
  let y := (y - 1)%Z in (y * 365 + y / 4 - y / 100 + y / 400)%Z.

Definition days_before_month (y m : Z) : Z :=
  (default 0 ([0; 31; 59; 90; 120; 151; 181; 212; 243; 273; 304; 334] !! Z.to_nat (m - 1)) +
   (if (2 <? m) && is_leap y then 1 else 0))%Z.

Definition toordinal (t : datetime) : Z :=
  (days_before_year (year t) + days_before_month (year t) (month t) + day t)%Z.

Definition weekday (t : datetime) : Z := ((toordinal t + 6) mod 7)%Z.

(** The month is in the season. *)
Definition in_season (t : datetime) : bool :=
  ((SEASON_START_MONTH <=? month t) && (month t <=? SEASON_END_MONTH))%Z.

(** [is_allergy_season] *)
Definition is_allergy_season : ioM bool :=
  Clock (fun t => Done (in_season t)).

(** [is_weekday] *)
Definition is_weekday : ioM bool :=
  Clock (fun t => Done (weekday t <? 5)%Z).

(** [%A] and [%B] *)
Definition day_name (t : datetime) : string :=
  default "" (["Monday"; "Tuesday"; "Wednesday"; "Thursday"; "Friday"; "Saturday";
               "Sunday"] !! Z.to_nat (weekday t)).

Definition month_name (t : datetime) : string :=
  default "" (["January"; "February"; "March"; "April"; "May"; "June"; "July";
               "August"; "September"; "October"; "November"; "December"]
              !! Z.to_nat (month t - 1)).

(** [t.strftime("%A, %B %d, %Y %I:%M %p")] *)
Definition strftime_banner (t : datetime) : string :=
  let hour12 := (if hour t mod 12 =? 0 then 12 else hour t mod 12)%Z in
  day_name t +:+ ", " +:+ month_name t +:+ " " +:+ fmt2 (day t) +:+ ", " +:+
  fmt4 (year t) +:+ " " +:+ fmt2 hour12 +:+ ":" +:+ fmt2 (minute t) +:+ " " +:+
  (if (hour t <? 12)%Z then "AM" else "PM").

(** ["=" * 50] *)
Definition RULE : string := "==================================================".

(** [f"{s:20s}"]: the width counts characters. *)
Definition pad20 (s : string) : string :=
  s +:+ String.string_of_list_ascii (replicate (20 - PyStr.len s) " "%char).

(** [scrape_pollen_data()], the request included. *)
Definition scrape_pollen_data_call : ioM (exn + DailyPollenReport) :=
  HttpGetPage (fun fetched => lift (scrape_pollen_data fetched)).

(** [fetch_chicago_weather]; the answer of the request is the text of
    whatever exception the [try] block ends with, or the four values
    after rounding. *)
Definition fetch_chicago_weather : ioM (option (gmap string string)) :=
  HttpGetWeather (fun r =>
    match r with
    | inl e => _ ← print ("  ⚠️  Could not fetch weather: " +:+ e); mret None
    | inr data => mret (Some data)
    end).

(** A [for x in xs: print(f(x))] loop. *)
Fixpoint print_each {A : Type} (f : A → string) (xs : list A) : ioM unit :=
  match xs with
  | [] => Done tt
  | x :: xs' => Print (f x) (print_each f xs')
  end.

(** [os.path.join(a, b)] for a second component that is not absolute. *)
Definition ends_with_slash (a : string) : bool :=
  match String.rev a with
  | String "/" _ => true
  | _ => false
  end.

Definition path_join (a b : string) : string :=
  if bool_decide (a = "") then b
  else if ends_with_slash a then a +:+ b
  else a +:+ "/" +:+ b.

(** Step 4 of [run] and the closing rule; [here] is
    [os.path.dirname(__file__)]. *)
Definition run_deliver (here : string) (preview_mode : bool) (subject html : string)
    : ioM unit :=
  if preview_mode then
    let preview_path := path_join here "preview.html" in
    _ ← WriteFile preview_path html (Done tt);
    _ ← print ("
👁️  Preview saved to: " +:+ preview_path);
    _ ← print "   Open in a browser to see the email.";
    print ("
" +:+ RULE)
  else
    _ ← print "
📨 Step 4: Sending email...";
    success ← send_alert_email subject html;
    if success : bool then
      _ ← print "
🎉 Daily allergy alert sent successfully!";
      print ("
" +:+ RULE)
    else
      _ ← print "
⚠️  Email failed to send. Check your .env configuration.";
      Exit 1.

(** Steps 2 and 3 of [run], then the delivery. *)
Definition run_report (here : string) (preview_mode : bool) (report : DailyPollenReport)
    : ioM unit :=
  _ ← print "
🌤️  Step 2: Fetching Chicago weather...";
  weather ← fetch_chicago_weather;
  _ ← match weather with
      | Some w =>
          if decide (w = ∅) then Done tt
          else print ("  ✅ " +:+ (w !!! "temperature") +:+ "°F, " +:+
                      (w !!! "humidity") +:+ "% humidity, " +:+
                      (w !!! "wind_speed") +:+ " mph wind")
      | None => Done tt
      end;
  _ ← print "
✉️  Step 3: Building email...";
  match build_email_html report weather with
  | inl e => Raise e
  | inr html =>
      match build_email_subject report with
      | inl e => Raise e
      | inr subject =>
          _ ← print ("  ✅ Subject: " +:+ subject);
          run_deliver here preview_mode subject html
      end
  end.

(** Step 1 of [run], then the rest. *)
Definition run_scrape (here : string) (preview_mode : bool) : ioM unit :=
  _ ← print "
📡 Step 1: Scraping ASAP Illinois pollen data...";
  scraped ← scrape_pollen_data_call;
  match scraped with
  | inr report =>
      _ ← print ("  ✅ Got " +:+ pretty (length (readings report)) +:+
                 " readings for " +:+ report_date report);
      _ ← print_each (fun reading => "     " +:+ pad20 (category reading) +:+ " → " +:+
                                     level reading) (readings report);
      run_report here preview_mode report
  | inl (ConnectionError e) =>
      _ ← print ("  ❌ Connection error: " +:+ e); Exit 1
  | inl (ValueError e) =>
      _ ← print ("  ❌ Parse error: " +:+ e); Exit 1
  end.

(** [run] *)
Definition run (here : string) (test_mode preview_mode : bool) : ioM unit :=
  _ ← print RULE;
  _ ← print "🌿 Chicago Daily Allergy Alert";
  now ← Clock Done;
  _ ← print ("📅 " +:+ strftime_banner now);
  _ ← print RULE;
  if negb test_mode then
    season ← is_allergy_season;
    if negb season then
      now ← Clock Done;
      _ ← print ("
❄️  Off-season (current month: " +:+ month_name now +:+ ")");
      _ ← print "   ASAP Illinois collects data April–October only.";
      print "   Use --test flag to force a run for testing."
    else
      working_day ← is_weekday;
      if negb working_day then
        _ ← print "
📅 Weekend — ASAP Illinois doesn't update on weekends.";
        print "   Use --test flag to force a run for testing."
      else run_scrape here preview_mode
  else
    _ ← print "
🧪 TEST MODE — skipping season/weekday checks";
    run_scrape here preview_mode.

End Main.

(** ** Vocabulary of the statements about runs *)

(** What can be seen of a run from outside: its events other than console
    output, and how it ended. *)
Definition seen {A : Type} (r : list event * outcome A * nat) : list event * outcome A :=
  (effects (fst (fst r)), snd (fst r)).

Definition observe {A : Type} (w : world) (i : nat) (m : ioM A) : list event * outcome A :=
  seen (exec w i m).

(** The three variables are set and not empty. *)
Definition mail_configured (env : gmap string string) : bool :=
  forallb env_truthy
    [env !! "SMTP_EMAIL"; env !! "SMTP_PASSWORD"; env !! "ALERT_RECIPIENT"].

(** The session [send_alert_email] opens when the variables are set. *)
Definition mail_session (env : gmap string string) (subject html_body : string)
    : smtp_session :=
  let sender := default "" (env !! "SMTP_EMAIL") in
  let recipient := default "" (env !! "ALERT_RECIPIENT") in
  SmtpSession "smtp.gmail.com" 587 sender (default "" (env !! "SMTP_PASSWORD"))
    sender recipient
    (EmailMessage "alternative" subject ("Allergy Monitor 🌿 <" +:+ sender +:+ ">")
       recipient [(plain_text subject, "plain"); (html_body, "html")]).

Definition is_sent (o : smtp_outcome) : bool :=
  match o with SmtpSent => true | _ => false end.

(** The weather dictionary the world's answer leads to. *)
Definition weather_of (w : world) : option (gmap string string) :=
  match w_weather w with
  | inl _ => None
  | inr data => Some data
  end.

(** The checks of [run] let the run proceed: the season check reads the
    clock right after the banner did, the weekday check after that. *)
Definition proceeds (w : world) (i : nat) (test_mode : bool) : bool :=
  test_mode ||
  (Main.in_season (w_clock w (S i)) && (Main.weekday (w_clock w (S (S i))) <? 5)%Z).

(** The number of clock reads behind a run that reaches the scrape. *)
Definition scrape_start (i : nat) (test_mode : bool) : nat :=
  if test_mode then S i else S (S (S i)).

(** What [scrape_pollen_data] gives in a world, from the [j]-th clock read
    on. *)
Definition scraped (w : world) (j : nat) : exn + DailyPollenReport :=
  fst (run (w_clock w) j (scrape_pollen_data (w_page w))).

Definition is_smtp (ev : event) : bool :=
  match ev with EvSmtp _ => true | _ => false end.

(** What the stages of [run] are seen to do: the delivery, the stage
    that follows a successful scrape, and the whole run. *)
Definition delivery (w : world) (here : string) (preview_mode : bool)
    (subject html : string) : list event * outcome unit :=
  if preview_mode
  then ([EvWriteFile (Main.path_join here "preview.html") html], Returned tt)
  else if mail_configured (w_env w)
       then ([EvSmtp (mail_session (w_env w) subject html)],
             if is_sent (w_smtp w) then Returned tt else Exited 1)
       else ([], Raised (ValueError MISSING_EMAIL_CONFIGURATION)).

Definition after_scrape (w : world) (here : string) (preview_mode : bool)
    (report : DailyPollenReport) : list event * outcome unit :=
  match build_email_html report (weather_of w), build_email_subject report with
  | inr html, inr subject =>
      (EvHttpGetWeather :: fst (delivery w here preview_mode subject html),
       snd (delivery w here preview_mode subject html))
  | inl e, _ => ([EvHttpGetWeather], Raised e)
  | inr _, inl e => ([EvHttpGetWeather], Raised e)
  end.

Definition whole_run (w : world) (i : nat) (here : string)
    (test_mode preview_mode : bool) : list event * outcome unit :=
  if proceeds w i test_mode then
    match scraped w (scrape_start i test_mode) with
    | inl _ => ([EvHttpGetPage], Exited 1)
    | inr report =>
        (EvHttpGetPage :: fst (after_scrape w here preview_mode report),
         snd (after_scrape w here preview_mode report))
    end
  else ([], Returned tt).

(** A world for the examples: a Monday morning in June, the sample page,
    a weather answer, the three variables set and a mail server that
    accepts the message. *)
Definition june_monday : datetime := Datetime 2026 6 15 8 0 0.

Definition SAMPLE_WEATHER : gmap string string :=
  list_to_map [("temperature", "72"); ("humidity", "65"); ("wind_speed", "8");
               ("precipitation", "0.0")].

Definition SAMPLE_ENV : gmap string string :=
  list_to_map [("SMTP_EMAIL", "sender@example.com"); ("SMTP_PASSWORD", "app-password");
               ("ALERT_RECIPIENT", "recipient@example.com")].

Definition SAMPLE_WORLD : world :=
  World (fun _ => june_monday) SAMPLE_ENV (inr SAMPLE_HTML) (inr SAMPLE_WEATHER) SmtpSent.

(** The run is let through: test mode, or a month from April to October
    at the season check and a day from Monday to Friday at the weekday
    check. *)
Definition let_through (w : world) (i : nat) (test_mode : bool) : Prop :=
  test_mode = true ∨
  ((4 ≤ month (w_clock w (S i)) ≤ 10)%Z ∧ (Main.weekday (w_clock w (S (S i))) < 5)%Z).

(** Worlds for the examples of runs that stop early or fail. *)
Definition sunday : datetime := Datetime 2026 6 14 8 0 0.

Definition WEEKEND_WORLD : world :=
  World (fun _ => sunday) SAMPLE_ENV (inr SAMPLE_HTML) (inr SAMPLE_WEATHER) SmtpSent.

Definition OFFLINE_WORLD : world :=
  World (fun _ => june_monday) SAMPLE_ENV (inl "connection timed out")
    (inr SAMPLE_WEATHER) SmtpSent.

Definition UNCONFIGURED_WORLD : world :=
  World (fun _ => june_monday) (delete "SMTP_PASSWORD" SAMPLE_ENV) (inr SAMPLE_HTML)
    (inl "weather service down") SmtpSent.

(** The four keys of the weather dictionary that the page shows. *)
Definition WEATHER_KEYS : list string :=
  ["temperature"; "humidity"; "wind_speed"; "precipitation"].

(** * Properties *)

(** ** Strings and loops with [break] *)

Lemma str_app_assoc (a b c : string) : (a +:+ b) +:+ c = a +:+ b +:+ c.
Proof. induction a as [|x a IH]; simpl; [done|]. by rewrite IH. Qed.

Lemma str_app_nil_r (a : string) : a +:+ "" = a.
Proof. induction a as [|x a IH]; simpl; [done|]. by rewrite IH. Qed.

Lemma str_app_length (a b : string) :
  String.length (a +:+ b) = String.length a + String.length b.
Proof. induction a as [|x a IH]; simpl; [done|]. by rewrite IH. Qed.

Lemma startswith_spec (needle hay : string) :
  PyStr.startswith needle hay = true ↔ ∃ post, hay = needle +:+ post.
Proof.
  revert hay. induction needle as [|a needle IH]; intros hay; simpl.
  - split; [intros _; by exists hay | done].
  - destruct hay as [|b hay].
    + split; [done | intros [post H]; discriminate].
    + destruct (decide (a = b)) as [->|Hne].
      * rewrite IH. split; intros [post H]; exists post; simpl in *; congruence.
      * split; [done | intros [post H]; simpl in H; congruence].
Qed.

Lemma contains_spec (needle hay : string) :
  PyStr.contains needle hay = true ↔ PyStr.substring_of needle hay.
Proof.
  unfold PyStr.substring_of.
  induction hay as [|c hay IH]; simpl; rewrite orb_true_iff, startswith_spec.
  - split.
    + intros [[post H]|?]; [by exists EmptyString, post | done].
    + intros (pre & post & H). left.
      destruct pre; [by exists post | discriminate].
  - rewrite IH. split.
    + intros [[post H]|(pre & post & H)].
      * by exists EmptyString, post.
      * exists (String c pre), post. simpl. by rewrite H.
    + intros (pre & post & H). destruct pre as [|c' pre]; simpl in H.
      * left. by exists post.
      * right. exists pre, post. congruence.
Qed.

Lemma contains_false (needle hay : string) :
  PyStr.contains needle hay = false ↔ ¬ PyStr.substring_of needle hay.
Proof. rewrite <- contains_spec. by destruct (PyStr.contains needle hay). Qed.

Section first_hit.
Context {A : Type} (test : A → bool).

Lemma first_hit_Some (xs : list A) (x : A) :
  first_hit test xs = Some x ↔
  ∃ before after, xs = before ++ x :: after ∧ test x = true ∧
                  ∀ y, y ∈ before → test y = false.
Proof.
  induction xs as [|a xs IH]; simpl.
  - split; [done | intros ([|??] & ? & ? & _); discriminate].
  - destruct (test a) eqn:Ea.
    + split.
      * intros [= ->]. exists [], xs. split_and!; [done..|]. by intros y ?%elem_of_nil.
      * intros ([|b before] & after & Heq & Hx & Hb); simplify_eq/=; [done|].
        specialize (Hb b (list_elem_of_here _ _)). congruence.
    + rewrite IH. split.
      * intros (before & after & -> & Hx & Hb). exists (a :: before), after.
        split_and!; [done..|]. intros y [->|?]%elem_of_cons; auto.
      * intros ([|b before] & after & Heq & Hx & Hb); simplify_eq/=; [congruence|].
        exists before, after. split_and!; [done..|].
        intros y ?. apply Hb. by right.
Qed.

Lemma first_hit_None (xs : list A) :
  first_hit test xs = None ↔ ∀ y, y ∈ xs → test y = false.
Proof.
  induction xs as [|a xs IH]; simpl.
  - split; [by intros _ y ?%elem_of_nil | done].
  - destruct (test a) eqn:Ea.
    + split; [done | intros H]. specialize (H a (list_elem_of_here _ _)). congruence.
    + rewrite IH. split.
      * intros H y [->|?]%elem_of_cons; auto.
      * intros H y ?. apply H. by right.
Qed.

Lemma first_hit_elem (xs : list A) (x : A) :
  first_hit test xs = Some x → x ∈ xs ∧ test x = true.
Proof.
  intros (before & after & -> & Hx & _)%first_hit_Some. split; [|done].
  apply elem_of_app. right. by left.
Qed.
End first_hit.

(** ** Severity resolution *)

Lemma find_level_unfold (e : element) :
  _find_level_near_element e =
  match grandparent e with
  | Some g =>
      first_hit (fun lvl => PyStr.contains lvl (get_text " " true (el_node g))) valid_levels
  | None => None
  end.
Proof. reflexivity. Qed.

Lemma find_level_Some (e g : element) (lvl : string) :
  grandparent e = Some g →
  _find_level_near_element e = Some lvl ↔
  ∃ before after, valid_levels = before ++ lvl :: after ∧
    PyStr.substring_of lvl (get_text " " true (el_node g)) ∧
    ∀ l, l ∈ before → ¬ PyStr.substring_of l (get_text " " true (el_node g)).
Proof.
  intros Hg. rewrite find_level_unfold, Hg, first_hit_Some.
  split; intros (before & after & Hv & Hin & Hb); exists before, after;
    (split_and!; [done| |]).
  - by apply contains_spec.
  - intros l Hl. apply contains_false. auto.
  - by apply contains_spec.
  - intros l Hl. apply contains_false. auto.
Qed.


(** C1. When the parent of a node has a parent, [_find_level_near_element]
    returns exactly the first of "Very High", "High", "Moderate", "Low",
    "Absent" that occurs as a substring of the grandparent's text (its
    stripped strings joined by one space): a token is returned if and only
    if it occurs and no token before it in that order does.  In particular
    a text in which "Very High" occurs also has "High" as a substring, and
    the result is "Very High". *)
Theorem find_level_scans_in_priority_order (e p g : element) :
  parent e = Some p →
  parent p = Some g →
  let text := get_text " " true (el_node g) in
  (∀ lvl, _find_level_near_element e = Some lvl ↔
     ∃ before after, valid_levels = before ++ lvl :: after ∧
       PyStr.substring_of lvl text ∧
       ∀ l, l ∈ before → ¬ PyStr.substring_of l text) ∧
  (PyStr.substring_of "Very High" text →
     PyStr.substring_of "High" text ∧
     _find_level_near_element e = Some "Very High" ∧
     _find_level_near_element e ≠ Some "High").
Proof.
  intros Hp Hg text.
  assert (Hgp : grandparent e = Some g) by (unfold grandparent; by rewrite Hp).
  split.
  - intros lvl. by apply find_level_Some.
  - intros Hvh.
    assert (Hres : _find_level_near_element e = Some "Very High").
    { apply (find_level_Some e g _ Hgp).
      exists [], ["High"; "Moderate"; "Low"; "Absent"].
      split_and!; [done..|]. by intros l ?%elem_of_nil. }
    split_and!; [|done|by rewrite Hres].
    destruct Hvh as (pre & post & H).
    exists (pre +:+ "Very "), post. etrans; [exact H|].
    by rewrite str_app_assoc.
Qed.

(** The heading of [VERY_HIGH_PAGE]: its grandparent reads
    "Tree Pollen Very High". *)
Lemma find_level_scans_in_priority_order_witness :
  let e := heading VERY_HIGH_PAGE 0 in
  let p := Element (Tag "div" [tree_h4])
             [block "Tree Pollen" "Very High"; VERY_HIGH_PAGE] in
  let g := Element (block "Tree Pollen" "Very High") [VERY_HIGH_PAGE] in
  parent e = Some p ∧ parent p = Some g ∧
  get_text " " true (el_node g) = "Tree Pollen Very High" ∧
  _find_level_near_element e = Some "Very High".
Proof.
  intros e p g.
  assert (Hp : parent e = Some p) by reflexivity.
  assert (Hg : parent p = Some g) by reflexivity.
  split_and!; [exact Hp | exact Hg | reflexivity |].
  apply (proj2 (find_level_scans_in_priority_order e p g Hp Hg)).
  by exists "Tree Pollen ", "".
Defined.

(** ** Category matching *)

Section match_category.
Variable text : string.

Lemma exact_pass_Some (c : string) :
  first_hit (fun e => bool_decide (PyStr.lower e = PyStr.lower text))
    EXPECTED_CATEGORIES = Some c ↔
  ∃ before after, EXPECTED_CATEGORIES = before ++ c :: after ∧
    exact_match text c ∧ ∀ e, e ∈ before → ¬ exact_match text e.
Proof.
  rewrite first_hit_Some. unfold exact_match.
  split; intros (before & after & Heq & Hc & Hb); exists before, after;
    (split_and!; [done| |]).
  - by apply bool_decide_eq_true in Hc.
  - intros e He. specialize (Hb e He). by apply bool_decide_eq_false in Hb.
  - by apply bool_decide_eq_true.
  - intros e He. apply bool_decide_eq_false. auto.
Qed.

Lemma exact_pass_None :
  first_hit (fun e => bool_decide (PyStr.lower e = PyStr.lower text))
    EXPECTED_CATEGORIES = None ↔
  ∀ e, e ∈ EXPECTED_CATEGORIES → ¬ exact_match text e.
Proof.
  rewrite first_hit_None. unfold exact_match.
  split; intros H e He; specialize (H e He).
  - by apply bool_decide_eq_false in H.
  - by apply bool_decide_eq_false.
Qed.

Lemma inside_pass_Some (c : string) :
  first_hit (fun e => PyStr.contains (PyStr.lower e) (PyStr.lower text))
    EXPECTED_CATEGORIES = Some c ↔
  ∃ before after, EXPECTED_CATEGORIES = before ++ c :: after ∧
    inside_match text c ∧ ∀ e, e ∈ before → ¬ inside_match text e.
Proof.
  rewrite first_hit_Some. unfold inside_match.
  split; intros (before & after & Heq & Hc & Hb); exists before, after;
    (split_and!; [done| |]).
  - by apply contains_spec.
  - intros e He. apply contains_false. auto.
  - by apply contains_spec.
  - intros e He. apply contains_false. auto.
Qed.

Lemma inside_pass_None :
  first_hit (fun e => PyStr.contains (PyStr.lower e) (PyStr.lower text))
    EXPECTED_CATEGORIES = None ↔
  ∀ e, e ∈ EXPECTED_CATEGORIES → ¬ inside_match text e.
Proof.
  rewrite first_hit_None. unfold inside_match.
  split; intros H e He; apply contains_false; auto.
Qed.

Lemma match_category_Some (c : string) :
  match_category text = Some c ↔
  ∃ before after, EXPECTED_CATEGORIES = before ++ c :: after ∧
    ((exact_match text c ∧ ∀ e, e ∈ before → ¬ exact_match text e) ∨
     ((∀ e, e ∈ EXPECTED_CATEGORIES → ¬ exact_match text e) ∧
      inside_match text c ∧ ∀ e, e ∈ before → ¬ inside_match text e)).
Proof.
  unfold match_category.
  destruct (first_hit _ EXPECTED_CATEGORIES) as [c0|] eqn:Hexact.
  - split.
    + intros [= <-]. apply exact_pass_Some in Hexact as (before & after & ? & ? & ?).
      exists before, after. auto.
    + intros (before & after & Heq & [[Hc Hb]|[Hno _]]).
      * rewrite <- Hexact. apply exact_pass_Some. by exists before, after.
      * apply exact_pass_Some in Hexact as (b0 & a0 & Heq0 & Hc0 & _).
        destruct (Hno c0); [|done]. rewrite Heq0. apply elem_of_app. right. by left.
  - pose proof (proj1 exact_pass_None Hexact) as Hno. split.
    + intros (before & after & ? & ? & ?)%inside_pass_Some.
      exists before, after. auto.
    + intros (before & after & Heq & [[Hc _]|(_ & Hc & Hb)]).
      * destruct (Hno c); [|done]. rewrite Heq. apply elem_of_app. right. by left.
      * apply inside_pass_Some. by exists before, after.
Qed.

Lemma match_category_None :
  match_category text = None ↔
  ∀ e, e ∈ EXPECTED_CATEGORIES → ¬ exact_match text e ∧ ¬ inside_match text e.
Proof.
  unfold match_category.
  destruct (first_hit _ EXPECTED_CATEGORIES) as [c0|] eqn:Hexact.
  - split; [done|]. intros H.
    apply exact_pass_Some in Hexact as (b0 & a0 & Heq0 & Hc0 & _).
    destruct (H c0) as [Hno _]; [|done]. rewrite Heq0. apply elem_of_app. right. by left.
  - rewrite inside_pass_None. pose proof (proj1 exact_pass_None Hexact) as Hno.
    split; [by auto | intros H e He; by apply H].
Qed.

Lemma match_category_expected (c : string) :
  match_category text = Some c → c ∈ EXPECTED_CATEGORIES.
Proof.
  intros (before & after & -> & _)%match_category_Some.
  apply elem_of_app. right. by left.
Qed.
End match_category.

Lemma h4_step_unfold (report_date : string) (rs : list PollenReading)
    (seen : gset string) (h4 : element) :
  h4_step report_date (rs, seen) h4 =
  match category_of h4 with
  | None => (rs, seen)
  | Some c =>
      if decide (c ∈ seen) then (rs, seen)
      else match _find_level_near_element h4 with
           | Some lvl => (rs ++ [mkPollenReading c lvl report_date DEFAULT_SOURCE],
                          {[c]} ∪ seen)
           | None => (rs, {[c]} ∪ seen)
           end
  end.
Proof. reflexivity. Qed.

(** C3. The category of a heading text is decided in two passes over the
    expected labels, in their listed order: the result is the label [c]
    exactly when either [c] equals the text case-insensitively and no
    earlier label does, or no label at all equals the text, [c] occurs
    case-insensitively inside the text and no earlier label does.  There is
    no result exactly when no label matches either way, and then the loop
    of [_extract_readings] leaves its readings and its claimed categories
    as they were. *)
Theorem match_category_exact_then_substring (text : string) :
  (∀ c, match_category text = Some c ↔
     ∃ before after, EXPECTED_CATEGORIES = before ++ c :: after ∧
       ((exact_match text c ∧ ∀ e, e ∈ before → ¬ exact_match text e) ∨
        ((∀ e, e ∈ EXPECTED_CATEGORIES → ¬ exact_match text e) ∧
         inside_match text c ∧ ∀ e, e ∈ before → ¬ inside_match text e))) ∧
  (match_category text = None ↔
     ∀ e, e ∈ EXPECTED_CATEGORIES → ¬ exact_match text e ∧ ¬ inside_match text e) ∧
  (match_category text = None →
     ∀ report_date st h4, get_text "" true (el_node h4) = text →
       h4_step report_date st h4 = st) ∧
  EXPECTED_CATEGORIES =
    ["Tree Pollen"; "Grass Pollen"; "Ragweed Pollen"; "Total Weed Pollen"; "Mold"].
Proof.
  split_and!.
  - intros c. apply match_category_Some.
  - apply match_category_None.
  - intros Hnone report_date [rs seen] h4 Htext.
    rewrite h4_step_unfold. unfold category_of, category_text. by rewrite Htext, Hnone.
  - reflexivity.
Qed.

(** ** Worst severity *)

Lemma max_by_first_maximum {A : Type} (key : A → Z) (best : A) (xs : list A) :
  ∃ before after,
    best :: xs = before ++ max_by key best xs :: after ∧
    (∀ y, y ∈ before → (key y < key (max_by key best xs))%Z) ∧
    (∀ y, y ∈ after → (key y ≤ key (max_by key best xs))%Z).
Proof.
  revert best. induction xs as [|x xs IH]; intros best; simpl.
  - exists [], []. split_and!; [done|..]; by intros y ?%elem_of_nil.
  - destruct (Z.ltb_spec (key best) (key x)) as [Hlt|Hge].
    + destruct (IH x) as (before & after & Heq & Hb & Ha).
      remember (max_by key x xs) as m eqn:Hm. clear Hm.
      exists (best :: before), after. split_and!; [by rewrite Heq| |done].
      intros y [->|Hy]%elem_of_cons; [|by auto].
      destruct before as [|b before]; simpl in Heq; injection Heq as Hx Hxs.
      * by rewrite <- Hx.
      * specialize (Hb b (list_elem_of_here _ _)). rewrite <- Hx in Hb. lia.
    + destruct (IH best) as (before & after & Heq & Hb & Ha).
      remember (max_by key best xs) as m eqn:Hm. clear Hm.
      destruct before as [|b before]; simpl in Heq; injection Heq as Hbest Hxs.
      * exists [], (x :: xs). rewrite <- Hbest. split_and!; [done| |].
        -- by intros y ?%elem_of_nil.
        -- intros y [->|Hy]%elem_of_cons; [lia|]. rewrite Hbest. apply Ha.
           by rewrite <- Hxs.
      * exists (best :: x :: before), after. split_and!.
        -- simpl. by do 2 f_equal.
        -- pose proof (Hb b (list_elem_of_here _ _)) as Hlt. rewrite <- Hbest in Hlt.
           intros y [->|[->|Hy]%elem_of_cons]%elem_of_cons; [done|lia|].
           apply Hb. by right.
        -- done.
Qed.

Lemma severity_rank_table :
  level_rank "Absent" = 0%Z ∧ level_rank "Low" = 1%Z ∧
  level_rank "Moderate" = 2%Z ∧ level_rank "High" = 3%Z ∧
  level_rank "Very High" = 4%Z.
Proof. by split_and!. Qed.

Lemma valid_levels_cases (lvl : string) :
  lvl ∈ valid_levels ↔
  lvl = "Absent" ∨ lvl = "Low" ∨ lvl = "Moderate" ∨ lvl = "High" ∨ lvl = "Very High".
Proof.
  unfold valid_levels. rewrite !elem_of_cons, elem_of_nil. tauto.
Qed.

Lemma severity_rank_unknown (lvl : string) :
  lvl ∉ valid_levels ↔ level_rank lvl = (-1)%Z.
Proof.
  split.
  - intros Hnot. unfold level_rank, severity_rank.
    rewrite not_elem_of_list_to_map_1; [done|].
    intros Hin. apply Hnot, valid_levels_cases. simpl in Hin.
    rewrite !elem_of_cons, elem_of_nil in Hin. tauto.
  - intros Hrank Hin. apply valid_levels_cases in Hin.
    destruct Hin as [->|[->|[->|[->| ->]]]]; vm_compute in Hrank; discriminate.
Qed.

Lemma severity_rank_lower_bound (lvl : string) : (-1 ≤ level_rank lvl)%Z.
Proof.
  destruct (decide (lvl ∈ valid_levels)) as [Hin|Hnot].
  - apply valid_levels_cases in Hin.
    destruct Hin as [->|[->|[->|[->| ->]]]]; by vm_compute.
  - apply severity_rank_unknown in Hnot. lia.
Qed.

Lemma severity_icon_unknown (lvl : string) :
  lvl ∉ valid_levels → severity_icon lvl = "".
Proof.
  intros Hnot. unfold severity_icon, SEVERITY_COLORS.
  rewrite not_elem_of_list_to_map_1; [done|].
  intros Hin. apply Hnot, valid_levels_cases. simpl in Hin.
  rewrite !elem_of_cons, elem_of_nil in Hin. tauto.
Qed.

(** C5. On a non-empty list [worst_level] does not fail and returns the
    level of the first reading of maximal rank: every reading before it
    ranks strictly lower and every reading after it ranks at most as high,
    where Absent, Low, Moderate, High, Very High rank 0 to 4 and exactly
    the other strings rank -1.  A reading with an unrecognized level is
    returned only when every level in the list is unrecognized.  Readings
    with levels High, Low, Moderate give "High"; Very High, High give
    "Very High"; Absent, Absent give "Absent". *)
Theorem worst_level_first_of_max_rank (rs : list PollenReading) :
  rs ≠ [] →
  (∃ before r after,
     rs = before ++ r :: after ∧
     worst_level rs = inr (level r) ∧
     (∀ y, y ∈ before → (rank_of y < rank_of r)%Z) ∧
     (∀ y, y ∈ after → (rank_of y ≤ rank_of r)%Z) ∧
     (level r ∉ valid_levels → ∀ y, y ∈ rs → level y ∉ valid_levels)) ∧
  (level_rank "Absent" = 0 ∧ level_rank "Low" = 1 ∧
   level_rank "Moderate" = 2 ∧ level_rank "High" = 3 ∧
   level_rank "Very High" = 4 ∧
   ∀ lvl, lvl ∉ valid_levels ↔ level_rank lvl = -1)%Z ∧
  (∀ mk : string → PollenReading, (∀ lvl, level (mk lvl) = lvl) →
     worst_level (mk <$> ["High"; "Low"; "Moderate"]) = inr "High" ∧
     worst_level (mk <$> ["Very High"; "High"]) = inr "Very High" ∧
     worst_level (mk <$> ["Absent"; "Absent"]) = inr "Absent").
Proof.
  intros Hne. split; [|split].
  - destruct rs as [|r0 rs]; [done|].
    destruct (max_by_first_maximum rank_of r0 rs) as (before & after & Heq & Hb & Ha).
    exists before, (max_by rank_of r0 rs), after. split_and!; [done..|].
    intros Hunknown y Hy. apply severity_rank_unknown in Hunknown.
    apply severity_rank_unknown. pose proof (severity_rank_lower_bound (level y)).
    fold (rank_of y). fold (rank_of (max_by rank_of r0 rs)) in Hunknown.
    rewrite Heq in Hy. apply elem_of_app in Hy as [Hy|[->|Hy]%elem_of_cons].
    + specialize (Hb y Hy). unfold rank_of in *. lia.
    + done.
    + specialize (Ha y Hy). unfold rank_of in *. lia.
  - split_and!; try reflexivity. apply severity_rank_unknown.
  - intros mk Hmk. unfold worst_level. simpl.
    destruct severity_rank_table as (H0 & H1 & H2 & H3 & H4).
    do 3 (rewrite ?Hmk, ?H0, ?H1, ?H2, ?H3, ?H4; simpl). done.
Qed.

(** The readings of the sample page. *)
Lemma worst_level_first_of_max_rank_witness :
  readings SAMPLE_REPORT ≠ [] ∧
  ∃ before r after,
    readings SAMPLE_REPORT = before ++ r :: after ∧
    worst_level (readings SAMPLE_REPORT) = inr (level r) ∧
    (∀ y, y ∈ before → (rank_of y < rank_of r)%Z) ∧
    (∀ y, y ∈ after → (rank_of y ≤ rank_of r)%Z) ∧
    (level r ∉ valid_levels → ∀ y, y ∈ readings SAMPLE_REPORT → level y ∉ valid_levels).
Proof.
  assert (Hne : readings SAMPLE_REPORT ≠ []) by (vm_compute; discriminate).
  split; [exact Hne|].
  exact (proj1 (worst_level_first_of_max_rank (readings SAMPLE_REPORT) Hne)).
Defined.

(** ** The subject line *)

(** C8. For a report with at least one reading the subject is the icon of
    the worst level, a space, the location "Chicago", " Allergy Alert (",
    the report's date, "): " and the worst level, where the worst level is
    what [worst_level] returns; a level that is none of the five has the
    empty icon. *)
Theorem build_email_subject_format (report : DailyPollenReport) :
  readings report ≠ [] →
  ∃ worst,
    worst_level (readings report) = inr worst ∧
    build_email_subject report =
      inr (severity_icon worst +:+ " " +:+ "Chicago" +:+ " Allergy Alert (" +:+
           report_date report +:+ "): " +:+ worst) ∧
    (worst ∉ valid_levels → severity_icon worst = "") ∧
    (severity_icon "Absent" = "✅" ∧ severity_icon "Low" = "🟢" ∧
     severity_icon "Moderate" = "🟡" ∧ severity_icon "High" = "🟠" ∧
     severity_icon "Very High" = "🔴").
Proof.
  intros Hne. unfold build_email_subject.
  destruct (readings report) as [|r0 rs] eqn:Hrs; [done|].
  eexists. split; [reflexivity|]. split; [reflexivity|]. split; [|by split_and!].
  apply severity_icon_unknown.
Qed.

(** The subject of the sample report. *)
Lemma build_email_subject_format_witness :
  readings SAMPLE_REPORT ≠ [] ∧
  ∃ worst,
    worst_level (readings SAMPLE_REPORT) = inr worst ∧
    build_email_subject SAMPLE_REPORT =
      inr (severity_icon worst +:+ " " +:+ "Chicago" +:+ " Allergy Alert (" +:+
           report_date SAMPLE_REPORT +:+ "): " +:+ worst) ∧
    (worst ∉ valid_levels → severity_icon worst = "") ∧
    (severity_icon "Absent" = "✅" ∧ severity_icon "Low" = "🟢" ∧
     severity_icon "Moderate" = "🟡" ∧ severity_icon "High" = "🟠" ∧
     severity_icon "Very High" = "🔴").
Proof.
  assert (Hne : readings SAMPLE_REPORT ≠ []) by (vm_compute; discriminate).
  split; [exact Hne|].
  exact (build_email_subject_format SAMPLE_REPORT Hne).
Defined.

(** ** The clock monad *)

Lemma run_bind {A B : Type} (clock : nat → datetime) (m : clockM A)
    (f : A → clockM B) (i : nat) :
  run clock i (m ≫= f) = run clock (snd (run clock i m)) (f (fst (run clock i m))).
Proof.
  revert i. induction m as [a|k IH]; intros i; [done|].
  apply (IH (clock i) (S i)).
Qed.

(** ** Characters *)

Lemma front_split (s : string) (c : option N) (ch rest : string) :
  PyStr.front s = Some (c, ch, rest) → s = ch +:+ rest ∧ 1 ≤ String.length ch.
Proof.
  unfold PyStr.front. intros H.
  repeat case_match; simplify_eq; simpl; split; (done || lia).
Qed.

Lemma chars_from_skip (pre s : string) :
  PyStr.chars_from (String.length pre) (pre +:+ s) = PyStr.chars s.
Proof.
  induction pre as [|a pre IH]; [done|]. exact IH.
Qed.

(** The characters of a text spell the text: nothing is lost or added. *)
Lemma chars_text (s : string) : PyStr.text_of (PyStr.chars s) = s.
Proof.
  remember (String.length s) as n eqn:Hn. revert s Hn.
  induction n as [n IH] using lt_wf_ind. intros [|a s] Hn; [done|].
  unfold PyStr.chars.
  change (PyStr.chars_from 0 (String a s)) with
    match PyStr.front (String a s) with
    | Some (c, ch, _) => (c, ch) :: PyStr.chars_from (String.length ch - 1) s
    | None => []
    end.
  destruct (PyStr.front (String a s)) as [[[c ch] rest]|] eqn:Hfront;
    [|unfold PyStr.front in Hfront; by repeat case_match].
  apply front_split in Hfront as [Hs Hch].
  destruct ch as [|a' ch]; [simpl in Hch; lia|]. injection Hs as <- ->.
  cbn [String.length].
  replace (S (String.length ch) - 1) with (String.length ch) by lia.
  rewrite chars_from_skip.
  change (PyStr.text_of ((c, String a ch) :: PyStr.chars rest))
    with (String a ch +:+ PyStr.text_of (PyStr.chars rest)).
  rewrite (IH (String.length rest)); [done| |done].
  subst n. cbn [String.length]. rewrite str_app_length. lia.
Qed.

(** A well-formed character reads the same whatever follows it. *)
Lemma front_stable (s : string) (c : N) (ch rest x : string) :
  PyStr.front s = Some (Some c, ch, rest) → PyStr.front (ch +:+ x) = Some (Some c, ch, x).
Proof.
  unfold PyStr.front. intros H.
  destruct s as [|a s1]; [done|].
  destruct (PyStr.byte a <? 128)%N eqn:E1.
  { simplify_eq. simpl. by rewrite E1. }
  destruct s1 as [|b s2]; [done|].
  destruct (PyStr.between 194 223 a && PyStr.cont b) eqn:E2.
  { simplify_eq. simpl. by rewrite E1, E2. }
  destruct s2 as [|c0 s3]; [done|].
  destruct (PyStr.lead3 a b && PyStr.cont c0) eqn:E3.
  { simplify_eq. simpl. by rewrite E1, E2, E3. }
  destruct s3 as [|d s4]; [done|].
  destruct (PyStr.lead4 a b && PyStr.cont c0 && PyStr.cont d) eqn:E4; [|done].
  simplify_eq. simpl. by rewrite E1, E2, E3, E4.
Qed.

(** A character below U+0080 is one byte. *)
Lemma front_ascii (s : string) (c : N) (ch rest : string) :
  PyStr.front s = Some (Some c, ch, rest) → (c < 128)%N →
  ch = String (ascii_of_N c) "".
Proof.
  unfold PyStr.front, PyStr.low6, PyStr.lead3, PyStr.lead4, PyStr.cont, PyStr.between.
  intros H Hc.
  repeat case_match; simplify_eq;
    repeat match goal with
    | H : _ && _ = true |- _ => apply andb_prop in H as [? ?]
    | H : _ || _ = true |- _ => apply orb_prop in H as [?|?]
    | H : (_ <=? _)%N = true |- _ => apply N.leb_le in H
    | H : (_ <? _)%N = true |- _ => apply N.ltb_lt in H
    end; try lia.
  unfold PyStr.byte. by rewrite ascii_N_embedding.
Qed.

Lemma front_one_byte (a : ascii) (x : string) :
  (PyStr.byte a < 128)%N →
  PyStr.front (String a x) = Some (Some (PyStr.byte a), String a "", x).
Proof. intros H%N.ltb_lt. unfold PyStr.front. by rewrite H. Qed.

(** ** Date extraction *)

Lemma shaped_digit (pat : list char_class) (m : string) :
  shaped (Digit :: pat) m ↔
  ∃ ch rest, m = ch +:+ rest ∧ decimal_digit ch ∧ shaped pat rest.
Proof.
  simpl. split.
  - intros (c & ch & rest & Hfront & Hc & Hrest). exists ch, rest.
    split; [by apply front_split in Hfront as [? _]|]. split; [|done].
    exists c. split; [|done].
    rewrite <- (str_app_nil_r ch) at 1. by eapply front_stable.
  - intros (ch & rest & -> & (c & Hfront & Hc) & Hrest).
    exists c, ch, rest. split; [by eapply front_stable | done].
Qed.

Lemma shaped_lit (a : ascii) (pat : list char_class) (m : string) :
  (PyStr.byte a < 128)%N →
  shaped (Lit a :: pat) m ↔ ∃ rest, m = String a rest ∧ shaped pat rest.
Proof.
  intros Ha. simpl. split.
  - intros (c & ch & rest & Hfront & Hc%N.eqb_eq & Hrest). exists rest.
    split; [|done]. subst c.
    assert (ch = String (ascii_of_N (N_of_ascii a)) "") as Hch
      by (eapply front_ascii; [done | exact Ha]).
    apply front_split in Hfront as [-> _]. by rewrite Hch, ascii_N_embedding.
  - intros (rest & -> & Hrest). exists (PyStr.byte a), (String a ""), rest.
    split; [by apply front_one_byte|]. split; [by apply N.eqb_eq | done].
Qed.

Lemma shaped_date (d : string) : shaped DATE_PATTERN d ↔ mm_dd_yyyy d.
Proof.
  unfold mm_dd_yyyy, DATE_PATTERN. split.
  - intros H.
    apply shaped_digit in H as (m1 & ? & -> & H1 & H).
    apply shaped_digit in H as (m2 & ? & -> & H2 & H).
    apply shaped_lit in H as (? & -> & H); [|done].
    apply shaped_digit in H as (d1 & ? & -> & H3 & H).
    apply shaped_digit in H as (d2 & ? & -> & H4 & H).
    apply shaped_lit in H as (? & -> & H); [|done].
    apply shaped_digit in H as (y1 & ? & -> & H5 & H).
    apply shaped_digit in H as (y2 & ? & -> & H6 & H).
    apply shaped_digit in H as (y3 & ? & -> & H7 & H).
    apply shaped_digit in H as (y4 & ? & -> & H8 & ->).
    exists m1, m2, d1, d2, y1, y2, y3, y4. rewrite str_app_nil_r.
    split; [done|]. repeat constructor; done.
  - intros (m1 & m2 & d1 & d2 & y1 & y2 & y3 & y4 & -> & Hd).
    repeat (apply Forall_cons in Hd as [? Hd]).
    rewrite <- (str_app_nil_r y4).
    repeat first
      [ apply shaped_digit; eexists _, _; split; [reflexivity|]; split; [done|]
      | apply (shaped_lit "/"); [done|]; eexists; split; [reflexivity|] ].
    done.
Qed.

Lemma match_here_spec (pat : list char_class) (s m : string) :
  match_here pat s = Some m ↔ shaped pat m ∧ ∃ post, s = m +:+ post.
Proof.
  revert s m. induction pat as [|k pat IH]; intros s m; simpl.
  - split.
    + intros [= <-]. split; [done | by exists s].
    + by intros [-> _].
  - split.
    + destruct (PyStr.front s) as [[[[c|] ch] rest]|] eqn:Hfront; [|done..].
      destruct (class_matches k c) eqn:Hk; [|done].
      destruct (match_here pat rest) as [m'|] eqn:Hrest; [|done].
      intros [= <-]. apply IH in Hrest as [Hm' [post ->]].
      apply front_split in Hfront as Hs. destruct Hs as [-> _]. split.
      * exists c, ch, m'. split; [by eapply front_stable | done].
      * exists post. by rewrite str_app_assoc.
    + intros [(c & ch & m' & Hfront & Hk & Hm') [post ->]].
      apply front_split in Hfront as Hm. destruct Hm as [-> _].
      rewrite str_app_assoc, (front_stable _ _ _ _ (m' +:+ post) Hfront), Hk.
      assert (match_here pat (m' +:+ post) = Some m') as -> by (apply IH; eauto).
      done.
Qed.

Lemma re_search_None (pat : list char_class) (s : string) :
  re_search pat s = None ↔
  ∀ pre m post, s = pre +:+ m +:+ post → ¬ shaped pat m.
Proof.
  induction s as [|c s IH]; simpl.
  - destruct (match_here pat "") as [m0|] eqn:Hhere.
    + split; [done|]. intros Hno. apply match_here_spec in Hhere as [Hm [post Hpost]].
      destruct (Hno "" m0 post); done.
    + split; [|done]. intros _ pre m post Heq Hm.
      destruct pre; [|discriminate]. simpl in Heq.
      assert (match_here pat "" = Some m) by (apply match_here_spec; eauto). congruence.
  - destruct (match_here pat (String c s)) as [m0|] eqn:Hhere.
    + split; [done|]. intros Hno. apply match_here_spec in Hhere as [Hm [post Hpost]].
      destruct (Hno "" m0 post); done.
    + rewrite IH. split.
      * intros Hno pre m post Heq Hm. destruct pre as [|c' pre]; simpl in Heq.
        -- assert (match_here pat (String c s) = Some m)
             by (apply match_here_spec; eauto). congruence.
        -- injection Heq as _ Heq. by apply (Hno pre m post).
      * intros Hno pre m post -> Hm. by apply (Hno (String c pre) m post).
Qed.

Lemma re_search_Some (pat : list char_class) (s m : string) :
  re_search pat s = Some m →
  ∃ pre post, s = pre +:+ m +:+ post ∧ shaped pat m ∧
    ∀ pre' m' post', s = pre' +:+ m' +:+ post' → shaped pat m' →
      String.length pre ≤ String.length pre'.
Proof.
  induction s as [|c s IH]; simpl.
  - destruct (match_here pat "") as [m0|] eqn:Hhere; [|done].
    intros [= ->]. apply match_here_spec in Hhere as [Hm [post Hpost]].
    exists "", post. split_and!; [done..|]. intros; simpl; lia.
  - destruct (match_here pat (String c s)) as [m0|] eqn:Hhere.
    + intros [= ->]. apply match_here_spec in Hhere as [Hm [post Hpost]].
      exists "", post. split_and!; [done..|]. intros; simpl; lia.
    + intros (pre & post & -> & Hm & Hleft)%IH.
      exists (String c pre), post. split_and!; [done..|].
      intros pre' m' post' Heq Hm'. destruct pre' as [|c' pre']; simpl in Heq.
      * assert (match_here pat (String c (pre +:+ m +:+ post)) = Some m')
          by (apply match_here_spec; eauto). congruence.
      * injection Heq as _ Heq. simpl. specialize (Hleft pre' m' post' Heq Hm'). lia.
Qed.

Lemma digit_is_decimal (n : Z) : decimal_digit (String (digit n) "").
Proof.
  unfold digit. pose proof (Z.mod_pos_bound n 10 eq_refl) as Hn.
  assert (Hcases : (n mod 10 = 0 ∨ n mod 10 = 1 ∨ n mod 10 = 2 ∨ n mod 10 = 3 ∨
                    n mod 10 = 4 ∨ n mod 10 = 5 ∨ n mod 10 = 6 ∨ n mod 10 = 7 ∨
                    n mod 10 = 8 ∨ n mod 10 = 9)%Z) by lia.
  unfold decimal_digit.
  destruct Hcases as [->|[->|[->|[->|[->|[->|[->|[->|[->| ->]]]]]]]]];
    [exists 48%N|exists 49%N|exists 50%N|exists 51%N|exists 52%N|exists 53%N
    |exists 54%N|exists 55%N|exists 56%N|exists 57%N]; split; reflexivity.
Qed.

Lemma strftime_mdY_shape (t : datetime) : mm_dd_yyyy (strftime_mdY t).
Proof.
  unfold mm_dd_yyyy, strftime_mdY, fmt2, fmt4.
  exists (String (digit (month t / 10)) ""), (String (digit (month t)) ""),
         (String (digit (day t / 10)) ""), (String (digit (day t)) ""),
         (String (digit (year t / 1000)) ""), (String (digit (year t / 100)) ""),
         (String (digit (year t / 10)) ""), (String (digit (year t)) "").
  split; [reflexivity|]. repeat constructor; apply digit_is_decimal.
Qed.

Lemma extract_date_match (soup : node) (d : string) :
  re_search DATE_PATTERN (get_text "" false soup) = Some d → _extract_date soup = Ret d.
Proof. unfold _extract_date. by intros ->. Qed.

Lemma extract_date_fallback (soup : node) :
  re_search DATE_PATTERN (get_text "" false soup) = None →
  _extract_date soup = Now (fun t => Ret (strftime_mdY t)).
Proof. unfold _extract_date. by intros ->. Qed.

(** C6. [_extract_date] on the page text (all strings of the page,
    concatenated as they are): when some substring is two digits, a slash,
    two digits, a slash and four digits, the result is such a substring,
    returned verbatim without reading the clock, and no substring of that
    shape starts further left; when there is none, the result is the
    clock's date printed by [%m/%d/%Y], after one clock read, and it has
    that same shape.  A digit is a character that [\d] matches, a decimal
    digit of any script.  The digits are not checked against the
    calendar: a page whose text is "13/40/9999" gives "13/40/9999".  The
    function is total. *)
Theorem extract_date_first_match_or_today (soup : node) :
  let text := get_text "" false soup in
  ((∃ pre d post, text = pre +:+ d +:+ post ∧ mm_dd_yyyy d) →
     ∃ pre d post,
       text = pre +:+ d +:+ post ∧ mm_dd_yyyy d ∧
       (∀ pre' d' post', text = pre' +:+ d' +:+ post' → mm_dd_yyyy d' →
          String.length pre ≤ String.length pre') ∧
       _extract_date soup = Ret d) ∧
  ((∀ pre d post, text = pre +:+ d +:+ post → ¬ mm_dd_yyyy d) →
     ∀ clock i,
       run clock i (_extract_date soup) = (strftime_mdY (clock i), S i) ∧
       mm_dd_yyyy (strftime_mdY (clock i))) ∧
  (text = "13/40/9999" → _extract_date soup = Ret "13/40/9999") ∧
  (∀ clock i, ∃ d, fst (run clock i (_extract_date soup)) = d ∧
     (re_search DATE_PATTERN text = Some d ∨
      re_search DATE_PATTERN text = None ∧ d = strftime_mdY (clock i))).
Proof.
  intros text. split_and!.
  - intros (pre0 & d0 & post0 & Heq0 & Hd0).
    destruct (re_search DATE_PATTERN text) as [d|] eqn:Hsearch.
    + pose proof (extract_date_match soup d Hsearch) as Hret.
      apply re_search_Some in Hsearch as (pre & post & Heq & Hd & Hleft).
      exists pre, d, post. split_and!; [done|by apply shaped_date| |done].
      intros pre' d' post' Heq' Hd'. apply (Hleft pre' d' post' Heq').
      by apply shaped_date.
    + destruct (proj1 (re_search_None _ _) Hsearch pre0 d0 post0 Heq0).
      by apply shaped_date.
  - intros Hnone clock i.
    rewrite extract_date_fallback; [split; [done | apply strftime_mdY_shape]|].
    apply re_search_None. intros pre d post Heq Hd. apply (Hnone pre d post Heq).
    by apply shaped_date.
  - intros Htext. apply extract_date_match. fold text. by rewrite Htext.
  - intros clock i. destruct (re_search DATE_PATTERN text) as [d|] eqn:Hsearch.
    + exists d. rewrite (extract_date_match soup d Hsearch). auto.
    + exists (strftime_mdY (clock i)). rewrite (extract_date_fallback soup Hsearch). auto.
Qed.

(** ** Report assembly *)

Lemma assemble_report_run (soup : node) (clock : nat → datetime) (i : nat) :
  let report_date := fst (run clock i (_extract_date soup)) in
  let j := snd (run clock i (_extract_date soup)) in
  run clock i (assemble_report soup) =
  match _extract_readings soup report_date with
  | [] => (inl (ValueError NO_READINGS), j)
  | rs => (inr (mkDailyPollenReport report_date rs (strftime_iso (clock j))), S j)
  end.
Proof.
  unfold assemble_report. simpl. rewrite run_bind.
  by destruct (_extract_readings _ _).
Qed.

Lemma extract_date_reads (soup : node) (clock : nat → datetime) (i : nat) :
  i ≤ snd (run clock i (_extract_date soup)) ≤ S i.
Proof. unfold _extract_date. destruct (re_search _ _); simpl; lia. Qed.

(** ** The loop over the headings *)

Lemma first_match_at_lt (hs : list element) i h c :
  first_match_at hs i h c → i < length hs.
Proof. intros [Hi _]. by apply lookup_lt_Some in Hi. Qed.

Lemma first_match_at_unique (hs : list element) i j h h' c :
  first_match_at hs i h c → first_match_at hs j h' c → i = j ∧ h = h'.
Proof.
  intros (Hi & Hc & Hbefore) (Hj & Hc' & Hbefore').
  destruct (Nat.lt_trichotomy i j) as [Hlt|[->|Hlt]].
  - by destruct (Hbefore' i h Hlt Hi).
  - split; [done | congruence].
  - by destruct (Hbefore j h' Hlt Hj).
Qed.

Lemma first_match_at_snoc (hs : list element) (h0 : element) i h c :
  first_match_at (hs ++ [h0]) i h c ↔
  first_match_at hs i h c ∨
  (i = length hs ∧ h = h0 ∧ category_of h0 = Some c ∧
   ∀ h', h' ∈ hs → category_of h' ≠ Some c).
Proof.
  unfold first_match_at. split.
  - intros (Hi & Hc & Hbefore).
    apply lookup_snoc_Some in Hi as [[Hlt Hi]|[-> ->]].
    + left. split_and!; [done..|]. intros j h' Hj Hh'.
      apply (Hbefore j h' Hj). by apply lookup_app_l_Some.
    + right. split_and!; [done..|]. intros h' [j Hj]%list_elem_of_lookup.
      apply (Hbefore j h'); [by eapply lookup_lt_Some | by apply lookup_app_l_Some].
  - intros [(Hi & Hc & Hbefore)|(-> & -> & Hc & Hbefore)].
    + split_and!; [by apply lookup_app_l_Some | done |].
      intros j h' Hj Hh'. apply (Hbefore j h' Hj).
      rewrite lookup_app_l in Hh'; [done|]. apply lookup_lt_Some in Hi. lia.
    + split_and!; [by apply list_lookup_middle | done |].
      intros j h' Hj Hh'. apply Hbefore. rewrite lookup_app_l in Hh' by done.
      by eapply list_elem_of_lookup_2.
Qed.

Lemma first_match_at_elem (hs : list element) i h c :
  first_match_at hs i h c → h ∈ hs ∧ category_of h = Some c.
Proof. intros (Hi & Hc & _). split; [by eapply list_elem_of_lookup_2 | done]. Qed.

Lemma loop_invariant_nil (rd : string) : loop_invariant rd [] [] ∅.
Proof.
  split.
  - intros c. split; [set_solver | by intros (h & ?%elem_of_nil & _)].
  - constructor.
  - intros r. split; [by intros ?%elem_of_nil|].
    by intros (i & h & (Hi & _) & _).
  - by intros a b ra rb _ Ha.
Qed.

(** A heading that adds no reading: it matches nothing, or its category is
    taken, or it takes the category and resolves to no level. *)
Lemma loop_invariant_skip (rd : string) hs h0 rs seen (seen' : gset string) :
  loop_invariant rd hs rs seen →
  (∀ c, c ∈ seen' ↔ c ∈ seen ∨ category_of h0 = Some c) →
  (∀ c, category_of h0 = Some c → c ∈ seen ∨ _find_level_near_element h0 = None) →
  loop_invariant rd (hs ++ [h0]) rs seen'.
Proof.
  intros [Hseen Hnodup Hrs Hord] Hseen' Hskip.
  assert (Hsame : ∀ r, from_first_match rd (hs ++ [h0]) r ↔ from_first_match rd hs r).
  { intros r. unfold from_first_match. split.
    - intros (i & h & Hfirst & Hlvl & Hd & Hs).
      apply first_match_at_snoc in Hfirst as [Hfirst|(-> & -> & Hc & Hfresh)]; [by eauto 6|].
      destruct (Hskip _ Hc) as [Hin|Hnone]; [|congruence].
      apply Hseen in Hin as (h' & Hh' & Hc'). by destruct (Hfresh h' Hh').
    - intros (i & h & Hfirst & Hrest). exists i, h. split; [|done].
      apply first_match_at_snoc. by left. }
  split.
  - intros c. rewrite Hseen', Hseen. split.
    + intros [(h & Hh & Hc)|Hc].
      * exists h. split; [|done]. apply elem_of_app. by left.
      * exists h0. split; [|done]. apply elem_of_app. right. by apply list_elem_of_singleton.
    + intros (h & [Hh| ->%list_elem_of_singleton]%elem_of_app & Hc); [left; eauto | by right].
  - done.
  - intros r. by rewrite Hsame, Hrs.
  - intros a b ra rb Hab Ha Hb.
    destruct (Hord a b ra rb Hab Ha Hb) as (i & j & ha & hb & Hij & Hfa & Hfb).
    exists i, j, ha, hb. split_and!; [done|..]; apply first_match_at_snoc; by left.
Qed.

(** A heading that adds a reading. *)
Lemma loop_invariant_append (rd : string) hs h0 rs seen c lvl :
  loop_invariant rd hs rs seen →
  category_of h0 = Some c → c ∉ seen → _find_level_near_element h0 = Some lvl →
  loop_invariant rd (hs ++ [h0])
    (rs ++ [mkPollenReading c lvl rd DEFAULT_SOURCE]) ({[c]} ∪ seen).
Proof.
  intros [Hseen Hnodup Hrs Hord] Hc Hfresh Hlvl.
  assert (Hnone : ∀ h', h' ∈ hs → category_of h' ≠ Some c).
  { intros h' Hh' Hc'. apply Hfresh, Hseen. eauto. }
  assert (Hnew : first_match_at (hs ++ [h0]) (length hs) h0 c).
  { apply first_match_at_snoc. by right. }
  split.
  - intros c'. rewrite elem_of_union, elem_of_singleton, Hseen. split.
    + intros [->|(h & Hh & Hc')].
      * exists h0. split; [|done]. apply elem_of_app. right. by apply list_elem_of_singleton.
      * exists h. split; [|done]. apply elem_of_app. by left.
    + intros (h & [Hh| ->%list_elem_of_singleton]%elem_of_app & Hc'); [right; eauto|].
      left. congruence.
  - rewrite fmap_app. apply NoDup_app. split_and!; [done| |apply NoDup_singleton].
    intros c' (r & Hcr & Hr)%list_elem_of_fmap Hin.
    apply list_elem_of_singleton in Hin. simpl in Hin. subst c'.
    apply Hrs in Hr as (i & h & Hfirst & _).
    apply first_match_at_elem in Hfirst as [Hh Hch]. destruct (Hnone h Hh). congruence.
  - intros r. rewrite elem_of_app, list_elem_of_singleton, Hrs. unfold from_first_match. split.
    + intros [(i & h & Hfirst & Hrest)| ->].
      * exists i, h. split; [|done]. apply first_match_at_snoc. by left.
      * by exists (length hs), h0.
    + intros (i & h & Hfirst & Hl & Hd & Hs).
      apply first_match_at_snoc in Hfirst as [Hfirst|(-> & -> & Hc' & _)]; [left; by eauto 6|].
      right. destruct r as [rc rl rdate rsrc]. simpl in *. congruence.
  - intros a b ra rb Hab Ha Hb.
    apply lookup_snoc_Some in Hb as [[Hlt Hb]|[-> <-]].
    + rewrite lookup_app_l in Ha by lia.
      destruct (Hord a b ra rb Hab Ha Hb) as (i & j & ha & hb & Hij & Hfa & Hfb).
      exists i, j, ha, hb. split_and!; [done|..]; apply first_match_at_snoc; by left.
    + rewrite lookup_app_l in Ha by lia.
      assert (Hra : ra ∈ rs) by by eapply list_elem_of_lookup_2.
      apply Hrs in Hra as (i & h & Hfirst & _).
      exists i, (length hs), h, h0. split_and!; [by eapply first_match_at_lt| |done].
      apply first_match_at_snoc. by left.
Qed.

Lemma h4_loop_invariant (rd : string) (hs : list element) :
  loop_invariant rd hs (fst (h4_loop rd hs ([], ∅))) (snd (h4_loop rd hs ([], ∅))).
Proof.
  induction hs as [|h0 hs IH] using rev_ind; [apply loop_invariant_nil|].
  unfold h4_loop in *. rewrite foldl_snoc.
  destruct (foldl (h4_step rd) ([], ∅) hs) as [rs seen]. simpl in IH.
  rewrite h4_step_unfold.
  destruct (category_of h0) as [c|] eqn:Hc.
  - destruct (decide (c ∈ seen)) as [Hin|Hfresh].
    + apply (loop_invariant_skip rd hs h0 rs seen seen IH).
      * intros c'. split; [by left | intros [?|?]; [done | by simplify_eq]].
      * intros c' ?. simplify_eq. by left.
    + destruct (_find_level_near_element h0) as [lvl|] eqn:Hlvl.
      * by apply loop_invariant_append.
      * apply (loop_invariant_skip rd hs h0 rs seen _ IH).
        -- intros c'. simpl. rewrite elem_of_union, elem_of_singleton.
           split; intros [?|?]; auto; [right; congruence | left; congruence].
        -- intros c' _. by right.
  - apply (loop_invariant_skip rd hs h0 rs seen seen IH).
    + intros c'. split; [by left | intros [?|?]; [done | congruence]].
    + intros c' ?. congruence.
Qed.



Lemma seen_add_known (c : string) (seen : gset string) : c ∈ seen → {[c]} ∪ seen = seen.
Proof. intros Hin. apply subseteq_union_1_L. by apply singleton_subseteq_l. Qed.



Lemma h4_step_split (rd : string) rs seen h :
  h4_step rd (rs, seen) h = (rs ++ step_new rd seen h, step_seen seen h).
Proof.
  unfold step_new, step_seen. rewrite !h4_step_unfold.
  destruct (category_of h) as [c|]; simpl; [|by rewrite app_nil_r].
  destruct (decide (c ∈ seen)) as [Hin|Hfresh]; simpl.
  - rewrite app_nil_r. f_equal. symmetry. by apply seen_add_known.
  - destruct (_find_level_near_element h); simpl; [done | by rewrite app_nil_r].
Qed.


Lemma h4_loop_cons (rd : string) h hs st :
  h4_loop rd (h :: hs) st = h4_loop rd hs (h4_step rd st h).
Proof. reflexivity. Qed.

Lemma h4_loop_fst_app (rd : string) hs rs seen :
  fst (h4_loop rd hs (rs, seen)) = rs ++ readings_from rd hs seen.
Proof.
  unfold readings_from. revert rs seen.
  induction hs as [|h hs IH]; intros rs seen; [by rewrite app_nil_r|].
  rewrite !h4_loop_cons, !h4_step_split.
  rewrite (IH (rs ++ _)), (IH ([] ++ _)). by rewrite app_assoc.
Qed.

Lemma readings_from_cons (rd : string) h hs seen :
  readings_from rd (h :: hs) seen =
  step_new rd seen h ++ readings_from rd hs (step_seen seen h).
Proof.
  unfold readings_from at 1. rewrite h4_loop_cons, h4_step_split.
  apply h4_loop_fst_app.
Qed.

Lemma readings_from_app (rd : string) hs1 hs2 seen :
  readings_from rd (hs1 ++ hs2) seen =
  readings_from rd hs1 seen ++
  readings_from rd hs2 (snd (h4_loop rd hs1 ([], seen))).
Proof.
  unfold readings_from at 1. unfold h4_loop. rewrite foldl_app.
  fold (h4_loop rd hs1 ([], seen)).
  destruct (h4_loop rd hs1 ([], seen)) as [rs1 seen1] eqn:Hloop.
  fold (h4_loop rd hs2 (rs1, seen1)). rewrite h4_loop_fst_app.
  unfold readings_from at 2. by rewrite Hloop.
Qed.



(** A heading whose category is already seen changes nothing. *)
Lemma h4_step_seen (rd : string) st h c :
  category_of h = Some c → c ∈ snd st → h4_step rd st h = st.
Proof.
  destruct st as [rs seen]. intros Hc Hin. rewrite h4_step_unfold, Hc.
  by destruct (decide (c ∈ seen)).
Qed.



Lemma h4_loop_seen (rd : string) hs c :
  c ∈ snd (h4_loop rd hs ([], ∅)) ↔ ∃ h, h ∈ hs ∧ category_of h = Some c.
Proof. apply (inv_seen _ _ _ _ (h4_loop_invariant rd hs)). Qed.


Lemma extract_readings_unfold (soup : node) (rd : string) :
  _extract_readings soup rd = readings_from rd (find_all "h4" soup) ∅.
Proof. reflexivity. Qed.

(** A later heading of a category that an earlier heading matched can be
    left out without changing the readings. *)
Lemma later_duplicate_ignored (rd : string) hs1 h hs2 c :
  category_of h = Some c →
  (∃ h', h' ∈ hs1 ∧ category_of h' = Some c) →
  readings_from rd (hs1 ++ h :: hs2) ∅ = readings_from rd (hs1 ++ hs2) ∅.
Proof.
  intros Hc Hearlier. rewrite !readings_from_app. f_equal.
  rewrite readings_from_cons.
  assert (Hin : c ∈ snd (h4_loop rd hs1 ([], ∅))) by by apply h4_loop_seen.
  unfold step_new, step_seen.
  rewrite (h4_step_seen rd ([], _) h c Hc Hin), Hc. simpl.
  f_equal. by apply seen_add_known.
Qed.


(** C4. The readings of a page hold each category at most once.  A reading
    is in the list exactly when it was built for the first heading, in
    document order, that matches its category, with the level resolved at
    that heading; a later heading of a category already matched can be
    taken out of the page's headings without changing the readings.  The
    readings are listed in the document order of those first headings. *)
Theorem extract_readings_one_per_category (soup : node) (rd : string) :
  let hs := find_all "h4" soup in
  let rs := _extract_readings soup rd in
  NoDup (category <$> rs) ∧
  (∀ r, r ∈ rs ↔
     ∃ i h, first_match_at hs i h (category r) ∧
            _find_level_near_element h = Some (level r) ∧
            date r = rd ∧ source r = DEFAULT_SOURCE) ∧
  (∀ hs1 h hs2 c,
     hs = hs1 ++ h :: hs2 → category_of h = Some c →
     (∃ h', h' ∈ hs1 ∧ category_of h' = Some c) →
     readings_from rd (hs1 ++ hs2) ∅ = rs) ∧
  (∀ a b ra rb, a < b → rs !! a = Some ra → rs !! b = Some rb →
     ∃ i j ha hb, i < j ∧ first_match_at hs i ha (category ra) ∧
                  first_match_at hs j hb (category rb)).
Proof.
  intros hs rs. destruct (h4_loop_invariant rd hs) as [_ Hnodup Hrs Hord].
  split_and!; [done|done| |done].
  intros hs1 h hs2 c Hhs Hc Hearlier. subst rs. rewrite extract_readings_unfold.
  fold hs. rewrite Hhs. symmetry. by eapply later_duplicate_ignored.
Qed.

(** C10. A category belongs to its first heading before the level is
    looked up: when the first heading matching [c] resolves to no level,
    the readings hold nothing for [c], even though a later heading matches
    [c] and resolves to a level. *)
Theorem unresolved_first_heading_blocks_category (soup : node) (rd : string)
    (i j : nat) (h1 h2 : element) (c lvl : string) :
  first_match_at (find_all "h4" soup) i h1 c →
  _find_level_near_element h1 = None →
  i < j →
  find_all "h4" soup !! j = Some h2 →
  category_of h2 = Some c →
  _find_level_near_element h2 = Some lvl →
  ∀ r, r ∈ _extract_readings soup rd → category r ≠ c.
Proof.
  intros Hfirst Hnone _ _ _ _ r Hr Hcat.
  apply (inv_readings _ _ _ _ (h4_loop_invariant rd (find_all "h4" soup))) in Hr
    as (i' & h' & Hfirst' & Hlvl & _).
  rewrite Hcat in Hfirst'.
  destruct (first_match_at_unique _ _ _ _ _ _ Hfirst Hfirst') as [_ <-]. congruence.
Qed.

(** [BLOCKED_PAGE]: the first "Tree Pollen" heading has no level, the
    second one has. *)
Lemma unresolved_first_heading_blocks_category_witness :
  _find_level_near_element (heading BLOCKED_PAGE 0) = None ∧
  category_of (heading BLOCKED_PAGE 1) = Some "Tree Pollen" ∧
  _find_level_near_element (heading BLOCKED_PAGE 1) = Some "High" ∧
  ∀ r, r ∈ _extract_readings BLOCKED_PAGE "02/15/2026" → category r ≠ "Tree Pollen".
Proof.
  assert (Hnone : _find_level_near_element (heading BLOCKED_PAGE 0) = None)
    by (vm_compute; reflexivity).
  assert (Hcat : category_of (heading BLOCKED_PAGE 1) = Some "Tree Pollen")
    by (vm_compute; reflexivity).
  assert (Hlvl : _find_level_near_element (heading BLOCKED_PAGE 1) = Some "High")
    by (vm_compute; reflexivity).
  split_and!; [exact Hnone | exact Hcat | exact Hlvl |].
  apply (unresolved_first_heading_blocks_category BLOCKED_PAGE "02/15/2026" 0 1
           (heading BLOCKED_PAGE 0) (heading BLOCKED_PAGE 1) "Tree Pollen" "High").
  - split_and!; [vm_compute; reflexivity | vm_compute; reflexivity |].
    intros j h' Hj. lia.
  - exact Hnone.
  - lia.
  - vm_compute; reflexivity.
  - exact Hcat.
  - exact Hlvl.
Defined.




Lemma extract_readings_at_most_five (soup : node) (rd : string) :
  length (_extract_readings soup rd) ≤ 5.
Proof.
  destruct (h4_loop_invariant rd (find_all "h4" soup)) as [_ Hnodup Hrs _].
  fold (_extract_readings soup rd) in Hnodup, Hrs.
  rewrite <- (length_fmap category).
  change 5 with (length EXPECTED_CATEGORIES).
  apply submseteq_length, NoDup_submseteq; [done|].
  intros c (r & -> & Hr)%list_elem_of_fmap.
  apply Hrs in Hr as (i & h & (_ & Hc & _) & _).
  by eapply match_category_expected.
Qed.

(** C2. Once the page is fetched, [scrape_pollen_data] raises [ValueError]
    exactly when no reading was resolved; with one reading or more (there
    are never more than five) it returns the report made of the extracted
    date and exactly those readings.  It does not raise
    [ConnectionError] then. *)
Theorem scrape_fails_iff_no_readings (soup : node) (clock : nat → datetime) (i : nat) :
  let rd := fst (run clock i (_extract_date soup)) in
  let rs := _extract_readings soup rd in
  let res := fst (run clock i (scrape_pollen_data (inr soup))) in
  ((∃ msg, res = inl (ValueError msg)) ↔ length rs = 0) ∧
  (1 ≤ length rs →
     ∃ stamp, res = inr (mkDailyPollenReport rd rs stamp)) ∧
  (∀ msg, res ≠ inl (ConnectionError msg)) ∧
  length rs ≤ 5.
Proof.
  intros rd rs res. subst res. simpl. rewrite assemble_report_run. simpl.
  fold rd. fold rs. pose proof (extract_readings_at_most_five soup rd) as Hfive.
  fold rs in Hfive. destruct rs as [|r rs']; simpl.
  - split_and!; [|lia|done|lia]. split; [done | by eexists].
  - split_and!; [|by eexists|done|done]. split; [by intros [? ?] | done].
Qed.

(** ** The pages of the test suite *)

Example sample_html_readings :
  (fun r => (category r, level r)) <$> _extract_readings SAMPLE_HTML "02/15/2026" =
  [("Tree Pollen", "High"); ("Grass Pollen", "Low"); ("Ragweed Pollen", "Absent");
   ("Total Weed Pollen", "Moderate"); ("Mold", "High")].
Proof. by vm_compute. Qed.

Example sample_html_date :
  result_of (fun _ => noon) (_extract_date SAMPLE_HTML) = "02/15/2026" ∧
  clock_reads (fun _ => noon) (_extract_date SAMPLE_HTML) = 0.
Proof. by vm_compute. Qed.

Example sample_html_subject :
  build_email_subject SAMPLE_REPORT =
  inr "🟠 Chicago Allergy Alert (02/15/2026): High".
Proof. by vm_compute. Qed.

Example blocked_page_readings :
  (fun r => (category r, level r)) <$> _extract_readings BLOCKED_PAGE "02/15/2026" =
  [("Mold", "Low")].
Proof. by vm_compute. Qed.

Example undated_page_uses_the_clock :
  result_of (fun _ => noon) (scrape_pollen_data (inr SHALLOW_PAGE)) =
  inr (mkDailyPollenReport "02/15/2026"
         [mkPollenReading "Mold" "Low" "02/15/2026" DEFAULT_SOURCE]
         "2026-02-15 12:00:00") ∧
  clock_reads (fun _ => noon) (scrape_pollen_data (inr SHALLOW_PAGE)) = 2.
Proof. by vm_compute. Qed.

(** A later heading of a category already taken is not looked up at all:
    that it has no grandparent changes nothing. *)
Example duplicate_page_readings :
  category_of (heading DUPLICATE_PAGE 1) = Some "Tree Pollen" ∧
  _find_level_near_element (heading DUPLICATE_PAGE 1) = None ∧
  (fun r => (category r, level r)) <$> _extract_readings DUPLICATE_PAGE "02/15/2026" =
  [("Tree Pollen", "High")].
Proof. by vm_compute. Qed.

(** ** Pages with text outside ASCII *)

(** A no-break space is white space to [str.strip]: the text node that
    holds nothing else is dropped, and the two spans read "Very High". *)
Example split_level_page_level :
  get_text " " true (Tag "div" [Tag "span" [NavigableString "Very"]; NavigableString NBSP;
                                Tag "span" [NavigableString "High"]]) = "Very High" ∧
  _find_level_near_element (heading SPLIT_LEVEL_PAGE 0) = Some "Very High".
Proof. by vm_compute. Qed.

Example split_heading_page_readings :
  category_text (heading SPLIT_HEADING_PAGE 0) = "Mold" ∧
  (fun r => (category r, level r)) <$> _extract_readings SPLIT_HEADING_PAGE "02/15/2026" =
  [("Mold", "Low")].
Proof. by vm_compute. Qed.

(** The class [\d] holds the decimal digits of every script. *)
Example arabic_date_page_date :
  _extract_date ARABIC_DATE_PAGE = Ret "٠٢/١٥/٢٠٢٦" ∧
  mm_dd_yyyy "٠٢/١٥/٢٠٢٦".
Proof.
  assert (Hsearch : re_search DATE_PATTERN (get_text "" false ARABIC_DATE_PAGE)
                    = Some "٠٢/١٥/٢٠٢٦") by by vm_compute.
  split; [by apply extract_date_match|].
  by apply re_search_Some in Hsearch as (_ & _ & _ & ?%shaped_date & _).
Qed.

(** [str.lower] outside ASCII: accented letters, the two sigmas of Greek,
    and the capital I with a dot, whose lowercase is two code points. *)
Example lower_outside_ascii :
  PyStr.lower "MOLD (ÉTÉ)" = "mold (été)" ∧
  PyStr.lower "ΟΔΟΣ ΣΟΦΟΣ" = "οδος σοφος" ∧
  String.length (PyStr.lower "İ") = 3.
Proof. by vm_compute. Qed.

(** * Further properties *)

(** ** Labels and tokens *)

Lemma expected_cases (c : string) :
  c ∈ EXPECTED_CATEGORIES ↔
  c = "Tree Pollen" ∨ c = "Grass Pollen" ∨ c = "Ragweed Pollen" ∨
  c = "Total Weed Pollen" ∨ c = "Mold".
Proof. unfold EXPECTED_CATEGORIES. rewrite !elem_of_cons, elem_of_nil. tauto. Qed.

(** No label occurs inside another one, whatever the case. *)
Lemma label_inside_label (a b : string) :
  a ∈ EXPECTED_CATEGORIES → b ∈ EXPECTED_CATEGORIES →
  PyStr.contains (PyStr.lower a) (PyStr.lower b) = true → a = b.
Proof.
  intros Ha%expected_cases Hb%expected_cases.
  destruct Ha as [->|[->|[->|[->| ->]]]]; destruct Hb as [->|[->|[->|[->| ->]]]];
    vm_compute; congruence.
Qed.

Lemma lower_label_inj (a b : string) :
  a ∈ EXPECTED_CATEGORIES → b ∈ EXPECTED_CATEGORIES →
  PyStr.lower a = PyStr.lower b → a = b.
Proof.
  intros Ha Hb Heq. apply (label_inside_label a b Ha Hb).
  rewrite Heq. apply contains_spec. by exists "", ""; rewrite str_app_nil_r.
Qed.

Lemma substring_of_refl (a : string) : PyStr.substring_of a a.
Proof. exists "", "". by rewrite str_app_nil_r. Qed.

Lemma substring_of_length (a b : string) :
  PyStr.substring_of a b → String.length a ≤ String.length b.
Proof. intros (pre & post & ->). rewrite !str_app_length. lia. Qed.

(** *** Lowercase and length

    [str.lower] can change the length of a text (U+0130 becomes two
    code points, U+212A becomes "k"), but every character becomes at most
    one ASCII character. *)











(** ** Category matching, continued *)

Lemma label_first_inside_itself (c : string) :
  c ∈ EXPECTED_CATEGORIES →
  first_hit (fun e => PyStr.contains (PyStr.lower e) (PyStr.lower c)) EXPECTED_CATEGORIES
  = Some c.
Proof.
  intros Hc%expected_cases. destruct Hc as [->|[->|[->|[->| ->]]]]; by vm_compute.
Qed.

Lemma match_category_single_pass (text : string) :
  match_category text =
    first_hit (fun e => PyStr.contains (PyStr.lower e) (PyStr.lower text))
      EXPECTED_CATEGORIES.
Proof.
  unfold match_category.
  destruct (first_hit _ EXPECTED_CATEGORIES) as [c|] eqn:Hexact; [|done].
  apply first_hit_elem in Hexact as [Hc Heq]. apply bool_decide_eq_true in Heq.
  rewrite <- Heq. symmetry. by apply label_first_inside_itself.
Qed.


(** X5. Every expected label, written in any mix of upper and lower case,
    is matched to that label. *)
Theorem match_category_of_label (c text : string) :
  c ∈ EXPECTED_CATEGORIES →
  PyStr.lower text = PyStr.lower c →
  match_category text = Some c.
Proof.
  intros Hc Heq. rewrite match_category_single_pass, Heq.
  by apply label_first_inside_itself.
Qed.

Lemma match_category_of_label_witness :
  match_category "TREE pollen" = Some "Tree Pollen".
Proof.
  apply (match_category_of_label "Tree Pollen" "TREE pollen"); [|reflexivity].
  apply expected_cases. by left.
Defined.

(** ** What the extracted readings look like *)

Lemma find_level_valid (e : element) (lvl : string) :
  _find_level_near_element e = Some lvl → lvl ∈ valid_levels.
Proof.
  rewrite find_level_unfold. destruct (grandparent e); [|done].
  by intros [? _]%first_hit_elem.
Qed.

Lemma extract_readings_fields (soup : node) (rd : string) (r : PollenReading) :
  r ∈ _extract_readings soup rd →
  category r ∈ EXPECTED_CATEGORIES ∧ level r ∈ valid_levels ∧
  date r = rd ∧ source r = DEFAULT_SOURCE.
Proof.
  intros Hr.
  apply (inv_readings _ _ _ _ (h4_loop_invariant rd (find_all "h4" soup))) in Hr
    as (i & h & (_ & Hc & _) & Hlvl & Hd & Hs).
  split_and!; [by eapply match_category_expected | by eapply find_level_valid | done..].
Qed.

Lemma extract_readings_nodup (soup : node) (rd : string) :
  NoDup (category <$> _extract_readings soup rd).
Proof. apply (inv_nodup _ _ _ _ (h4_loop_invariant rd (find_all "h4" soup))). Qed.

(** X3. Every reading that [_extract_readings] returns carries one of the
    five expected labels as its category (in the label's own spelling, not
    the page's), one of the five severity tokens as its level, the report
    date it was given and the fixed source line. *)
Theorem extract_readings_well_formed (soup : node) (rd : string) :
  Forall (fun r => category r ∈ EXPECTED_CATEGORIES ∧ level r ∈ valid_levels ∧
                   date r = rd ∧ source r = DEFAULT_SOURCE)
    (_extract_readings soup rd).
Proof. apply Forall_forall. intros r. apply extract_readings_fields. Qed.

(** ** [get_reading] *)

(** X1. [get_reading] ignores case on both sides: two queries that agree
    up to case (they have the same [str.lower]) give the same answer, and
    the answer is the first reading whose category equals the query up to
    case, or [None] exactly when no category does. *)
Theorem get_reading_case_insensitive (report : DailyPollenReport) (q : string) :
  (∀ q', PyStr.lower q' = PyStr.lower q → get_reading report q' = get_reading report q) ∧
  (∀ r, get_reading report q = Some r ↔
     ∃ before after, readings report = before ++ r :: after ∧
       PyStr.lower (category r) = PyStr.lower q ∧
       ∀ y, y ∈ before → PyStr.lower (category y) ≠ PyStr.lower q) ∧
  (get_reading report q = None ↔
     ∀ y, y ∈ readings report → PyStr.lower (category y) ≠ PyStr.lower q).
Proof.
  unfold get_reading. split_and!.
  - by intros q' ->.
  - intros r. rewrite first_hit_Some.
    split; intros (before & after & Heq & Hr & Hb); exists before, after;
      (split_and!; [done| |]).
    + by apply bool_decide_eq_true in Hr.
    + intros y Hy. specialize (Hb y Hy). by apply bool_decide_eq_false in Hb.
    + by apply bool_decide_eq_true.
    + intros y Hy. apply bool_decide_eq_false. auto.
  - rewrite first_hit_None. split; intros H y Hy; specialize (H y Hy).
    + by apply bool_decide_eq_false in H.
    + by apply bool_decide_eq_false.
Qed.

Example summer_report_reading :
  get_reading SUMMER_REPORT "MOLD (ÉTÉ)" =
  Some (mkPollenReading "Mold (été)" "Low" "02/15/2026" DEFAULT_SOURCE) ∧
  get_reading SUMMER_REPORT "Mold" = None.
Proof. by vm_compute. Qed.

(** X2. On the readings of a scraped page, looking up an expected label in
    any spelling of its case finds the reading of that category whenever
    there is one, and nothing else: the lookup and the extraction agree on
    what a category is. *)
Theorem get_reading_finds_category (soup : node) (report : DailyPollenReport)
    (c q : string) :
  readings report = _extract_readings soup (report_date report) →
  c ∈ EXPECTED_CATEGORIES →
  PyStr.lower q = PyStr.lower c →
  ∀ r, get_reading report q = Some r ↔ r ∈ readings report ∧ category r = c.
Proof.
  intros Hrs Hc Hq r. unfold get_reading. rewrite Hq. split.
  - intros [Hr Heq]%first_hit_elem. apply bool_decide_eq_true in Heq.
    split; [done|]. rewrite Hrs in Hr.
    apply extract_readings_fields in Hr as (Hexp & _). by apply lower_label_inj.
  - intros [Hr <-]. apply first_hit_Some.
    destruct (list_elem_of_split _ _ Hr) as (before & after & Heq).
    exists before, after. split_and!; [done|by apply bool_decide_eq_true|].
    intros y Hy. apply bool_decide_eq_false. intros Hlow.
    pose proof (extract_readings_nodup soup (report_date report)) as Hnodup.
    rewrite <- Hrs, Heq, fmap_app, fmap_cons in Hnodup.
    apply NoDup_app in Hnodup as (_ & Hdisj & _).
    apply (Hdisj (category y)); [by apply list_elem_of_fmap_2|].
    assert (category y = category r) as ->; [|by left].
    apply lower_label_inj; [| |done].
    + eapply extract_readings_fields. rewrite <- Hrs, Heq.
      apply elem_of_app. by left.
    + eapply extract_readings_fields. by rewrite <- Hrs.
Qed.

Lemma get_reading_finds_category_witness :
  get_reading SAMPLE_REPORT "MOLD" =
  Some (mkPollenReading "Mold" "High" "02/15/2026" DEFAULT_SOURCE).
Proof.
  apply (get_reading_finds_category SAMPLE_HTML SAMPLE_REPORT "Mold" "MOLD").
  - reflexivity.
  - apply expected_cases. tauto.
  - reflexivity.
  - split; [|reflexivity]. vm_compute. do 4 right. left.
Defined.

(** ** Worst severity, continued *)

Lemma worst_level_is_maximal (rs : list PollenReading) :
  rs ≠ [] →
  ∃ r, r ∈ rs ∧ worst_level rs = inr (level r) ∧
       ∀ y, y ∈ rs → (rank_of y ≤ rank_of r)%Z.
Proof.
  destruct rs as [|r0 rs]; [done|]. intros _.
  destruct (max_by_first_maximum rank_of r0 rs) as (before & after & Heq & Hb & Ha).
  exists (max_by rank_of r0 rs). split_and!.
  - rewrite Heq. apply elem_of_app. right. by left.
  - done.
  - intros y Hy. rewrite Heq in Hy.
    apply elem_of_app in Hy as [Hy|[->|Hy]%elem_of_cons]; [|lia|by auto].
    specialize (Hb y Hy). lia.
Qed.

Lemma level_rank_inj (a b : string) :
  a ∈ valid_levels → b ∈ valid_levels → level_rank a = level_rank b → a = b.
Proof.
  intros Ha%valid_levels_cases Hb%valid_levels_cases.
  destruct Ha as [->|[->|[->|[->| ->]]]]; destruct Hb as [->|[->|[->|[->| ->]]]];
    vm_compute; congruence.
Qed.

(** X7. The rank of the worst level does not depend on the order of the
    readings, and when every level is one of the five tokens neither does
    the worst level itself (with unrecognized levels the order can decide
    which of them is returned). *)
Theorem worst_level_order_independent (rs rs' : list PollenReading) :
  rs ≡ₚ rs' →
  (∀ w w', worst_level rs = inr w → worst_level rs' = inr w' →
     level_rank w = level_rank w') ∧
  ((∀ r, r ∈ rs → level r ∈ valid_levels) → worst_level rs = worst_level rs').
Proof.
  intros Hperm.
  destruct rs as [|r0 rs].
  { apply Permutation_nil_l in Hperm as <-. by split. }
  assert (Hne' : rs' ≠ []).
  { intros ->. by apply Permutation_nil_r in Hperm. }
  destruct (worst_level_is_maximal (r0 :: rs)) as (m & Hm & Hw & Hmax); [done|].
  destruct (worst_level_is_maximal rs' Hne') as (m' & Hm' & Hw' & Hmax').
  assert (Hrank : rank_of m = rank_of m').
  { assert (rank_of m ≤ rank_of m')%Z by (apply Hmax'; by rewrite <- Hperm).
    assert (rank_of m' ≤ rank_of m)%Z by (apply Hmax; by rewrite Hperm).
    lia. }
  split.
  - intros w w'. rewrite Hw, Hw'. by intros [= <-] [= <-].
  - intros Hvalid. rewrite Hw, Hw'. f_equal.
    apply level_rank_inj; [by apply Hvalid | apply Hvalid; by rewrite Hperm | done].
Qed.

Lemma worst_level_order_independent_witness :
  worst_level (reverse (readings SAMPLE_REPORT)) = worst_level (readings SAMPLE_REPORT).
Proof.
  apply (worst_level_order_independent (reverse (readings SAMPLE_REPORT))
           (readings SAMPLE_REPORT) (reverse_Permutation _)).
  intros r Hr. apply elem_of_reverse in Hr.
  by apply (extract_readings_fields SAMPLE_HTML "02/15/2026" r).
Defined.

(** ** Scraped reports *)

Lemma extract_date_shape (soup : node) (clock : nat → datetime) (i : nat) :
  mm_dd_yyyy (fst (run clock i (_extract_date soup))).
Proof.
  destruct (re_search DATE_PATTERN (get_text "" false soup)) as [d|] eqn:Hsearch.
  - rewrite (extract_date_match soup d Hsearch). simpl.
    apply re_search_Some in Hsearch as (_ & _ & _ & Hd & _). by apply shaped_date.
  - rewrite (extract_date_fallback soup Hsearch). simpl. apply strftime_mdY_shape.
Qed.

Lemma scraped_report_parts (soup : node) (clock : nat → datetime) (i : nat)
    (report : DailyPollenReport) :
  fst (run clock i (scrape_pollen_data (inr soup))) = inr report →
  report_date report = fst (run clock i (_extract_date soup)) ∧
  readings report = _extract_readings soup (report_date report) ∧
  readings report ≠ [] ∧
  scrape_time report = strftime_iso (clock (snd (run clock i (_extract_date soup)))).
Proof.
  simpl. rewrite assemble_report_run. simpl.
  destruct (_extract_readings soup _) as [|r rs] eqn:Hrs; simpl; [done|].
  intros [= <-]. simpl. by rewrite Hrs.
Qed.

(** X6. A report that [scrape_pollen_data] returns is well formed: its date
    has the shape of two digits, a slash, two digits, a slash and four
    digits (decimal digits of any script, as [\d] matches them, or the
    clock's); it has between one and five readings, of pairwise different
    categories; every reading carries the report's own date; and its time
    stamp is the clock value read after the date was extracted, printed as
    [%Y-%m-%d %H:%M:%S]. *)
Theorem scraped_report_well_formed (soup : node) (clock : nat → datetime) (i : nat)
    (report : DailyPollenReport) :
  fst (run clock i (scrape_pollen_data (inr soup))) = inr report →
  mm_dd_yyyy (report_date report) ∧
  1 ≤ length (readings report) ≤ 5 ∧
  NoDup (category <$> readings report) ∧
  Forall (fun r => date r = report_date report) (readings report) ∧
  ∃ j, i ≤ j ≤ S i ∧ scrape_time report = strftime_iso (clock j).
Proof.
  intros (Hdate & Hrs & Hne & Hstamp)%scraped_report_parts. split_and!.
  - rewrite Hdate. apply extract_date_shape.
  - destruct (readings report); [done | simpl; lia].
  - rewrite Hrs. apply extract_readings_at_most_five.
  - rewrite Hrs. apply extract_readings_nodup.
  - apply Forall_forall. intros r Hr. rewrite Hrs in Hr.
    by apply extract_readings_fields in Hr as (_ & _ & ? & _).
  - eexists. split; [apply (extract_date_reads soup clock i) | exact Hstamp].
Qed.

Lemma scraped_report_well_formed_witness :
  mm_dd_yyyy "02/15/2026" ∧
  1 ≤ length (readings SAMPLE_REPORT) ≤ 5.
Proof.
  destruct (scraped_report_well_formed SAMPLE_HTML (fun _ => noon) 0 SAMPLE_REPORT)
    as (Hshape & Hlen & _); [by vm_compute|].
  split; [exact Hshape | exact Hlen].
Defined.

Lemma severity_icon_known (lvl : string) :
  lvl ∈ valid_levels → severity_icon lvl ≠ "".
Proof.
  intros Hin%valid_levels_cases.
  destruct Hin as [->|[->|[->|[->| ->]]]]; by vm_compute.
Qed.

(** X8. The subject line can always be built for a report that
    [scrape_pollen_data] returns: [worst_level] does not raise on it, the
    worst level is one of the five severity tokens, and the subject starts
    with that token's (non-empty) icon. *)
Theorem scraped_report_has_subject (soup : node) (clock : nat → datetime) (i : nat)
    (report : DailyPollenReport) :
  fst (run clock i (scrape_pollen_data (inr soup))) = inr report →
  ∃ worst,
    worst ∈ valid_levels ∧
    worst_level (readings report) = inr worst ∧
    severity_icon worst ≠ "" ∧
    build_email_subject report =
      inr (severity_icon worst +:+ " Chicago Allergy Alert (" +:+
           report_date report +:+ "): " +:+ worst).
Proof.
  intros (_ & Hrs & Hne & _)%scraped_report_parts.
  destruct (worst_level_is_maximal (readings report) Hne) as (m & Hm & Hw & _).
  assert (Hvalid : level m ∈ valid_levels).
  { rewrite Hrs in Hm. by apply extract_readings_fields in Hm as (_ & ? & _). }
  exists (level m). split_and!; [done..|by apply severity_icon_known|].
  unfold build_email_subject. by rewrite Hw.
Qed.

Lemma scraped_report_has_subject_witness :
  ∃ worst,
    worst ∈ valid_levels ∧
    worst_level (readings SAMPLE_REPORT) = inr worst ∧
    severity_icon worst ≠ "" ∧
    build_email_subject SAMPLE_REPORT =
      inr (severity_icon worst +:+ " Chicago Allergy Alert (" +:+
           report_date SAMPLE_REPORT +:+ "): " +:+ worst).
Proof.
  apply (scraped_report_has_subject SAMPLE_HTML (fun _ => noon) 0 SAMPLE_REPORT).
  by vm_compute.
Defined.

(** X9. After a successful fetch the page is rejected with [ValueError]
    exactly when every heading that is the first to match its category
    resolves to no level; in particular a page without any [h4] and a page
    whose headings match no category are rejected. *)
Theorem parse_error_iff_nothing_resolves (soup : node) (clock : nat → datetime) (i : nat) :
  let hs := find_all "h4" soup in
  let res := fst (run clock i (scrape_pollen_data (inr soup))) in
  ((∃ msg, res = inl (ValueError msg)) ↔
     ∀ k h c, first_match_at hs k h c → _find_level_near_element h = None) ∧
  ((∀ h, h ∈ hs → category_of h = None) → res = inl (ValueError NO_READINGS)) ∧
  (hs = [] → res = inl (ValueError NO_READINGS)).
Proof.
  intros hs res.
  set (rd := fst (run clock i (_extract_date soup))).
  assert (Hrs : ∀ r, r ∈ _extract_readings soup rd ↔ from_first_match rd hs r)
    by apply (inv_readings _ _ _ _ (h4_loop_invariant rd hs)).
  assert (Hres : res = match _extract_readings soup rd with
                       | [] => inl (ValueError NO_READINGS)
                       | rs => inr (mkDailyPollenReport rd rs
                                 (strftime_iso (clock (snd (run clock i (_extract_date soup))))))
                       end).
  { subst res. simpl. rewrite assemble_report_run. simpl. fold rd.
    by destruct (_extract_readings soup rd). }
  assert (Hiff : _extract_readings soup rd = [] ↔
            ∀ k h c, first_match_at hs k h c → _find_level_near_element h = None).
  { split.
    - intros Hnil k h c Hfirst.
      destruct (_find_level_near_element h) as [lvl|] eqn:Hlvl; [|done].
      assert (Hin : mkPollenReading c lvl rd DEFAULT_SOURCE ∈ _extract_readings soup rd).
      { apply Hrs. by exists k, h. }
      rewrite Hnil in Hin. by apply elem_of_nil in Hin.
    - intros Hnone. destruct (_extract_readings soup rd) as [|r rs] eqn:Hex; [done|].
      destruct (proj1 (Hrs r)) as (k & h & Hfirst & Hlvl & _); [by left|].
      rewrite (Hnone k h _ Hfirst) in Hlvl. discriminate. }
  assert (Hnomatch : (∀ h, h ∈ hs → category_of h = None) →
            res = inl (ValueError NO_READINGS)).
  { intros Hno. rewrite Hres.
    rewrite (proj2 Hiff); [done|]. intros k h c (Hk & Hc & _).
    rewrite (Hno h) in Hc; [done|]. by eapply list_elem_of_lookup_2. }
  split_and!; [|done|].
  - rewrite <- Hiff, Hres. destruct (_extract_readings soup rd); split; try done.
    + by eexists.
    + by intros [? ?].
  - intros Hnil. apply Hnomatch. intros h. rewrite Hnil. by intros ?%elem_of_nil.
Qed.

(** ** Running programs *)

#[local] Arguments String.append : simpl never.
#[local] Arguments emit : simpl never.

Lemma exec_lift_bind {A B : Type} (w : world) (m : clockM A) (f : A → ioM B) (i : nat) :
  exec w i (io_bind f (lift m)) =
  exec w (snd (run (w_clock w) i m)) (f (fst (run (w_clock w) i m))).
Proof.
  revert i. induction m as [a|k IH]; intros i; [done|]. simpl. apply IH.
Qed.

Lemma seen_emit_print {A : Type} (line : string) (r : list event * outcome A * nat) :
  seen (emit (EvPrint line) r) = seen r.
Proof. reflexivity. Qed.

Lemma seen_emit {A : Type} (ev : event) (r : list event * outcome A * nat) :
  is_print ev = false → seen (emit ev r) = (ev :: fst (seen r), snd (seen r)).
Proof. unfold seen, emit, effects. simpl. by intros ->. Qed.

Lemma seen_print_each_bind {A B : Type} (w : world) (g : A → string) (xs : list A)
    (f : unit → ioM B) (i : nat) :
  seen (exec w i (io_bind f (Main.print_each g xs))) = seen (exec w i (f tt)).
Proof. induction xs as [|x xs IH]; simpl; [done|]. by rewrite seen_emit_print. Qed.

Lemma observe_parts {A : Type} (w : world) (i : nat) (m : ioM A) :
  observe w i m = (effects (trace_of w i m), outcome_of w i m).
Proof. reflexivity. Qed.

Lemma effects_app (tr1 tr2 : list event) :
  effects (tr1 ++ tr2) = effects tr1 ++ effects tr2.
Proof. unfold effects. apply List.filter_app. Qed.

Lemma mail_configured_spec (env : gmap string string) :
  mail_configured env = true ↔
  ∀ name, name ∈ ["SMTP_EMAIL"; "SMTP_PASSWORD"; "ALERT_RECIPIENT"] →
    ∃ v, env !! name = Some v ∧ v ≠ "".
Proof.
  assert (Htruthy : ∀ o : option string,
            env_truthy o = true ↔ ∃ v, o = Some v ∧ v ≠ "").
  { intros [v|]; simpl.
    - rewrite negb_true_iff, bool_decide_eq_false. split; [by eauto | by intros (? & [= <-] & ?)].
    - split; [done | by intros (? & ? & _)]. }
  unfold mail_configured. simpl. rewrite !andb_true_iff, !Htruthy. split.
  - intros (H1 & H2 & H3 & _) name Hname.
    rewrite !elem_of_cons, elem_of_nil in Hname. by destruct Hname as [->|[->|[->|[]]]].
  - intros H. split_and!; [apply H..|done]; rewrite !elem_of_cons; tauto.
Qed.

Lemma mail_unconfigured_spec (env : gmap string string) :
  mail_configured env = false ↔
  ∃ name, name ∈ ["SMTP_EMAIL"; "SMTP_PASSWORD"; "ALERT_RECIPIENT"] ∧
          (env !! name = None ∨ env !! name = Some "").
Proof.
  assert (Hfalsy : ∀ o : option string,
            env_truthy o = false ↔ o = None ∨ o = Some "").
  { intros [v|]; simpl.
    - rewrite negb_false_iff, bool_decide_eq_true.
      split; [intros ->; by right | by intros [?|[= ->]]].
    - split; [by left | done]. }
  unfold mail_configured. simpl. rewrite !andb_false_iff, !Hfalsy. split.
  - intros [H|[H|[H|H]]]; [..|done]; eexists; (split; [|exact H]);
      rewrite !elem_of_cons; tauto.
  - intros (name & Hname & Hbad).
    rewrite !elem_of_cons, elem_of_nil in Hname.
    destruct Hname as [->|[->|[->|[]]]]; tauto.
Qed.

Lemma observe_send_alert_email (w : world) (i : nat) (subject html_body : string) :
  observe w i (send_alert_email subject html_body) =
  if mail_configured (w_env w)
  then ([EvSmtp (mail_session (w_env w) subject html_body)],
        Returned (is_sent (w_smtp w)))
  else ([], Raised (ValueError MISSING_EMAIL_CONFIGURATION)).
Proof.
  unfold observe, send_alert_email, mail_configured. simpl.
  destruct (env_truthy (w_env w !! "SMTP_EMAIL") &&
            (env_truthy (w_env w !! "SMTP_PASSWORD") &&
             (env_truthy (w_env w !! "ALERT_RECIPIENT") && true))); simpl; [|done].
  by destruct (w_smtp w).
Qed.

Lemma trace_send_unconfigured (w : world) (i : nat) (subject html_body : string) :
  mail_configured (w_env w) = false →
  trace_of w i (send_alert_email subject html_body) = [].
Proof.
  unfold trace_of, send_alert_email, mail_configured. simpl.
  by destruct (env_truthy (w_env w !! "SMTP_EMAIL") &&
            (env_truthy (w_env w !! "SMTP_PASSWORD") &&
             (env_truthy (w_env w !! "ALERT_RECIPIENT") && true))).
Qed.

(** X10. [send_alert_email] raises [ValueError] exactly when one of
    SMTP_EMAIL, SMTP_PASSWORD and ALERT_RECIPIENT is unset or empty, and
    then it has not contacted the mail server.  Otherwise it never raises:
    it opens one session with smtp.gmail.com on port 587, logs in as the
    sender, and returns [True] exactly when the session ended without an
    exception. *)
Theorem send_alert_email_outcomes (w : world) (i : nat) (subject html_body : string) :
  ((∃ name, name ∈ ["SMTP_EMAIL"; "SMTP_PASSWORD"; "ALERT_RECIPIENT"] ∧
            (w_env w !! name = None ∨ w_env w !! name = Some "")) ↔
   outcome_of w i (send_alert_email subject html_body)
     = Raised (ValueError MISSING_EMAIL_CONFIGURATION)) ∧
  (outcome_of w i (send_alert_email subject html_body)
     = Raised (ValueError MISSING_EMAIL_CONFIGURATION) →
   trace_of w i (send_alert_email subject html_body) = []) ∧
  ((∀ name, name ∈ ["SMTP_EMAIL"; "SMTP_PASSWORD"; "ALERT_RECIPIENT"] →
      ∃ v, w_env w !! name = Some v ∧ v ≠ "") →
   ∃ session,
     effects (trace_of w i (send_alert_email subject html_body)) = [EvSmtp session] ∧
     smtp_server session = "smtp.gmail.com" ∧ smtp_port session = 587%Z ∧
     Some (login_user session) = w_env w !! "SMTP_EMAIL" ∧
     Some (login_password session) = w_env w !! "SMTP_PASSWORD" ∧
     Some (envelope_to session) = w_env w !! "ALERT_RECIPIENT" ∧
     envelope_from session = login_user session ∧
     outcome_of w i (send_alert_email subject html_body)
       = Returned (is_sent (w_smtp w))).
Proof.
  pose proof (observe_send_alert_email w i subject html_body) as Hobs.
  pose proof (mail_configured_spec (w_env w)) as Hspec.
  rewrite observe_parts in Hobs.
  destruct (mail_configured (w_env w)) eqn:Hconf.
  - injection Hobs as Htr Hout. rewrite Hout. split_and!.
    + split; [|done]. intros (name & Hname & Hbad).
      destruct (proj1 Hspec eq_refl name Hname) as (v & Hv & Hne).
      destruct Hbad as [Hbad|Hbad]; rewrite Hv in Hbad; congruence.
    + done.
    + intros Hall. exists (mail_session (w_env w) subject html_body).
      split; [done|]. unfold mail_session. simpl.
      destruct (Hall "SMTP_EMAIL") as (v1 & -> & _); [rewrite !elem_of_cons; tauto|].
      destruct (Hall "SMTP_PASSWORD") as (v2 & -> & _); [rewrite !elem_of_cons; tauto|].
      destruct (Hall "ALERT_RECIPIENT") as (v3 & -> & _); [rewrite !elem_of_cons; tauto|].
      by split_and!.
  - injection Hobs as Htr Hout. rewrite Hout. split_and!.
    + split; [done|]. intros _. by apply mail_unconfigured_spec.
    + intros _. by apply trace_send_unconfigured.
    + intros Hall. apply Hspec in Hall. discriminate.
Qed.

(** ** [run], stage by stage *)

Lemma build_email_html_nonempty (report : DailyPollenReport)
    (weather : option (gmap string string)) :
  readings report ≠ [] → ∃ html, build_email_html report weather = inr html.
Proof.
  intros Hne. unfold build_email_html.
  destruct (readings report) as [|r rs]; [done|]. by eexists.
Qed.

Lemma build_email_subject_nonempty (report : DailyPollenReport) :
  readings report ≠ [] → ∃ subject, build_email_subject report = inr subject.
Proof.
  intros Hne. unfold build_email_subject.
  destruct (readings report) as [|r rs]; [done|]. by eexists.
Qed.

Lemma exec_bind {A B : Type} (w : world) (m : ioM A) (f : A → ioM B) (i : nat) :
  exec w i (io_bind f m) =
  match snd (fst (exec w i m)) with
  | Returned a =>
      (fst (fst (exec w i m)) ++ fst (fst (exec w (snd (exec w i m)) (f a))),
       snd (fst (exec w (snd (exec w i m)) (f a))),
       snd (exec w (snd (exec w i m)) (f a)))
  | Raised e => (fst (fst (exec w i m)), Raised e, snd (exec w i m))
  | Exited code => (fst (fst (exec w i m)), Exited code, snd (exec w i m))
  end.
Proof.
  revert i.
  induction m as [a|e|code|k IH|line k IH|name k IH|k IH|k IH|session k IH|name content k IH];
    intros i; simpl.
  - by destruct (exec w i (f a)) as [[tr o] j].
  - done.
  - done.
  - apply IH.
  - rewrite IH. unfold emit. simpl. by destruct (snd (fst (exec w i k))).
  - apply IH.
  - rewrite IH. unfold emit. simpl. by destruct (snd (fst (exec w i (k (w_page w))))).
  - rewrite IH. unfold emit. simpl. by destruct (snd (fst (exec w i (k (w_weather w))))).
  - rewrite IH. unfold emit. simpl. by destruct (snd (fst (exec w i (k (w_smtp w))))).
  - rewrite IH. unfold emit. simpl. by destruct (snd (fst (exec w i k))).
Qed.

Lemma observe_run_deliver (w : world) (i : nat) (here : string) (preview_mode : bool)
    (subject html : string) :
  observe w i (Main.run_deliver here preview_mode subject html) =
  delivery w here preview_mode subject html.
Proof.
  unfold delivery. destruct preview_mode; [done|].
  pose proof (observe_send_alert_email w i subject html) as Hsend.
  destruct (mail_configured (w_env w)) eqn:Hconf.
  all: unfold observe, Main.run_deliver in *.
  all: cbn -[send_alert_email String.append emit]; rewrite seen_emit_print.
  all: rewrite exec_bind; unfold seen in *.
  all: destruct (exec w i (send_alert_email subject html)) as [[tr o] j].
  all: cbn [fst snd] in *; injection Hsend as Htr ->.
  - destruct (is_sent (w_smtp w)); cbn -[String.append effects]; unfold emit;
      cbn [fst snd]; by rewrite effects_app, Htr.
  - cbn [fst snd]. by rewrite Htr.
Qed.

Lemma observe_run_report (w : world) (i : nat) (here : string) (preview_mode : bool)
    (report : DailyPollenReport) :
  observe w i (Main.run_report here preview_mode report) =
  after_scrape w here preview_mode report.
Proof.
  unfold after_scrape, weather_of.
  pose proof (observe_run_deliver w i here preview_mode) as Hdeliver.
  unfold observe, seen in *. unfold Main.run_report. simpl.
  destruct (w_weather w) as [e|data]; simpl.
  - destruct (build_email_html report None) as [?|html]; [done|].
    destruct (build_email_subject report) as [?|subject]; [done|].
    simpl. by rewrite <- (Hdeliver subject html).
  - destruct (decide (data = ∅)); simpl.
    all: destruct (build_email_html report (Some data)) as [?|html]; [done|].
    all: destruct (build_email_subject report) as [?|subject]; [done|].
    all: simpl; by rewrite <- (Hdeliver subject html).
Qed.

Lemma observe_run_scrape (w : world) (j : nat) (here : string) (preview_mode : bool) :
  observe w j (Main.run_scrape here preview_mode) =
  match scraped w j with
  | inl _ => ([EvHttpGetPage], Exited 1)
  | inr report =>
      (EvHttpGetPage :: fst (after_scrape w here preview_mode report),
       snd (after_scrape w here preview_mode report))
  end.
Proof.
  unfold scraped, observe, Main.run_scrape, Main.scrape_pollen_data_call.
  cbn -[seen String.append emit lift scrape_pollen_data Main.run_report Main.print_each].
  rewrite seen_emit_print, seen_emit by done.
  rewrite exec_lift_bind.
  destruct (fst (run (w_clock w) j (scrape_pollen_data (w_page w)))) as [[e|e]|report].
  - by cbn -[String.append].
  - by cbn -[String.append].
  - cbn -[seen String.append emit Main.run_report Main.print_each].
    rewrite seen_emit_print, seen_print_each_bind.
    rewrite <- (observe_run_report w (snd (run (w_clock w) j (scrape_pollen_data (w_page w))))
                  here preview_mode report).
    done.
Qed.

Lemma observe_run (w : world) (i : nat) (here : string) (test_mode preview_mode : bool) :
  observe w i (Main.run here test_mode preview_mode) =
  whole_run w i here test_mode preview_mode.
Proof.
  unfold whole_run, proceeds, scrape_start.
  pose proof (observe_run_scrape w) as Hscrape.
  unfold observe in *. unfold Main.run.
  cbn -[seen String.append emit Main.run_scrape Main.strftime_banner Main.in_season Main.weekday].
  rewrite !seen_emit_print.
  destruct test_mode; cbn -[seen String.append emit Main.run_scrape Main.in_season Main.weekday].
  - rewrite seen_emit_print. apply Hscrape.
  - destruct (Main.in_season (w_clock w (S i)));
      cbn -[seen String.append emit Main.run_scrape Main.weekday]; [|done].
    destruct (Main.weekday (w_clock w (S (S i))) <? 5)%Z;
      cbn -[seen String.append emit Main.run_scrape]; [|done].
    apply Hscrape.
Qed.

(** ** [run] as a whole *)

Lemma proceeds_spec (w : world) (i : nat) (test_mode : bool) :
  proceeds w i test_mode = true ↔ let_through w i test_mode.
Proof.
  unfold proceeds, let_through, Main.in_season, Main.SEASON_START_MONTH,
    Main.SEASON_END_MONTH.
  rewrite orb_true_iff, !andb_true_iff, !Z.leb_le, Z.ltb_lt. tauto.
Qed.

Lemma not_proceeds_spec (w : world) (i : nat) (test_mode : bool) :
  proceeds w i test_mode = false ↔ ¬ let_through w i test_mode.
Proof.
  rewrite <- proceeds_spec. by destruct (proceeds w i test_mode).
Qed.

Lemma scraped_builds (w : world) (j : nat) (report : DailyPollenReport) :
  scraped w j = inr report →
  ∃ subject html,
    build_email_subject report = inr subject ∧
    build_email_html report (weather_of w) = inr html.
Proof.
  unfold scraped. destruct (w_page w) as [e|soup]; [done|].
  intros (_ & _ & Hne & _)%scraped_report_parts.
  destruct (build_email_subject_nonempty report Hne) as [subject Hs].
  destruct (build_email_html_nonempty report (weather_of w) Hne) as [html Hh].
  by exists subject, html.
Qed.

(** X11. Outside test mode [run] does nothing but print unless the month
    is April to October when the season is checked and the day is Monday
    to Friday when the weekday is checked: no page is requested, no
    weather, no file is written, no mail is sent, and it returns normally.
    When it is let through, by the date or by test mode, the first thing
    it does is request the page, once. *)
Theorem run_checks_season_and_weekday (w : world) (i : nat) (here : string)
    (test_mode preview_mode : bool) :
  (¬ let_through w i test_mode →
     observe w i (Main.run here test_mode preview_mode) = ([], Returned tt)) ∧
  (let_through w i test_mode →
     ∃ rest o, observe w i (Main.run here test_mode preview_mode)
                 = (EvHttpGetPage :: rest, o) ∧ EvHttpGetPage ∉ rest).
Proof.
  rewrite observe_run. unfold whole_run. split.
  - intros Hno%not_proceeds_spec. by rewrite Hno.
  - intros Hyes%proceeds_spec. rewrite Hyes.
    destruct (scraped w (scrape_start i test_mode)) as [e|report].
    { exists [], (Exited 1). split; [done | by intros ?%elem_of_nil]. }
    eexists _, _. split; [reflexivity|].
    unfold after_scrape, delivery.
    destruct (build_email_html report (weather_of w)); simpl;
      [by rewrite list_elem_of_singleton|].
    destruct (build_email_subject report); simpl; [by rewrite list_elem_of_singleton|].
    destruct preview_mode; simpl.
    { rewrite !elem_of_cons, elem_of_nil. by intros [?|[?|[]]]. }
    destruct (mail_configured (w_env w)); simpl;
      rewrite !elem_of_cons, elem_of_nil; by intros [?|[?|[]]] || by intros [?|[]].
Qed.

Lemma run_checks_season_and_weekday_witness :
  observe WEEKEND_WORLD 0 (Main.run "/app" false false) = ([], Returned tt).
Proof.
  apply (run_checks_season_and_weekday WEEKEND_WORLD 0 "/app" false false).
  intros [Htest|[_ Hday]]; [discriminate|]. vm_compute in Hday. discriminate.
Defined.

(** X12. When the scrape fails, whether the page cannot be reached or no
    reading can be parsed, [run] exits with status 1 right after the page
    request: no weather is requested, nothing is written and no mail is
    sent. *)
Theorem run_exits_when_scrape_fails (w : world) (i : nat) (here : string)
    (test_mode preview_mode : bool) (e : exn) :
  let_through w i test_mode →
  scraped w (scrape_start i test_mode) = inl e →
  observe w i (Main.run here test_mode preview_mode) = ([EvHttpGetPage], Exited 1).
Proof.
  intros Hyes%proceeds_spec Hfail. rewrite observe_run. unfold whole_run.
  by rewrite Hyes, Hfail.
Qed.

Lemma run_exits_when_scrape_fails_witness :
  observe OFFLINE_WORLD 0 (Main.run "/app" true false) = ([EvHttpGetPage], Exited 1).
Proof.
  apply (run_exits_when_scrape_fails OFFLINE_WORLD 0 "/app" true false
           (ConnectionError ("Failed to reach " +:+ URL +:+ ": connection timed out"))).
  - by left.
  - reflexivity.
Defined.

(** X13. In preview mode a run that is let through and scrapes a report
    requests the weather, writes the page built from the report and the
    weather to [preview.html] in the directory of the script, and returns
    normally, whatever the mail settings are. *)
Theorem run_preview_writes_the_page (w : world) (i : nat) (here : string)
    (test_mode : bool) (report : DailyPollenReport) :
  let_through w i test_mode →
  scraped w (scrape_start i test_mode) = inr report →
  ∃ html,
    build_email_html report (weather_of w) = inr html ∧
    observe w i (Main.run here test_mode true) =
      ([EvHttpGetPage; EvHttpGetWeather;
        EvWriteFile (Main.path_join here "preview.html") html], Returned tt).
Proof.
  intros Hyes%proceeds_spec Hok.
  destruct (scraped_builds w _ report Hok) as (subject & html & Hs & Hh).
  exists html. split; [done|]. rewrite observe_run. unfold whole_run, after_scrape.
  by rewrite Hyes, Hok, Hh, Hs.
Qed.

Lemma run_preview_writes_the_page_witness :
  ∃ html,
    build_email_html SAMPLE_REPORT (Some SAMPLE_WEATHER) = inr html ∧
    observe SAMPLE_WORLD 0 (Main.run "/app" false true) =
      ([EvHttpGetPage; EvHttpGetWeather; EvWriteFile "/app/preview.html" html],
       Returned tt).
Proof.
  destruct (run_preview_writes_the_page SAMPLE_WORLD 0 "/app" false
              (mkDailyPollenReport "02/15/2026"
                 (_extract_readings SAMPLE_HTML "02/15/2026") "2026-06-15 08:00:00"))
    as (html & Hh & Hobs).
  - right. vm_compute. split; [split|]; congruence.
  - by vm_compute.
  - exists html. split; [exact Hh | exact Hobs].
Defined.

(** X14. Outside preview mode a run that is let through and scrapes a
    report requests the weather and then hands the subject and the page
    built from the report to [send_alert_email].  With the three mail
    variables set it opens one SMTP session carrying that subject and that
    page, and returns normally when the session succeeded and exits with
    status 1 when it did not.  With a variable unset or empty the
    [ValueError] of [send_alert_email] is not caught: the run ends with it,
    after the two requests. *)
Theorem run_sends_the_report (w : world) (i : nat) (here : string)
    (test_mode : bool) (report : DailyPollenReport) :
  let_through w i test_mode →
  scraped w (scrape_start i test_mode) = inr report →
  ∃ subject html,
    build_email_subject report = inr subject ∧
    build_email_html report (weather_of w) = inr html ∧
    (mail_configured (w_env w) = true →
       observe w i (Main.run here test_mode false) =
         ([EvHttpGetPage; EvHttpGetWeather;
           EvSmtp (mail_session (w_env w) subject html)],
          if is_sent (w_smtp w) then Returned tt else Exited 1)) ∧
    (mail_configured (w_env w) = false →
       observe w i (Main.run here test_mode false) =
         ([EvHttpGetPage; EvHttpGetWeather],
          Raised (ValueError MISSING_EMAIL_CONFIGURATION))).
Proof.
  intros Hyes%proceeds_spec Hok.
  destruct (scraped_builds w _ report Hok) as (subject & html & Hs & Hh).
  exists subject, html. split_and!; [done..| |].
  all: intros Hconf; rewrite observe_run; unfold whole_run, after_scrape, delivery.
  all: by rewrite Hyes, Hok, Hh, Hs, Hconf.
Qed.

Lemma run_sends_the_report_witness :
  ∃ subject html,
    build_email_subject SAMPLE_REPORT = inr subject ∧
    build_email_html SAMPLE_REPORT None = inr html ∧
    observe UNCONFIGURED_WORLD 0 (Main.run "/app" true false) =
      ([EvHttpGetPage; EvHttpGetWeather],
       Raised (ValueError MISSING_EMAIL_CONFIGURATION)).
Proof.
  destruct (run_sends_the_report UNCONFIGURED_WORLD 0 "/app" true
              (mkDailyPollenReport "02/15/2026"
                 (_extract_readings SAMPLE_HTML "02/15/2026") "2026-06-15 08:00:00"))
    as (subject & html & Hs & Hh & _ & Hno).
  - by left.
  - by vm_compute.
  - exists subject, html. split_and!; [exact Hs | exact Hh |]. apply Hno. by vm_compute.
Defined.

(** X15. [run] never sends mail without a report: whenever an SMTP session
    shows up among its effects, the run was not a preview, it was let
    through, the scrape returned a report, the three mail variables were
    set, and the session is the one that carries the subject and the page
    built from that report; and there is only one such session. *)
Theorem run_mails_only_a_scraped_report (w : world) (i : nat) (here : string)
    (test_mode preview_mode : bool) (session : smtp_session) :
  EvSmtp session ∈ fst (observe w i (Main.run here test_mode preview_mode)) →
  preview_mode = false ∧ let_through w i test_mode ∧
  mail_configured (w_env w) = true ∧
  ∃ report subject html,
    scraped w (scrape_start i test_mode) = inr report ∧
    build_email_subject report = inr subject ∧
    build_email_html report (weather_of w) = inr html ∧
    session = mail_session (w_env w) subject html ∧
    fst (observe w i (Main.run here test_mode preview_mode)) =
      [EvHttpGetPage; EvHttpGetWeather; EvSmtp session].
Proof.
  rewrite observe_run. unfold whole_run.
  destruct (proceeds w i test_mode) eqn:Hyes; simpl; [|by intros ?%elem_of_nil].
  apply proceeds_spec in Hyes.
  destruct (scraped w (scrape_start i test_mode)) as [e|report] eqn:Hok; simpl.
  { rewrite list_elem_of_singleton. done. }
  unfold after_scrape, delivery.
  destruct (build_email_html report (weather_of w)) as [?|html] eqn:Hh; simpl.
  { rewrite !elem_of_cons, elem_of_nil. by intros [?|[?|[]]]. }
  destruct (build_email_subject report) as [?|subject] eqn:Hs; simpl.
  { rewrite !elem_of_cons, elem_of_nil. by intros [?|[?|[]]]. }
  destruct preview_mode; simpl.
  { rewrite !elem_of_cons, elem_of_nil. by intros [?|[?|[?|[]]]]. }
  destruct (mail_configured (w_env w)) eqn:Hconf; simpl.
  - rewrite !elem_of_cons, elem_of_nil. intros [?|[?|[[= ->]|[]]]]; [done..|].
    split_and!; [done..|]. by exists report, subject, html.
  - rewrite !elem_of_cons, elem_of_nil. by intros [?|[?|[]]].
Qed.

Lemma run_mails_only_a_scraped_report_witness :
  EvSmtp (mail_session SAMPLE_ENV "🟠 Chicago Allergy Alert (02/15/2026): High"
            (default "" (match build_email_html SAMPLE_REPORT (Some SAMPLE_WEATHER) with
                         | inr html => Some html
                         | inl _ => None
                         end)))
    ∈ fst (observe SAMPLE_WORLD 0 (Main.run "/app" false false)) ∧
  mail_configured SAMPLE_ENV = true.
Proof.
  assert (Hin : EvSmtp (mail_session SAMPLE_ENV "🟠 Chicago Allergy Alert (02/15/2026): High"
            (default "" (match build_email_html SAMPLE_REPORT (Some SAMPLE_WEATHER) with
                         | inr html => Some html
                         | inl _ => None
                         end)))
    ∈ fst (observe SAMPLE_WORLD 0 (Main.run "/app" false false))).
  { rewrite observe_run. vm_compute. do 2 right. left. }
  split; [exact Hin|].
  exact (proj1 (proj2 (proj2 (run_mails_only_a_scraped_report SAMPLE_WORLD 0 "/app"
                                false false _ Hin)))).
Defined.

(** ** The page of the email *)

Lemma substring_here (x y : string) : PyStr.substring_of x (x +:+ y).
Proof. by exists "", y. Qed.

Lemma substring_skip (x a y : string) :
  PyStr.substring_of x y → PyStr.substring_of x (a +:+ y).
Proof. intros (pre & post & ->). exists (a +:+ pre), post. by rewrite str_app_assoc. Qed.

Lemma substring_of_trans (x y z : string) :
  PyStr.substring_of x y → PyStr.substring_of y z → PyStr.substring_of x z.
Proof.
  intros (p1 & q1 & ->) (p2 & q2 & ->). exists (p2 +:+ p1), (q1 +:+ q2).
  by rewrite !str_app_assoc.
Qed.

Lemma substring_left (x a b : string) :
  PyStr.substring_of x a → PyStr.substring_of x (a +:+ b).
Proof. intros (pre & post & ->). exists pre, (post +:+ b). by rewrite !str_app_assoc. Qed.

Create HintDb pieces.
#[local] Hint Resolve substring_here substring_of_refl substring_skip substring_left : pieces.

Ltac find_piece := solve [eauto 40 with pieces].

Lemma category_rows_from (acc : string) (rs : list PollenReading) :
  foldl (fun rows reading => rows +:+ category_row reading) acc rs =
  acc +:+ category_rows rs.
Proof.
  unfold category_rows. revert acc. induction rs as [|r rs IH]; intros acc.
  - by rewrite str_app_nil_r.
  - cbn [foldl]. rewrite (IH (acc +:+ _)), (IH ("" +:+ _)). by rewrite str_app_assoc.
Qed.

Lemma category_rows_cons (r : PollenReading) (rs : list PollenReading) :
  category_rows (r :: rs) = category_row r +:+ category_rows rs.
Proof. unfold category_rows at 1. cbn [foldl]. apply category_rows_from. Qed.

Lemma category_rows_foldr (rs : list PollenReading) :
  category_rows rs = foldr (fun reading rows => category_row reading +:+ rows) "" rs.
Proof.
  induction rs as [|r rs IH]; [done|].
  rewrite category_rows_cons. cbn [foldr]. by rewrite IH.
Qed.

Lemma category_row_in_rows (r : PollenReading) (rs : list PollenReading) :
  r ∈ rs → PyStr.substring_of (category_row r) (category_rows rs).
Proof.
  induction rs as [|r0 rs IH]; [by intros ?%elem_of_nil|].
  rewrite category_rows_cons. intros [->|Hr]%elem_of_cons.
  - apply substring_here.
  - by apply substring_skip, IH.
Qed.

Lemma build_email_html_inr (report : DailyPollenReport)
    (weather : option (gmap string string)) (html : string) :
  build_email_html report weather = inr html →
  ∃ worst,
    worst_level (readings report) = inr worst ∧
    html =
      HTML_0 +:+ report_date report +:+
      HTML_1 +:+ (default (SEVERITY_COLORS !!! "Absent") (SEVERITY_COLORS !! worst) !!! "bg") +:+
      HTML_2 +:+ (default (SEVERITY_COLORS !!! "Absent") (SEVERITY_COLORS !! worst) !!! "text") +:+
      HTML_3 +:+ (default (SEVERITY_COLORS !!! "Absent") (SEVERITY_COLORS !! worst) !!! "icon") +:+
      HTML_4 +:+ worst +:+
      HTML_5 +:+ category_rows (readings report) +:+
      HTML_6 +:+ weather_section weather +:+
      HTML_7 +:+ (default (SEVERITY_COLORS !!! "Absent") (SEVERITY_COLORS !! worst) !!! "text") +:+
      HTML_8 +:+ default "" (RECOMMENDATIONS !! worst) +:+ HTML_9.
Proof.
  unfold build_email_html. destruct (worst_level (readings report)) as [e|worst]; [done|].
  intros [= <-]. by exists worst.
Qed.

(** X16. The page and the subject are built for every report that has a
    reading and for no other: on a report without readings both builders
    raise the [ValueError] that [max] raises on an empty sequence.  In
    particular they never fail on a report that [scrape_pollen_data]
    returned. *)
Theorem builders_need_a_reading (report : DailyPollenReport)
    (weather : option (gmap string string)) :
  (readings report = [] ↔ ∃ msg, build_email_html report weather = inl (ValueError msg)) ∧
  (readings report = [] ↔ ∃ msg, build_email_subject report = inl (ValueError msg)) ∧
  (readings report ≠ [] ↔ ∃ html, build_email_html report weather = inr html) ∧
  (readings report ≠ [] ↔ ∃ subject, build_email_subject report = inr subject) ∧
  (∀ soup clock i,
     fst (run clock i (scrape_pollen_data (inr soup))) = inr report →
     readings report ≠ []).
Proof.
  unfold build_email_html, build_email_subject.
  destruct (readings report) as [|r rs] eqn:Hrs; simpl.
  - split_and!.
    + split; [by eexists | done].
    + split; [by eexists | done].
    + split; [done | by intros [? ?]].
    + split; [done | by intros [? ?]].
    + intros soup clock i (_ & _ & Hne & _)%scraped_report_parts. congruence.
  - split_and!.
    + split; [done | by intros [? ?]].
    + split; [done | by intros [? ?]].
    + split; [by eexists | done].
    + split; [by eexists | done].
    + done.
Qed.

(** X17. The page shows the report: it contains the report's date, the
    worst level and the recommendation filed under it, and one table row
    per reading, in the order of the readings, each row holding the
    reading's category and level. *)
Theorem page_shows_the_report (report : DailyPollenReport)
    (weather : option (gmap string string)) (html : string) :
  build_email_html report weather = inr html →
  PyStr.substring_of (report_date report) html ∧
  (∃ worst,
     worst_level (readings report) = inr worst ∧
     PyStr.substring_of worst html ∧
     PyStr.substring_of (default "" (RECOMMENDATIONS !! worst)) html) ∧
  PyStr.substring_of (category_rows (readings report)) html ∧
  category_rows (readings report) =
    foldr (fun reading rows => category_row reading +:+ rows) "" (readings report) ∧
  (∀ r, r ∈ readings report →
     PyStr.substring_of (category_row r) html ∧
     PyStr.substring_of (category r) (category_row r) ∧
     PyStr.substring_of (level r) (category_row r)).
Proof.
  intros (worst & Hworst & ->)%build_email_html_inr.
  assert (Hrows : PyStr.substring_of (category_rows (readings report))
    (HTML_0 +:+ report_date report +:+
      HTML_1 +:+ (default (SEVERITY_COLORS !!! "Absent") (SEVERITY_COLORS !! worst) !!! "bg") +:+
      HTML_2 +:+ (default (SEVERITY_COLORS !!! "Absent") (SEVERITY_COLORS !! worst) !!! "text") +:+
      HTML_3 +:+ (default (SEVERITY_COLORS !!! "Absent") (SEVERITY_COLORS !! worst) !!! "icon") +:+
      HTML_4 +:+ worst +:+
      HTML_5 +:+ category_rows (readings report) +:+
      HTML_6 +:+ weather_section weather +:+
      HTML_7 +:+ (default (SEVERITY_COLORS !!! "Absent") (SEVERITY_COLORS !! worst) !!! "text") +:+
      HTML_8 +:+ default "" (RECOMMENDATIONS !! worst) +:+ HTML_9)) by find_piece.
  split_and!.
  - find_piece.
  - exists worst. split_and!; [done|find_piece|find_piece].
  - done.
  - apply category_rows_foldr.
  - intros r Hr. split_and!.
    + eapply substring_of_trans; [by apply category_row_in_rows | exact Hrows].
    + unfold category_row. find_piece.
    + unfold category_row. find_piece.
Qed.

Lemma page_shows_the_report_witness :
  ∃ html,
    build_email_html SAMPLE_REPORT None = inr html ∧
    PyStr.substring_of "02/15/2026" html.
Proof.
  destruct (build_email_html SAMPLE_REPORT None) as [e|html] eqn:Hh.
  { exfalso. vm_compute in Hh. discriminate. }
  exists html. split; [reflexivity|].
  exact (proj1 (page_shows_the_report SAMPLE_REPORT None html Hh)).
Defined.

(** X18. The weather block of the page: no dictionary and an empty
    dictionary give the same page; of a non-empty dictionary only the
    entries temperature, humidity, wind_speed and precipitation matter;
    and the page then has the "Chicago Weather" block with each of the
    four values, or "N/A" for an entry that is missing. *)
Theorem page_weather_block (report : DailyPollenReport) :
  build_email_html report None = build_email_html report (Some ∅) ∧
  (∀ w1 w2 : gmap string string,
     w1 ≠ ∅ → w2 ≠ ∅ →
     (∀ key, key ∈ WEATHER_KEYS → w1 !! key = w2 !! key) →
     build_email_html report (Some w1) = build_email_html report (Some w2)) ∧
  (∀ (w : gmap string string) html,
     w ≠ ∅ → build_email_html report (Some w) = inr html →
     PyStr.substring_of "Chicago Weather" html ∧
     ∀ key, key ∈ WEATHER_KEYS → PyStr.substring_of (default "N/A" (w !! key)) html).
Proof.
  split_and!.
  - unfold build_email_html, weather_section. by rewrite decide_True.
  - intros w1 w2 Hw1 Hw2 Hsame. unfold build_email_html, weather_section.
    rewrite !decide_False by done.
    rewrite !Hsame by (unfold WEATHER_KEYS; rewrite !elem_of_cons; tauto). done.
  - intros w html Hw (worst & _ & ->)%build_email_html_inr.
    unfold weather_section. rewrite decide_False by done.
    split.
    + apply (substring_of_trans _ WEATHER_0); [|find_piece].
      apply contains_spec. by vm_compute.
    + intros key Hkey. unfold WEATHER_KEYS in Hkey.
      rewrite !elem_of_cons, elem_of_nil in Hkey.
      destruct Hkey as [->|[->|[->|[->|[]]]]]; find_piece.
Qed.

(** X19. A level that is none of the five tokens is shown in its table row
    with the colour and the icon of "Absent", while the subject line gives
    it no icon at all; for the five tokens the row and the subject use the
    same icon. *)
Theorem row_style_falls_back_to_absent (r : PollenReading) :
  ∃ colour icon,
    category_row r =
      ROW_0 +:+ category r +:+ ROW_1 +:+ colour +:+ ROW_2 +:+ icon +:+ ROW_3 +:+
      level r +:+ ROW_4 ∧
    (level r ∈ valid_levels → icon = severity_icon (level r)) ∧
    (level r ∉ valid_levels →
       colour = "#388e3c" ∧ icon = "✅" ∧ severity_icon (level r) = "").
Proof.
  unfold category_row. eexists _, _. split; [reflexivity|]. split.
  - intros Hin%valid_levels_cases.
    destruct Hin as [->|[->|[->|[->| ->]]]]; by vm_compute.
  - intros Hnot. split_and!; [| |by apply severity_icon_unknown].
    all: unfold SEVERITY_COLORS at 2; rewrite not_elem_of_list_to_map_1; [by vm_compute|].
    all: intros Hin; apply Hnot, valid_levels_cases; simpl in Hin.
    all: rewrite !elem_of_cons, elem_of_nil in Hin; tauto.
Qed.

(** ** Runs of the examples *)

Example june_monday_is_a_monday :
  Main.weekday june_monday = 0%Z ∧ Main.weekday sunday = 6%Z ∧
  Main.strftime_banner june_monday = "Monday, June 15, 2026 08:00 AM".
Proof. by vm_compute. Qed.

Example weekend_run_only_prints :
  trace_of WEEKEND_WORLD 0 (Main.run "/app" false false) =
  [EvPrint Main.RULE;
   EvPrint "🌿 Chicago Daily Allergy Alert";
   EvPrint "📅 Sunday, June 14, 2026 08:00 AM";
   EvPrint Main.RULE;
   EvPrint "
📅 Weekend — ASAP Illinois doesn't update on weekends.";
   EvPrint "   Use --test flag to force a run for testing."].
Proof. by vm_compute. Qed.

Example sample_run_sends_one_mail :
  ∃ html,
    build_email_html SAMPLE_REPORT (Some SAMPLE_WEATHER) = inr html ∧
    observe SAMPLE_WORLD 0 (Main.run "/app" false false) =
      ([EvHttpGetPage; EvHttpGetWeather;
        EvSmtp (mail_session SAMPLE_ENV "🟠 Chicago Allergy Alert (02/15/2026): High" html)],
       Returned tt).
Proof.
  destruct (build_email_html SAMPLE_REPORT (Some SAMPLE_WEATHER)) as [e|html] eqn:Hh.
  { exfalso. vm_compute in Hh. discriminate. }
  exists html. split; [done|]. rewrite observe_run.
  unfold whole_run, after_scrape.
  replace (proceeds SAMPLE_WORLD 0 false) with true by by vm_compute.
  replace (scraped SAMPLE_WORLD (scrape_start 0 false))
    with (inr (mkDailyPollenReport "02/15/2026"
                 (_extract_readings SAMPLE_HTML "02/15/2026") "2026-06-15 08:00:00")
          : exn + DailyPollenReport) by by vm_compute.
  change (weather_of SAMPLE_WORLD) with (Some SAMPLE_WEATHER).
  change (build_email_html _ (Some SAMPLE_WEATHER))
    with (build_email_html SAMPLE_REPORT (Some SAMPLE_WEATHER)).
  rewrite Hh. by vm_compute.
Qed.
